(** * secure-vault: the well-being escalation core, embedded and verified

    The development follows the repository layer by layer:

    - [Js]: the few JavaScript values the HTTP layer receives (request
      bodies), dates, ObjectIds and their hexadecimal rendering;
    - [Eff]: the state-and-exception monad in which the [async] methods of
      the storage classes and the route handlers are written;
    - [Mongo]: the handful of collection primitives the code uses
      ([findOne], [find], [updateOne], [save], sorted reads);
    - [Env]: the outcomes of the library calls made during one request;
    - [Schema], [MongoDBStorage]: the documents of [@shared/mongodb-schema]
      and the class of [server/mongodb-storage.ts] over them: the counter,
      the threshold and the settings are fields of the user document;
    - [Models], [MongoStorage]: the documents of [shared/models.ts] and the
      class of [server/storage.ts] over them, whose per-user queries
      short-circuit for the administrator pseudo-account and whose list of
      exceeded users is read off separate alert records;
    - [Zod]: the request schemas of the route files;
    - [Routes]: the registration and well-being handlers of
      [registerRoutes], over the [storage] of [server/storage.ts];
    - [Engine]: sequences of the operations of [MongoDBStorage] on the
      well-being fields of a user, and the states they reach;
    - [Sample]: concrete requests and states, among them the scenarios of
      the specification;
    - [SessionStore]: the session store of [server/session-store.ts];
    - [Auth]: the tokens and the authentication middleware of
      [server/auth.ts], over the outcomes of [jsonwebtoken];
    - [Login]: the one-time-password and login handlers of
      [registerRoutes];
    - [Requests]: sequences of requests to these handlers, and the states
      of the server they reach;
    - [Sample2]: concrete sessions, nominees, assets, mood entries, logins
      and tokens;
    - the facts, one section per property of the specification, followed
      by further facts about the per-user collections, the sessions, the
      login and the middleware.

    Conventions. A collection is the list of its documents in store order.
    JSON numbers are modelled by the integers: the counter only ever holds
    0 or a successor, and the bounds of the schemas are integer bounds. A
    handler is given the outcomes [Env] of the library calls of its
    request ([Date.now()], the driver's new ObjectId, [nanoid()],
    [bcrypt.hash], [new Date(s)], the e-mail test of zod). The bearer
    tokens a handler adds to its answer are left out of [Response]: no
    property below reads them.

    The handlers reach the database through the [storage] singleton of
    [server/storage.ts], an instance of [MongoStorage] over the models of
    [shared/models.ts]. [UserSchema] there has no path for the counter,
    the last check-in or a setting: what [storage.updateUserWellBeing] and
    [storage.updateUserWellBeingSettings] write to a user document is its
    [updatedAt], and what a handler reads of these fields is [undefined].
    The well-being engine the specification describes (counter, threshold
    and settings on the user) is the class [MongoDBStorage], which no
    route file imports; its operations are verified on their own. *)

From stdpp Require Import gmap strings list.
From Stdlib Require Import ZArith NArith String Ascii List Bool Lia DecimalString.
From Stdlib Require Import Sorted Permutation.
Import ListNotations.

Local Open Scope Z_scope.
Local Open Scope string_scope.

(** ** JavaScript values *)

Module Js.

(** A field of a JSON request body, as [req.body.<field>] evaluates. *)
Inductive jsval : Type :=
| JUndefined
| JNull
| JBool (b : bool)
| JNum (n : Z)
| JStr (s : string).

(** [Date.now()] and the time value of a [Date]: milliseconds since the
    epoch. *)
Definition Date : Type := Z.

(** A MongoDB ObjectId: a 12-byte value. *)
Record ObjectId : Type := mkObjectId { oid : N }.

Definition ObjectId_eqb (a b : ObjectId) : bool := N.eqb (oid a) (oid b).

Definition hexDigit (d : N) : ascii :=
  match d with
  | 0 => "0" | 1 => "1" | 2 => "2" | 3 => "3" | 4 => "4" | 5 => "5"
  | 6 => "6" | 7 => "7" | 8 => "8" | 9 => "9" | 10 => "a" | 11 => "b"
  | 12 => "c" | 13 => "d" | 14 => "e" | _ => "f"
  end%N%char.

(** The [digits] low hexadecimal digits of [v], most significant first,
    in front of [acc]. *)
Fixpoint toHex (digits : nat) (v : N) (acc : string) : string :=
  match digits with
  | O => acc
  | S k => toHex k (N.div v 16) (String (hexDigit (N.modulo v 16)) acc)
  end.

(** [ObjectId.prototype.toString]: 24 hexadecimal characters. *)
Definition toString (o : ObjectId) : string := toHex 24 (oid o) EmptyString.

Definition hexValue (c : ascii) : option N :=
  let n := N_of_ascii c in
  if ((48 <=? n) && (n <=? 57))%N then Some (n - 48)%N
  else if ((97 <=? n) && (n <=? 102))%N then Some (n - 87)%N
  else if ((65 <=? n) && (n <=? 70))%N then Some (n - 55)%N
  else None.

Fixpoint parseHex (s : string) (acc : N) : option N :=
  match s with
  | EmptyString => Some acc
  | String c rest =>
      match hexValue c with
      | Some d => parseHex rest (acc * 16 + d)%N
      | None => None
      end
  end.

(** The cast Mongoose applies to a string used where the schema says
    ObjectId: a 24-character hexadecimal string is accepted, anything
    else is a CastError ([None]). *)
Definition castObjectId (s : string) : option ObjectId :=
  if Nat.eqb (String.length s) 24
  then option_map mkObjectId (parseHex s 0%N)
  else None.

(** [s.length]: the number of UTF-16 code units of the string whose UTF-8
    encoding is [s]. A byte below 128 or the first byte of a two- or
    three-byte sequence is one unit, the first byte of a four-byte sequence
    is two (a surrogate pair), a continuation byte is none. *)
Fixpoint str_length (s : string) : nat :=
  match s with
  | EmptyString => O
  | String c rest =>
      let b := N_of_ascii c in
      ((if (b <? 128)%N then 1
        else if (b <? 192)%N then 0
        else if (b <? 240)%N then 1
        else 2) + str_length rest)%nat
  end.

(** [String(n)] for an integer [n]. *)
Definition numToString (n : Z) : string := NilZero.string_of_int (Z.to_int n).

(** JavaScript truthiness of a string and of a number ([x || d]). *)
Definition str_or (s d : string) : string :=
  if String.eqb s EmptyString then d else s.

Definition num_or (n d : Z) : Z :=
  if Z.eqb n 0 then d else n.

End Js.

(** ** Effects: state and exceptions *)

Module Eff.

Inductive Result (A : Type) : Type :=
| Ok (a : A)
| Throw (e : string).
Arguments Ok {A} a.
Arguments Throw {A} e.

(** An [async] method over a store of type [S]: it returns or throws,
    and whatever it wrote before throwing stays written. *)
Definition M (S A : Type) : Type := S -> Result A * S.

Definition ret {S A} (a : A) : M S A := fun s => (Ok a, s).

Definition throw {S A} (e : string) : M S A := fun s => (Throw e, s).

Definition bind {S A B} (c : M S A) (k : A -> M S B) : M S B :=
  fun s =>
    match c s with
    | (Ok a, s') => k a s'
    | (Throw e, s') => (Throw e, s')
    end.

Definition gets {S A} (f : S -> A) : M S A := fun s => (Ok (f s), s).

Definition modify {S} (f : S -> S) : M S unit := fun s => (Ok tt, f s).

(** [try { c } catch (error) { h error.message }] *)
Definition try_catch {S A} (c : M S A) (h : string -> M S A) : M S A :=
  fun s =>
    match c s with
    | (Ok a, s') => (Ok a, s')
    | (Throw e, s') => h e s'
    end.

(** Run a computation over a component [get]/[set] of a larger state. *)
Definition zoom {S T A} (get : T -> S) (set : S -> T -> T) (c : M S A) : M T A :=
  fun t =>
    match c (get t) with
    | (r, s') => (r, set s' t)
    end.

End Eff.

Import Eff.

Declare Scope eff_scope.
Delimit Scope eff_scope with eff.
Notation "'do' x <- c ;; k" := (bind c (fun x => k))
  (at level 10, x name, c at level 99, k at level 200) : eff_scope.
Notation "'exec' c ;; k" := (bind c (fun _ => k))
  (at level 10, c at level 99, k at level 200) : eff_scope.

(** ** Collection primitives *)

Module Mongo.

Section Collection.
Context {A : Type}.

(** [Model.findOne(filter)]: the first document that matches. *)
Definition findOne (p : A -> bool) (l : list A) : option A := List.find p l.

(** [Model.find(filter)]: the matching documents, in store order. *)
Definition find (p : A -> bool) (l : list A) : list A := List.filter p l.

(** [Model.updateOne(filter, update)]: the first document that matches
    is rewritten; without a match nothing changes. *)
Fixpoint updateOne (p : A -> bool) (f : A -> A) (l : list A) : list A :=
  match l with
  | [] => []
  | x :: rest => if p x then f x :: rest else x :: updateOne p f rest
  end.

(** [doc.save()] of a new document. *)
Definition insert (x : A) (l : list A) : list A := l ++ [x].

(** [.sort({ key: -1 })]: stable, greatest key first. *)
Fixpoint insertDesc (key : A -> Z) (x : A) (l : list A) : list A :=
  match l with
  | [] => [x]
  | y :: rest =>
      if Z.ltb (key y) (key x) then x :: y :: rest
      else y :: insertDesc key x rest
  end.

Definition sortDesc (key : A -> Z) (l : list A) : list A :=
  List.fold_right (insertDesc key) [] l.

End Collection.

(** [Model.findOneAndDelete(filter)]: the first document that matches is
    removed. *)
Fixpoint deleteOne {A : Type} (p : A -> bool) (l : list A) : list A :=
  match l with
  | [] => []
  | x :: rest => if p x then rest else x :: deleteOne p rest
  end.

(** [Model.findOneAndUpdate(filter, update, { upsert: true })]: the first
    document that matches is rewritten; without a match the document
    [fresh] is stored. *)
Definition upsertOne {A : Type} (p : A -> bool) (f : A -> A) (fresh : A)
  (l : list A) : list A :=
  match List.find p l with
  | Some _ => updateOne p f l
  | None => insert fresh l
  end.

End Mongo.

(** ** The outcomes of library calls during one request

    [Date.now()] / [new Date()], the ObjectId the driver gives a new
    document, [nanoid()], [bcrypt.hash] and [new Date(string)] are inputs
    of the model. *)

Record Env : Type := {
  now : Js.Date;
  newObjectId : Js.ObjectId;
  nanoid : string;
  bcrypt_hash : string -> string;
  (** [new Date(s)]; [None] is the Invalid Date. *)
  parseDate : string -> option Js.Date;
  (** the test behind [z.string().email()] *)
  isEmail : string -> bool }.

(** The same outcomes with the clock reading [t]. *)
Definition atTime (t : Js.Date) (env : Env) : Env :=
  {| now := t;
     newObjectId := newObjectId env;
     nanoid := nanoid env;
     bcrypt_hash := bcrypt_hash env;
     parseDate := parseDate env;
     isEmail := isEmail env |}.

(** ** Documents of [@shared/mongodb-schema] *)

Module Schema.
Import Js.

Module User.
Record t : Type := mk {
  _id : ObjectId;
  id : string;
  email : option string;
  firstName : option string;
  lastName : option string;
  profileImageUrl : option string;
  fullName : option string;
  dateOfBirth : option Date;
  mobileNumber : option string;
  countryCode : string;
  address : option string;
  passwordHash : option string;
  isActive : bool;
  wellBeingFrequency : string;
  lastWellBeingCheck : option Date;
  wellBeingCounter : Z;
  maxWellBeingLimit : Z;
  alertFrequency : string;
  customDays : option Z;
  alertTime : string;
  enableSMS : bool;
  enableEmail : bool;
  escalationEnabled : bool;
  isAdmin : bool;
  accountStatus : string;
  lastLoginAt : option Date;
  createdAt : Date;
  updatedAt : Date }.
End User.

Module MoodEntry.
Record t : Type := mk {
  _id : ObjectId;
  userId : ObjectId;
  mood : string;
  emoji : string;
  notes : option string;
  createdAt : Date;
  updatedAt : Date }.
End MoodEntry.

Module Nominee.
Record t : Type := mk {
  _id : ObjectId;
  userId : ObjectId;
  fullName : string;
  relationship : string;
  mobileNumber : string;
  email : option string;
  isVerified : bool;
  createdAt : Date;
  updatedAt : Date }.
End Nominee.

Module Asset.
Record t : Type := mk {
  _id : ObjectId;
  userId : ObjectId;
  assetType : string;
  title : string;
  description : option string;
  value : option string;
  currency : string;
  contactInfo : option string;
  storageLocation : string;
  accessInstructions : option string;
  createdAt : Date;
  updatedAt : Date }.
End Asset.

Module WellBeingAlert.
Record t : Type := mk {
  _id : ObjectId;
  userId : ObjectId;
  alertType : string;
  message : string;
  isResolved : bool;
  resolvedAt : option Date;
  createdAt : Date;
  updatedAt : Date }.
End WellBeingAlert.

End Schema.

(** ** [server/mongodb-storage.ts]: class [MongoDBStorage] *)

Module MongoDBStorage.
Import Js Mongo Schema.

Record Db : Type := {
  users : list User.t;
  moodEntries : list MoodEntry.t;
  nominees : list Nominee.t;
  assets : list Asset.t;
  wellBeingAlerts : list WellBeingAlert.t }.

Definition emptyDb : Db :=
  {| users := []; moodEntries := []; nominees := []; assets := [];
     wellBeingAlerts := [] |}.

Definition set_users (f : list User.t -> list User.t) (db : Db) : Db :=
  {| users := f (users db); moodEntries := moodEntries db;
     nominees := nominees db; assets := assets db;
     wellBeingAlerts := wellBeingAlerts db |}.

Definition set_wellBeingAlerts
  (f : list WellBeingAlert.t -> list WellBeingAlert.t) (db : Db) : Db :=
  {| users := users db; moodEntries := moodEntries db;
     nominees := nominees db; assets := assets db;
     wellBeingAlerts := f (wellBeingAlerts db) |}.

(** The validator of [required: true] on a string path: the empty string
    does not pass. *)
Definition required (s : string) : bool := negb (String.eqb s EmptyString).

(** [doc.save()] of a new document of a per-user collection: the document
    is validated, then the unique index on [_id] refuses an id that is
    already stored; otherwise the document is stored. *)
Definition save {A} (name : string) (coll : Db -> list A)
  (set : (list A -> list A) -> Db -> Db) (idOf : A -> ObjectId)
  (valid : bool) (x : A) : M Db unit :=
  fun db =>
    if negb valid then (Throw (name ++ " validation failed"), db)
    else if existsb (fun y => ObjectId_eqb (idOf y) (idOf x)) (coll db)
    then (Throw "E11000 duplicate key error", db)
    else (Ok tt, set (insert x) db).

(** The update documents of the three writes to a user. The schema has
    [timestamps: true], so every update also stamps [updatedAt]. *)

(** [{ lastWellBeingCheck: new Date(), wellBeingCounter: 0 }] *)
Definition checkIn (now : Date) (u : User.t) : User.t :=
  {| User._id := User._id u; User.id := User.id u; User.email := User.email u;
     User.firstName := User.firstName u; User.lastName := User.lastName u;
     User.profileImageUrl := User.profileImageUrl u;
     User.fullName := User.fullName u; User.dateOfBirth := User.dateOfBirth u;
     User.mobileNumber := User.mobileNumber u;
     User.countryCode := User.countryCode u; User.address := User.address u;
     User.passwordHash := User.passwordHash u; User.isActive := User.isActive u;
     User.wellBeingFrequency := User.wellBeingFrequency u;
     User.lastWellBeingCheck := Some now;
     User.wellBeingCounter := 0;
     User.maxWellBeingLimit := User.maxWellBeingLimit u;
     User.alertFrequency := User.alertFrequency u;
     User.customDays := User.customDays u; User.alertTime := User.alertTime u;
     User.enableSMS := User.enableSMS u; User.enableEmail := User.enableEmail u;
     User.escalationEnabled := User.escalationEnabled u;
     User.isAdmin := User.isAdmin u; User.accountStatus := User.accountStatus u;
     User.lastLoginAt := User.lastLoginAt u; User.createdAt := User.createdAt u;
     User.updatedAt := now |}.

(** [{ $inc: { wellBeingCounter: 1 } }] *)
Definition incCounter (now : Date) (u : User.t) : User.t :=
  {| User._id := User._id u; User.id := User.id u; User.email := User.email u;
     User.firstName := User.firstName u; User.lastName := User.lastName u;
     User.profileImageUrl := User.profileImageUrl u;
     User.fullName := User.fullName u; User.dateOfBirth := User.dateOfBirth u;
     User.mobileNumber := User.mobileNumber u;
     User.countryCode := User.countryCode u; User.address := User.address u;
     User.passwordHash := User.passwordHash u; User.isActive := User.isActive u;
     User.wellBeingFrequency := User.wellBeingFrequency u;
     User.lastWellBeingCheck := User.lastWellBeingCheck u;
     User.wellBeingCounter := User.wellBeingCounter u + 1;
     User.maxWellBeingLimit := User.maxWellBeingLimit u;
     User.alertFrequency := User.alertFrequency u;
     User.customDays := User.customDays u; User.alertTime := User.alertTime u;
     User.enableSMS := User.enableSMS u; User.enableEmail := User.enableEmail u;
     User.escalationEnabled := User.escalationEnabled u;
     User.isAdmin := User.isAdmin u; User.accountStatus := User.accountStatus u;
     User.lastLoginAt := User.lastLoginAt u; User.createdAt := User.createdAt u;
     User.updatedAt := now |}.

(** The [settings] argument of [updateUserWellBeingSettings], [any] in the
    source, with the keys of the one call of a method of that name in the
    repository, the settings route's: seven keys, [customDays] possibly
    [undefined]. *)
Record WellBeingSettings : Type := {
  s_alertFrequency : string;
  s_customDays : option Z;
  s_alertTime : string;
  s_enableSMS : bool;
  s_enableEmail : bool;
  s_maxWellBeingLimit : Z;
  s_escalationEnabled : bool }.

(** The update [settings] denotes. A key whose value is [undefined] is
    dropped from the update, so the stored [customDays] stays. *)
Definition applySettings (settings : WellBeingSettings) (now : Date)
  (u : User.t) : User.t :=
  {| User._id := User._id u; User.id := User.id u; User.email := User.email u;
     User.firstName := User.firstName u; User.lastName := User.lastName u;
     User.profileImageUrl := User.profileImageUrl u;
     User.fullName := User.fullName u; User.dateOfBirth := User.dateOfBirth u;
     User.mobileNumber := User.mobileNumber u;
     User.countryCode := User.countryCode u; User.address := User.address u;
     User.passwordHash := User.passwordHash u; User.isActive := User.isActive u;
     User.wellBeingFrequency := User.wellBeingFrequency u;
     User.lastWellBeingCheck := User.lastWellBeingCheck u;
     User.wellBeingCounter := User.wellBeingCounter u;
     User.maxWellBeingLimit := s_maxWellBeingLimit settings;
     User.alertFrequency := s_alertFrequency settings;
     User.customDays :=
       match s_customDays settings with
       | Some d => Some d
       | None => User.customDays u
       end;
     User.alertTime := s_alertTime settings;
     User.enableSMS := s_enableSMS settings;
     User.enableEmail := s_enableEmail settings;
     User.escalationEnabled := s_escalationEnabled settings;
     User.isAdmin := User.isAdmin u; User.accountStatus := User.accountStatus u;
     User.lastLoginAt := User.lastLoginAt u; User.createdAt := User.createdAt u;
     User.updatedAt := now |}.

(** [transformUser]: [{ ...user, id: user.id || user._id.toString(), ... }] *)
Definition transformUser (u : User.t) : User.t :=
  {| User._id := User._id u;
     User.id := str_or (User.id u) (toString (User._id u));
     User.email := User.email u;
     User.firstName := User.firstName u; User.lastName := User.lastName u;
     User.profileImageUrl := User.profileImageUrl u;
     User.fullName := User.fullName u; User.dateOfBirth := User.dateOfBirth u;
     User.mobileNumber := User.mobileNumber u;
     User.countryCode := User.countryCode u; User.address := User.address u;
     User.passwordHash := User.passwordHash u; User.isActive := User.isActive u;
     User.wellBeingFrequency := User.wellBeingFrequency u;
     User.lastWellBeingCheck := User.lastWellBeingCheck u;
     User.wellBeingCounter := User.wellBeingCounter u;
     User.maxWellBeingLimit := User.maxWellBeingLimit u;
     User.alertFrequency := User.alertFrequency u;
     User.customDays := User.customDays u; User.alertTime := User.alertTime u;
     User.enableSMS := User.enableSMS u; User.enableEmail := User.enableEmail u;
     User.escalationEnabled := User.escalationEnabled u;
     User.isAdmin := User.isAdmin u; User.accountStatus := User.accountStatus u;
     User.lastLoginAt := User.lastLoginAt u; User.createdAt := User.createdAt u;
     User.updatedAt := User.updatedAt u |}.

(** Query filters on users. *)
Definition byId (id : string) (u : User.t) : bool := String.eqb (User.id u) id.

Definition byMobile (mobileNumber : string) (u : User.t) : bool :=
  match User.mobileNumber u with
  | Some m => String.eqb m mobileNumber
  | None => false
  end.

Definition byEmail (email : string) (u : User.t) : bool :=
  match User.email u with
  | Some e => String.eqb e email
  | None => false
  end.

Definition getUser (id : string) : M Db (option User.t) :=
  gets (fun db => option_map transformUser (findOne (byId id) (users db))).

Definition getUserByMobile (mobileNumber : string) : M Db (option User.t) :=
  gets (fun db =>
    option_map transformUser (findOne (byMobile mobileNumber) (users db))).

Definition getUserByEmail (email : string) : M Db (option User.t) :=
  gets (fun db => option_map transformUser (findOne (byEmail email) (users db))).

Definition getUserById (userId : string) : M Db (option User.t) :=
  gets (fun db => option_map transformUser (findOne (byId userId) (users db))).

(** The argument of [createUser]. *)
Record UserData : Type := {
  d_fullName : string;
  d_dateOfBirth : option Date;
  d_mobileNumber : string;
  d_countryCode : string;
  d_address : string;
  d_email : string;
  d_password : string }.

(** [new UserModel({ id: nanoid(), ... })]: the listed fields, the schema
    defaults for the others. *)
Definition newUser (env : Env) (userData : UserData) : User.t :=
  {| User._id := newObjectId env;
     User.id := nanoid env;
     User.email := Some (d_email userData);
     User.firstName := None; User.lastName := None;
     User.profileImageUrl := None;
     User.fullName := Some (d_fullName userData);
     User.dateOfBirth := d_dateOfBirth userData;
     User.mobileNumber := Some (d_mobileNumber userData);
     User.countryCode := d_countryCode userData;
     User.address := Some (d_address userData);
     User.passwordHash := Some (bcrypt_hash env (d_password userData));
     User.isActive := true;
     User.wellBeingFrequency := "daily";
     User.lastWellBeingCheck := None;
     User.wellBeingCounter := 0;
     User.maxWellBeingLimit := 15;
     User.alertFrequency := "daily";
     User.customDays := None;
     User.alertTime := "09:00";
     User.enableSMS := true; User.enableEmail := true;
     User.escalationEnabled := true;
     User.isAdmin := false;
     User.accountStatus := "active";
     User.lastLoginAt := None;
     User.createdAt := now env;
     User.updatedAt := now env |}.

(** The unique indexes of the users collection: [_id], [id], and [email]
    (sparse: only documents that have one). *)
Definition duplicateKey (u : User.t) (l : list User.t) : bool :=
  existsb (fun v =>
    ObjectId_eqb (User._id v) (User._id u)
    || String.eqb (User.id v) (User.id u)
    || match User.email v, User.email u with
       | Some a, Some b => String.eqb a b
       | _, _ => false
       end) l.

(** [user.save()] of a new user: an Invalid Date fails validation, a
    duplicate key is refused by the index; otherwise the document is
    stored. *)
Definition saveUser (u : User.t) (invalidDate : bool) : M Db unit :=
  fun db =>
    if invalidDate then (Throw "User validation failed", db)
    else if duplicateKey u (users db)
    then (Throw "E11000 duplicate key error", db)
    else (Ok tt, set_users (insert u) db).

(** What [transformUser] makes of a hydrated document, one that was not
    read with [.lean()]: the spread copies the own properties of the
    document object, which are mongoose's ([_doc], the raw document, among
    them) and no schema path; [id], [createdAt] and [updatedAt] are read
    through the getters of the document. *)
Module Hydrated.
Record t : Type := mk {
  _doc : User.t;
  id : string;
  createdAt : Date;
  updatedAt : Date }.
End Hydrated.

Definition transformHydrated (user : User.t) : Hydrated.t :=
  {| Hydrated._doc := user;
     Hydrated.id := str_or (User.id user) (toString (User._id user));
     Hydrated.createdAt := User.createdAt user;
     Hydrated.updatedAt := User.updatedAt user |}.

Definition createUser (env : Env) (userData : UserData) : M Db Hydrated.t :=
  (let user := newUser env userData in
   exec saveUser user
     (match d_dateOfBirth userData with None => true | Some _ => false end) ;;
   ret (transformHydrated user))%eff.

Definition updateUserWellBeing (env : Env) (userId : string) : M Db unit :=
  modify (set_users (updateOne (byId userId) (checkIn (now env)))).

Definition updateUserWellBeingSettings (env : Env) (userId : string)
  (settings : WellBeingSettings) : M Db unit :=
  modify (set_users (updateOne (byId userId) (applySettings settings (now env)))).

Definition incrementWellBeingCounter (env : Env) (userId : string) : M Db unit :=
  modify (set_users (updateOne (byId userId) (incCounter (now env)))).

(** [{ $expr: { $gte: ['$wellBeingCounter', '$maxWellBeingLimit'] } }] *)
Definition exceeded (u : User.t) : bool :=
  Z.leb (User.maxWellBeingLimit u) (User.wellBeingCounter u).

Definition getUsersWithExceededLimits : M Db (list User.t) :=
  gets (fun db => List.map transformUser (find exceeded (users db))).

(** [{ ...doc, id: doc._id.toString() }] *)
Record WithId (A : Type) : Type := withId { doc : A; id : string }.
Arguments withId {A} doc id.
Arguments doc {A} w.
Arguments id {A} w.

(** Mood operations *)

Definition getUserMoodEntries (userId : string) : M Db (list MoodEntry.t) :=
  (do user <- gets (fun db => findOne (byId userId) (users db)) ;;
   match user with
   | None => ret []
   | Some user =>
       gets (fun db =>
         sortDesc MoodEntry.createdAt
           (find (fun e => ObjectId_eqb (MoodEntry.userId e) (User._id user))
                 (moodEntries db)))
   end)%eff.

Definition getLatestMoodEntry (userId : string) : M Db (option MoodEntry.t) :=
  (do user <- gets (fun db => findOne (byId userId) (users db)) ;;
   match user with
   | None => ret None
   | Some user =>
       gets (fun db =>
         List.head
           (sortDesc MoodEntry.createdAt
              (find (fun e => ObjectId_eqb (MoodEntry.userId e) (User._id user))
                    (moodEntries db))))
   end)%eff.

(** Nominee operations *)

Definition getUserNominees (userId : string) : M Db (list (WithId Nominee.t)) :=
  (do user <- gets (fun db => findOne (byId userId) (users db)) ;;
   match user with
   | None => ret []
   | Some user =>
       gets (fun db =>
         List.map (fun nominee => withId nominee (toString (Nominee._id nominee)))
           (find (fun n => ObjectId_eqb (Nominee.userId n) (User._id user))
                 (nominees db)))
   end)%eff.

(** Asset operations *)

Definition getUserAssets (userId : string) : M Db (list (WithId Asset.t)) :=
  (do user <- gets (fun db => findOne (byId userId) (users db)) ;;
   match user with
   | None => ret []
   | Some user =>
       gets (fun db =>
         List.map (fun asset => withId asset (toString (Asset._id asset)))
           (find (fun a => ObjectId_eqb (Asset.userId a) (User._id user))
                 (assets db)))
   end)%eff.

(** Well-being alert operations *)

(** The argument of [createWellBeingAlert]. *)
Record AlertData : Type := {
  a_userId : string;
  a_alertType : string;
  a_message : string;
  a_isResolved : bool;
  a_resolvedAt : option Date }.

(** [new WellBeingAlertModel({ ...alertData, userId: user._id })] *)
Definition newWellBeingAlert (env : Env) (owner : ObjectId)
  (alertData : AlertData) : WellBeingAlert.t :=
  {| WellBeingAlert._id := newObjectId env;
     WellBeingAlert.userId := owner;
     WellBeingAlert.alertType := a_alertType alertData;
     WellBeingAlert.message := a_message alertData;
     WellBeingAlert.isResolved := a_isResolved alertData;
     WellBeingAlert.resolvedAt := a_resolvedAt alertData;
     WellBeingAlert.createdAt := now env;
     WellBeingAlert.updatedAt := now env |}.

Definition createWellBeingAlert (env : Env) (alertData : AlertData)
  : M Db WellBeingAlert.t :=
  (do user <- gets (fun db => findOne (byId (a_userId alertData)) (users db)) ;;
   match user with
   | None => throw "User not found"
   | Some user =>
       let alert := newWellBeingAlert env (User._id user) alertData in
       exec save "WellBeingAlert" wellBeingAlerts set_wellBeingAlerts
              WellBeingAlert._id
              (required (a_alertType alertData) && required (a_message alertData))
              alert ;;
       ret alert
   end)%eff.

Definition getUserWellBeingAlerts (userId : string) : M Db (list WellBeingAlert.t) :=
  (do user <- gets (fun db => findOne (byId userId) (users db)) ;;
   match user with
   | None => ret []
   | Some user =>
       gets (fun db =>
         sortDesc WellBeingAlert.createdAt
           (find (fun a => ObjectId_eqb (WellBeingAlert.userId a) (User._id user))
                 (wellBeingAlerts db)))
   end)%eff.

(** [{ isResolved: true, resolvedAt: new Date() }] *)
Definition resolve (now : Date) (a : WellBeingAlert.t) : WellBeingAlert.t :=
  {| WellBeingAlert._id := WellBeingAlert._id a;
     WellBeingAlert.userId := WellBeingAlert.userId a;
     WellBeingAlert.alertType := WellBeingAlert.alertType a;
     WellBeingAlert.message := WellBeingAlert.message a;
     WellBeingAlert.isResolved := true;
     WellBeingAlert.resolvedAt := Some now;
     WellBeingAlert.createdAt := WellBeingAlert.createdAt a;
     WellBeingAlert.updatedAt := now |}.

(** [findByIdAndUpdate(alertId, ...)]: the string is cast to an ObjectId
    first. *)
Definition resolveWellBeingAlert (env : Env) (alertId : string) : M Db unit :=
  match castObjectId alertId with
  | None => throw "Cast to ObjectId failed"
  | Some o =>
      modify (set_wellBeingAlerts
        (updateOne (fun a => ObjectId_eqb (WellBeingAlert._id a) o)
                   (resolve (now env))))
  end.

(** *** The writes to the per-user collections *)

Definition set_moodEntries (f : list MoodEntry.t -> list MoodEntry.t) (db : Db)
  : Db :=
  {| users := users db; moodEntries := f (moodEntries db);
     nominees := nominees db; assets := assets db;
     wellBeingAlerts := wellBeingAlerts db |}.

Definition set_nominees (f : list Nominee.t -> list Nominee.t) (db : Db) : Db :=
  {| users := users db; moodEntries := moodEntries db;
     nominees := f (nominees db); assets := assets db;
     wellBeingAlerts := wellBeingAlerts db |}.

Definition set_assets (f : list Asset.t -> list Asset.t) (db : Db) : Db :=
  {| users := users db; moodEntries := moodEntries db;
     nominees := nominees db; assets := f (assets db);
     wellBeingAlerts := wellBeingAlerts db |}.

(** The argument of [createMoodEntry]. *)
Record MoodData : Type := {
  m_userId : string;
  m_mood : string;
  m_emoji : string;
  m_notes : option string }.

(** [new MoodEntryModel({ ...moodData, userId: user._id })] *)
Definition newMoodEntry (env : Env) (owner : ObjectId) (moodData : MoodData)
  : MoodEntry.t :=
  {| MoodEntry._id := newObjectId env;
     MoodEntry.userId := owner;
     MoodEntry.mood := m_mood moodData;
     MoodEntry.emoji := m_emoji moodData;
     MoodEntry.notes := m_notes moodData;
     MoodEntry.createdAt := now env;
     MoodEntry.updatedAt := now env |}.

Definition createMoodEntry (env : Env) (moodData : MoodData)
  : M Db MoodEntry.t :=
  (do user <- gets (fun db => findOne (byId (m_userId moodData)) (users db)) ;;
   match user with
   | None => throw "User not found"
   | Some user =>
       let moodEntry := newMoodEntry env (User._id user) moodData in
       exec save "MoodEntry" moodEntries set_moodEntries MoodEntry._id
              (required (m_mood moodData) && required (m_emoji moodData))
              moodEntry ;;
       ret moodEntry
   end)%eff.

(** The argument of [createNominee]. *)
Record NomineeData : Type := {
  n_userId : string;
  n_fullName : string;
  n_relationship : string;
  n_mobileNumber : string;
  n_email : option string;
  n_isVerified : bool }.

Definition newNominee (env : Env) (owner : ObjectId) (nomineeData : NomineeData)
  : Nominee.t :=
  {| Nominee._id := newObjectId env;
     Nominee.userId := owner;
     Nominee.fullName := n_fullName nomineeData;
     Nominee.relationship := n_relationship nomineeData;
     Nominee.mobileNumber := n_mobileNumber nomineeData;
     Nominee.email := n_email nomineeData;
     Nominee.isVerified := n_isVerified nomineeData;
     Nominee.createdAt := now env;
     Nominee.updatedAt := now env |}.

Definition validNominee (nomineeData : NomineeData) : bool :=
  required (n_fullName nomineeData)
  && required (n_relationship nomineeData)
  && required (n_mobileNumber nomineeData).

Definition createNominee (env : Env) (nomineeData : NomineeData)
  : M Db Nominee.t :=
  (do user <- gets (fun db => findOne (byId (n_userId nomineeData)) (users db)) ;;
   match user with
   | None => throw "User not found"
   | Some user =>
       let nominee := newNominee env (User._id user) nomineeData in
       exec save "Nominee" nominees set_nominees Nominee._id
              (validNominee nomineeData) nominee ;;
       ret nominee
   end)%eff.

(** [findByIdAndDelete(nomineeId)]: the string is cast to an ObjectId
    first. *)
Definition deleteNominee (nomineeId : string) : M Db unit :=
  match castObjectId nomineeId with
  | None => throw "Cast to ObjectId failed"
  | Some o =>
      modify (set_nominees (deleteOne (fun n => ObjectId_eqb (Nominee._id n) o)))
  end.

(** The argument of [createAsset]. *)
Record AssetData : Type := {
  as_userId : string;
  as_assetType : string;
  as_title : string;
  as_description : option string;
  as_value : option string;
  as_currency : string;
  as_contactInfo : option string;
  as_storageLocation : string;
  as_accessInstructions : option string }.

Definition newAsset (env : Env) (owner : ObjectId) (assetData : AssetData)
  : Asset.t :=
  {| Asset._id := newObjectId env;
     Asset.userId := owner;
     Asset.assetType := as_assetType assetData;
     Asset.title := as_title assetData;
     Asset.description := as_description assetData;
     Asset.value := as_value assetData;
     Asset.currency := as_currency assetData;
     Asset.contactInfo := as_contactInfo assetData;
     Asset.storageLocation := as_storageLocation assetData;
     Asset.accessInstructions := as_accessInstructions assetData;
     Asset.createdAt := now env;
     Asset.updatedAt := now env |}.

Definition validAsset (assetData : AssetData) : bool :=
  required (as_assetType assetData) && required (as_title assetData).

Definition createAsset (env : Env) (assetData : AssetData) : M Db Asset.t :=
  (do user <- gets (fun db => findOne (byId (as_userId assetData)) (users db)) ;;
   match user with
   | None => throw "User not found"
   | Some user =>
       let asset := newAsset env (User._id user) assetData in
       exec save "Asset" assets set_assets Asset._id
              (validAsset assetData) asset ;;
       ret asset
   end)%eff.

Definition deleteAsset (assetId : string) : M Db unit :=
  match castObjectId assetId with
  | None => throw "Cast to ObjectId failed"
  | Some o =>
      modify (set_assets (deleteOne (fun a => ObjectId_eqb (Asset._id a) o)))
  end.

(** [{ accountStatus: status }] *)
Definition setStatus (status : string) (now : Date) (u : User.t) : User.t :=
  {| User._id := User._id u; User.id := User.id u; User.email := User.email u;
     User.firstName := User.firstName u; User.lastName := User.lastName u;
     User.profileImageUrl := User.profileImageUrl u;
     User.fullName := User.fullName u; User.dateOfBirth := User.dateOfBirth u;
     User.mobileNumber := User.mobileNumber u;
     User.countryCode := User.countryCode u; User.address := User.address u;
     User.passwordHash := User.passwordHash u; User.isActive := User.isActive u;
     User.wellBeingFrequency := User.wellBeingFrequency u;
     User.lastWellBeingCheck := User.lastWellBeingCheck u;
     User.wellBeingCounter := User.wellBeingCounter u;
     User.maxWellBeingLimit := User.maxWellBeingLimit u;
     User.alertFrequency := User.alertFrequency u;
     User.customDays := User.customDays u; User.alertTime := User.alertTime u;
     User.enableSMS := User.enableSMS u; User.enableEmail := User.enableEmail u;
     User.escalationEnabled := User.escalationEnabled u;
     User.isAdmin := User.isAdmin u; User.accountStatus := status;
     User.lastLoginAt := User.lastLoginAt u; User.createdAt := User.createdAt u;
     User.updatedAt := now |}.

Definition updateUserStatus (env : Env) (userId status : string) : M Db unit :=
  modify (set_users (updateOne (byId userId) (setStatus status (now env)))).

End MongoDBStorage.

(** ** Documents of [shared/models.ts] *)

Module Models.
Import Js.

Module User.
Record t : Type := mk {
  _id : ObjectId;
  fullName : string;
  dateOfBirth : Date;
  mobileNumber : string;
  countryCode : string;
  address : string;
  email : string;
  password : option string;
  provider : option string;
  providerId : option string;
  isVerified : bool;
  createdAt : Date;
  updatedAt : Date }.

(** The interface [IUser] declares the well-being fields below;
    [UserSchema] has no such path. A document has no getter for them:
    reading one gives [undefined], whatever the stored document holds, and
    in strict mode (the default) a write of one is dropped. *)
Definition alertFrequency (user : t) : option string := None.
Definition customDays (user : t) : option Z := None.
Definition alertTime (user : t) : option string := None.
Definition enableSMS (user : t) : option bool := None.
Definition enableEmail (user : t) : option bool := None.
Definition maxWellBeingLimit (user : t) : option Z := None.
Definition escalationEnabled (user : t) : option bool := None.
Definition lastWellBeingCheck (user : t) : option Date := None.
Definition wellBeingCounter (user : t) : option Z := None.
End User.

Module Asset.
Record t : Type := mk {
  _id : ObjectId;
  userId : ObjectId;
  assetType : string;
  title : string;
  description : string;
  value : string;
  currency : string;
  contactInfo : string;
  storageLocation : string;
  accessInstructions : string;
  createdAt : Date;
  updatedAt : Date }.
End Asset.

Module Nominee.
Record t : Type := mk {
  _id : ObjectId;
  userId : ObjectId;
  fullName : string;
  relationship : string;
  mobileNumber : string;
  email : option string;
  isVerified : bool;
  verificationCode : option string;
  createdAt : Date;
  updatedAt : Date }.
End Nominee.

Module WellBeingAlert.
Record t : Type := mk {
  _id : ObjectId;
  userId : ObjectId;
  alertFrequency : string;
  customDays : option Z;
  alertTime : string;
  enableSMS : bool;
  enableEmail : bool;
  maxMissedAlerts : Z;
  escalationEnabled : bool;
  currentCount : Z;
  lastResponse : option Date;
  isActive : bool;
  createdAt : Date;
  updatedAt : Date }.
End WellBeingAlert.

Module MoodEntry.
Record t : Type := mk {
  _id : ObjectId;
  userId : ObjectId;
  mood : string;
  intensity : Z;
  notes : option string;
  context : option string;
  createdAt : Date }.
End MoodEntry.

End Models.

(** ** [server/storage.ts]: class [MongoStorage] *)

Module MongoStorage.
Import Js Mongo Models.

(** The collections, and the log of the queries sent to the database. *)
Record Db : Type := {
  users : list User.t;
  nominees : list Nominee.t;
  assets : list Asset.t;
  moodEntries : list MoodEntry.t;
  wellBeingAlerts : list WellBeingAlert.t;
  queries : list string }.

Definition emptyDb : Db :=
  {| users := []; nominees := []; assets := []; moodEntries := [];
     wellBeingAlerts := []; queries := [] |}.

Definition logQuery (name : string) (db : Db) : Db :=
  {| users := users db; nominees := nominees db; assets := assets db;
     moodEntries := moodEntries db; wellBeingAlerts := wellBeingAlerts db;
     queries := queries db ++ [name] |}.

(** One read sent to the database. *)
Definition query {A} (name : string) (read : Db -> A) : M Db A :=
  fun db => (Ok (read db), logQuery name db).

Definition set_users (f : list User.t -> list User.t) (db : Db) : Db :=
  {| users := f (users db); nominees := nominees db; assets := assets db;
     moodEntries := moodEntries db; wellBeingAlerts := wellBeingAlerts db;
     queries := queries db |}.

(** One write to the users collection sent to the database. *)
Definition command (name : string) (write : list User.t -> list User.t)
  : M Db unit :=
  fun db => (Ok tt, logQuery name (set_users write db)).

(** *** User operations *)

(** The [userData] the registration route hands to [createUser];
    [d_dateOfBirth] is [new Date(s)], [None] the Invalid Date. *)
Record UserData : Type := {
  d_fullName : string;
  d_dateOfBirth : option Date;
  d_mobileNumber : string;
  d_countryCode : string;
  d_address : string;
  d_email : string;
  d_password : string;
  d_provider : string;
  d_isVerified : bool }.

(** [new User(userData)] *)
Definition newUser (env : Env) (userData : UserData) (birth : Date) : User.t :=
  {| User._id := newObjectId env;
     User.fullName := d_fullName userData;
     User.dateOfBirth := birth;
     User.mobileNumber := d_mobileNumber userData;
     User.countryCode := d_countryCode userData;
     User.address := d_address userData;
     User.email := d_email userData;
     User.password := Some (d_password userData);
     User.provider := Some (d_provider userData);
     User.providerId := None;
     User.isVerified := d_isVerified userData;
     User.createdAt := now env;
     User.updatedAt := now env |}.

(** The validator of [required: true] on a string path: the empty string
    does not pass. *)
Definition required (s : string) : bool := negb (String.eqb s EmptyString).

(** The required paths of [UserSchema]. *)
Definition validUser (userData : UserData) : bool :=
  required (d_fullName userData)
  && required (d_mobileNumber userData)
  && required (d_countryCode userData)
  && required (d_address userData)
  && required (d_email userData).

(** The unique indexes of the users collection: [_id], [mobileNumber] and
    [email]. *)
Definition duplicateKey (u : User.t) (l : list User.t) : bool :=
  existsb (fun v =>
    ObjectId_eqb (User._id v) (User._id u)
    || String.eqb (User.mobileNumber v) (User.mobileNumber u)
    || String.eqb (User.email v) (User.email u)) l.

(** [createUser]: [new User(userData)] and [user.save()], which validates
    the document, lets the unique indexes refuse it, or stores it; the
    saved document is returned. *)
Definition createUser (env : Env) (userData : UserData) : M Db User.t :=
  match d_dateOfBirth userData with
  | None => throw "User validation failed"
  | Some birth =>
      let user := newUser env userData birth in
      if negb (validUser userData) then throw "User validation failed"
      else
        fun db =>
          if duplicateKey user (users db)
          then (Throw "E11000 duplicate key error", logQuery "User.insertOne" db)
          else (Ok user, logQuery "User.insertOne" (set_users (insert user) db))
  end.

Definition byObjectId (o : ObjectId) (u : User.t) : bool :=
  ObjectId_eqb (User._id u) o.

(** [User.findById(id)]: the string is cast to an ObjectId first. *)
Definition getUser (id : string) : M Db (option User.t) :=
  match castObjectId id with
  | None => throw "Cast to ObjectId failed"
  | Some o => query "User.findOne" (fun db => findOne (byObjectId o) (users db))
  end.

Definition getUserById (id : string) : M Db (option User.t) :=
  match castObjectId id with
  | None => throw "Cast to ObjectId failed"
  | Some o => query "User.findOne" (fun db => findOne (byObjectId o) (users db))
  end.

(** [Model.find({ userId })] with a string [userId]: the filter is cast
    to the schema type before the query is sent. *)
Definition findByUserId {A} (name : string) (coll : Db -> list A)
  (userIdOf : A -> ObjectId) (userId : string) : M Db (list A) :=
  match castObjectId userId with
  | None => throw "Cast to ObjectId failed"
  | Some o =>
      query name (fun db => find (fun d => ObjectId_eqb (userIdOf d) o) (coll db))
  end.

Definition getNomineesByUserId (userId : string) : M Db (list Nominee.t) :=
  if String.eqb userId "admin" then ret []
  else findByUserId "Nominee.find" nominees Nominee.userId userId.

Definition getAssetsByUserId (userId : string) : M Db (list Asset.t) :=
  if String.eqb userId "admin" then ret []
  else findByUserId "Asset.find" assets Asset.userId userId.

Definition getMoodEntriesByUserId (userId : string) : M Db (list MoodEntry.t) :=
  if String.eqb userId "admin" then ret []
  else
    (do entries <- findByUserId "MoodEntry.find" moodEntries MoodEntry.userId userId ;;
     ret (sortDesc MoodEntry.createdAt entries))%eff.

Definition getRecentMoodEntries (userId : string) (limit : nat)
  : M Db (list MoodEntry.t) :=
  if String.eqb userId "admin" then ret []
  else
    (do entries <- findByUserId "MoodEntry.find" moodEntries MoodEntry.userId userId ;;
     ret (firstn limit (sortDesc MoodEntry.createdAt entries)))%eff.

Definition getUserMoodEntries (userId : string) : M Db (list MoodEntry.t) :=
  if String.eqb userId "admin" then ret []
  else
    (do entries <- findByUserId "MoodEntry.find" moodEntries MoodEntry.userId userId ;;
     ret (sortDesc MoodEntry.createdAt entries))%eff.

Definition getUserLatestMood (userId : string) : M Db (option MoodEntry.t) :=
  if String.eqb userId "admin" then ret None
  else
    (do entries <- findByUserId "MoodEntry.findOne" moodEntries MoodEntry.userId userId ;;
     ret (List.head (sortDesc MoodEntry.createdAt entries)))%eff.

(** [getWellBeingAlerts(userId?)]: without a user id (or with the empty
    string) the filter is [{}]. *)
Definition getWellBeingAlerts (userId : option string)
  : M Db (list WellBeingAlert.t) :=
  match userId with
  | Some "admin" => ret []
  | Some EmptyString | None => query "WellBeingAlert.find" wellBeingAlerts
  | Some userId =>
      findByUserId "WellBeingAlert.find" wellBeingAlerts WellBeingAlert.userId userId
  end.

(** [{ $expr: { $gte: ['$currentCount', '$maxMissedAlerts'] } }] *)
Definition exceeded (alert : WellBeingAlert.t) : bool :=
  Z.leb (WellBeingAlert.maxMissedAlerts alert) (WellBeingAlert.currentCount alert).

Definition getUsersWithExceededLimits : M Db (list User.t) :=
  (do exceededAlerts <- query "WellBeingAlert.find"
                          (fun db => find exceeded (wellBeingAlerts db)) ;;
   let userIds := List.map WellBeingAlert.userId exceededAlerts in
   query "User.find"
     (fun db => find (fun u => existsb (ObjectId_eqb (User._id u)) userIds)
                     (users db)))%eff.

(** *** Additional helper functions needed by routes *)

(** What [User.findByIdAndUpdate(userId, update)] writes when no key of
    [update] is a path of [UserSchema]: strict mode drops the keys, and
    [timestamps: true] stamps [updatedAt]. *)
Definition stamp (now : Date) (u : User.t) : User.t :=
  {| User._id := User._id u;
     User.fullName := User.fullName u;
     User.dateOfBirth := User.dateOfBirth u;
     User.mobileNumber := User.mobileNumber u;
     User.countryCode := User.countryCode u;
     User.address := User.address u;
     User.email := User.email u;
     User.password := User.password u;
     User.provider := User.provider u;
     User.providerId := User.providerId u;
     User.isVerified := User.isVerified u;
     User.createdAt := User.createdAt u;
     User.updatedAt := now |}.

(** The [data] of [updateUserWellBeing]. *)
Record WellBeingData : Type := {
  w_lastWellBeingCheck : option Date;
  w_wellBeingCounter : option Z }.

(** [User.findByIdAndUpdate(userId, data)]: neither key of [data] is a
    path of [UserSchema]. *)
Definition updateUserWellBeing (env : Env) (userId : string)
  (data : WellBeingData) : M Db unit :=
  match castObjectId userId with
  | None => throw "Cast to ObjectId failed"
  | Some o =>
      command "User.findOneAndUpdate" (updateOne (byObjectId o) (stamp (now env)))
  end.

(** The [settings] object [updateUserWellBeingSettings] receives from the
    settings route: seven keys, [customDays] possibly [undefined]. *)
Record WellBeingSettings : Type := {
  s_alertFrequency : string;
  s_customDays : option Z;
  s_alertTime : string;
  s_enableSMS : bool;
  s_enableEmail : bool;
  s_maxWellBeingLimit : Z;
  s_escalationEnabled : bool }.

(** [User.findByIdAndUpdate(userId, settings)]: none of the seven keys is
    a path of [UserSchema]. *)
Definition updateUserWellBeingSettings (env : Env) (userId : string)
  (settings : WellBeingSettings) : M Db unit :=
  match castObjectId userId with
  | None => throw "Cast to ObjectId failed"
  | Some o =>
      command "User.findOneAndUpdate" (updateOne (byObjectId o) (stamp (now env)))
  end.

(** Alias functions for different naming conventions *)
Definition getAssets (userId : string) : M Db (list Asset.t) :=
  getAssetsByUserId userId.

Definition getNominees (userId : string) : M Db (list Nominee.t) :=
  getNomineesByUserId userId.

(** User lookups *)

Definition getUserByEmail (email : string) : M Db (option User.t) :=
  query "User.findOne"
    (fun db => findOne (fun u => String.eqb (User.email u) email) (users db)).

Definition getUserByMobile (mobileNumber : string) : M Db (option User.t) :=
  query "User.findOne"
    (fun db => findOne (fun u => String.eqb (User.mobileNumber u) mobileNumber)
                       (users db)).

End MongoStorage.

(** ** The request schemas ([zod]) *)

Module Zod.
Import Js.

Definition z_string (v : jsval) : option string :=
  match v with JStr s => Some s | _ => None end.

(** [z.string().min(n)] *)
Definition z_string_min (n : nat) (v : jsval) : option string :=
  match v with
  | JStr s => if Nat.leb n (str_length s) then Some s else None
  | _ => None
  end.

(** [z.string().default(d)] *)
Definition z_string_default (d : string) (v : jsval) : option string :=
  match v with
  | JUndefined => Some d
  | JStr s => Some s
  | _ => None
  end.

(** [z.string().email()] *)
Definition z_email (env : Env) (v : jsval) : option string :=
  match v with
  | JStr s => if isEmail env s then Some s else None
  | _ => None
  end.

Definition z_boolean (v : jsval) : option bool :=
  match v with JBool b => Some b | _ => None end.

(** [z.number().min(lo).max(hi)] *)
Definition z_number_min_max (lo hi : Z) (v : jsval) : option Z :=
  match v with
  | JNum n => if Z.leb lo n && Z.leb n hi then Some n else None
  | _ => None
  end.

(** [.optional()] *)
Definition z_optional {A} (schema : jsval -> option A) (v : jsval)
  : option (option A) :=
  match v with
  | JUndefined => Some None
  | _ => option_map Some (schema v)
  end.

(** [z.enum([...])] *)
Definition z_enum (values : list string) (v : jsval) : option string :=
  match v with
  | JStr s => if existsb (String.eqb s) values then Some s else None
  | _ => None
  end.

(** [registrationStep1Schema] *)
Module Step1.
Record Body : Type := {
  fullName : jsval;
  dateOfBirth : jsval;
  mobileNumber : jsval;
  countryCode : jsval;
  address : jsval }.
End Step1.

Module Step1Data.
Record t : Type := mk {
  fullName : string;
  dateOfBirth : string;
  mobileNumber : string;
  countryCode : string;
  address : string }.
End Step1Data.

Definition registrationStep1Schema (body : Step1.Body) : option Step1Data.t :=
  match z_string_min 2 (Step1.fullName body),
        z_string (Step1.dateOfBirth body),
        z_string_min 10 (Step1.mobileNumber body),
        z_string_default "+91" (Step1.countryCode body),
        z_string_min 10 (Step1.address body) with
  | Some fullName, Some dateOfBirth, Some mobileNumber, Some countryCode,
    Some address =>
      Some (Step1Data.mk fullName dateOfBirth mobileNumber countryCode address)
  | _, _, _, _, _ => None
  end.

(** [registrationStep2Schema.extend({ tempId: z.string() })] *)
Module Step2.
Record Body : Type := {
  email : jsval;
  password : jsval;
  tempId : jsval }.
End Step2.

Module Step2Data.
Record t : Type := mk {
  email : string;
  password : string;
  tempId : string }.
End Step2Data.

Definition registrationStep2Schema (env : Env) (body : Step2.Body)
  : option Step2Data.t :=
  match z_email env (Step2.email body),
        z_string_min 8 (Step2.password body),
        z_string (Step2.tempId body) with
  | Some email, Some password, Some tempId =>
      Some (Step2Data.mk email password tempId)
  | _, _, _ => None
  end.

(** [wellBeingSettingsSchema] *)
Module Settings.
Record Body : Type := {
  alertFrequency : jsval;
  customDays : jsval;
  alertTime : jsval;
  enableSMS : jsval;
  enableEmail : jsval;
  maxMissedAlerts : jsval;
  escalationEnabled : jsval }.
End Settings.

Module SettingsData.
Record t : Type := mk {
  alertFrequency : string;
  customDays : option Z;
  alertTime : string;
  enableSMS : bool;
  enableEmail : bool;
  maxMissedAlerts : Z;
  escalationEnabled : bool }.
End SettingsData.

Definition wellBeingSettingsSchema (body : Settings.Body)
  : option SettingsData.t :=
  match z_enum ["daily"; "weekly"; "custom"] (Settings.alertFrequency body),
        z_optional (z_number_min_max 1 30) (Settings.customDays body),
        z_string (Settings.alertTime body),
        z_boolean (Settings.enableSMS body),
        z_boolean (Settings.enableEmail body),
        z_number_min_max 1 50 (Settings.maxMissedAlerts body),
        z_boolean (Settings.escalationEnabled body) with
  | Some alertFrequency, Some customDays, Some alertTime, Some enableSMS,
    Some enableEmail, Some maxMissedAlerts, Some escalationEnabled =>
      Some (SettingsData.mk alertFrequency customDays alertTime enableSMS
              enableEmail maxMissedAlerts escalationEnabled)
  | _, _, _, _, _, _, _ => None
  end.

(** [schema.parse(req.body)]: the parsed data, or a thrown [ZodError]. *)
Definition parse {S A} (parsed : option A) : M S A :=
  match parsed with
  | Some a => ret a
  | None => throw "ZodError"
  end.

End Zod.

(** ** The route handlers of [registerRoutes]

    [routes.ts] imports [storage] from [./storage]: the handlers reach the
    database through the [MongoStorage] singleton, over the documents of
    [shared/models.ts]. *)

Module Routes.
Import Js Models Zod.

(** An entry of [registrationTempData]. *)
Record TempData : Type := {
  step1Data : option Step1Data.t;
  otp : option string;
  otpExpiry : option Z }.

(** The process state: the database behind [storage] and the in-memory
    map [registrationTempData], which the registration, the one-time
    password and the login handlers share. *)
Record Server : Type := {
  db : MongoStorage.Db;
  registrationTempData : gmap string TempData }.

Definition emptyServer : Server :=
  {| db := MongoStorage.emptyDb; registrationTempData := ∅ |}.

Definition set_db (d : MongoStorage.Db) (srv : Server) : Server :=
  {| db := d; registrationTempData := registrationTempData srv |}.

Definition set_registrationTempData
  (f : gmap string TempData -> gmap string TempData) (srv : Server) : Server :=
  {| db := db srv; registrationTempData := f (registrationTempData srv) |}.

(** [await storage.<method>(...)] *)
Definition storage {A} (call : M MongoStorage.Db A) : M Server A :=
  zoom db set_db call.

(** [res.status(status).json({ message, ...payload })] *)
Record Response (A : Type) : Type := {
  status : nat;
  message : option string;
  payload : option A }.
Arguments status {A} r.
Arguments message {A} r.
Arguments payload {A} r.

Definition reply {A} (status : nat) (message : string) (payload : option A)
  : Response A :=
  {| status := status; message := Some message; payload := payload |}.

Definition json {S A} (status : nat) (message : string) (payload : option A)
  : M S (Response A) :=
  ret (reply status message payload).

(** [{ _id: user._id, email: user.email, fullName: user.fullName }] *)
Record UserSummary : Type := {
  sum_id : ObjectId;
  sum_email : string;
  sum_fullName : string }.

(** [validatedData.mobileNumber + '_' + Date.now()] *)
Definition tempIdOf (env : Env) (validatedData : Step1Data.t) : string :=
  Step1Data.mobileNumber validatedData ++ "_" ++ numToString (now env).

(** [{ step1Data: validatedData }] *)
Definition tempDataOf (validatedData : Step1Data.t) : TempData :=
  {| step1Data := Some validatedData; otp := None; otpExpiry := None |}.

(** [POST /api/register/step1] *)
Definition register_step1 (env : Env) (body : Step1.Body)
  : M Server (Response string) :=
  try_catch
    (do validatedData <- parse (registrationStep1Schema body) ;;
     do existingUser <-
        storage (MongoStorage.getUserByMobile
                   (Step1Data.mobileNumber validatedData)) ;;
     match existingUser with
     | Some _ => json 400 "Mobile number already registered" None
     | None =>
         let tempId := tempIdOf env validatedData in
         exec modify (set_registrationTempData
                        <[tempId := tempDataOf validatedData]>) ;;
         json 200 "Step 1 completed successfully" (Some tempId)
     end)%eff
    (fun _ => json 400 "Invalid data" None).

(** The [userData] of phase 2: the phase-1 fields, the e-mail address,
    the hashed password, the parsed date of birth, [provider: 'local'] and
    [isVerified: false]. *)
Definition userDataOf (env : Env) (step1Data : Step1Data.t)
  (validatedData : Step2Data.t) : MongoStorage.UserData :=
  {| MongoStorage.d_fullName := Step1Data.fullName step1Data;
     MongoStorage.d_dateOfBirth :=
       parseDate env (Step1Data.dateOfBirth step1Data);
     MongoStorage.d_mobileNumber := Step1Data.mobileNumber step1Data;
     MongoStorage.d_countryCode := Step1Data.countryCode step1Data;
     MongoStorage.d_address := Step1Data.address step1Data;
     MongoStorage.d_email := Step2Data.email validatedData;
     MongoStorage.d_password :=
       bcrypt_hash env (Step2Data.password validatedData);
     MongoStorage.d_provider := "local";
     MongoStorage.d_isVerified := false |}.

(** [{ _id: user._id, email: user.email, fullName: user.fullName }] *)
Definition summary (user : User.t) : UserSummary :=
  {| sum_id := User._id user;
     sum_email := User.email user;
     sum_fullName := User.fullName user |}.

(** [POST /api/register/step2] *)
Definition register_step2 (env : Env) (body : Step2.Body)
  : M Server (Response UserSummary) :=
  try_catch
    (do validatedData <- parse (registrationStep2Schema env body) ;;
     let tempId := Step2Data.tempId validatedData in
     do tempData <- gets (fun srv => registrationTempData srv !! tempId) ;;
     match tempData ≫= step1Data with
     | None => json 400 "Please complete step 1 first or session expired" None
     | Some step1Data =>
         do existingUser <-
            storage (MongoStorage.getUserByEmail
                       (Step2Data.email validatedData)) ;;
         match existingUser with
         | Some _ => json 400 "Email already registered" None
         | None =>
             do user <- storage (MongoStorage.createUser env
                                   (userDataOf env step1Data validatedData)) ;;
             exec modify (set_registrationTempData (delete tempId)) ;;
             json 200 "Registration successful" (Some (summary user))
         end
     end)%eff
    (fun _ => json 400 "Registration failed" None).

(** [POST /api/wellbeing/confirm] *)
Definition wellbeing_confirm (env : Env) (userId : string)
  : M Server (Response unit) :=
  try_catch
    (exec storage
       (MongoStorage.updateUserWellBeing env userId
          {| MongoStorage.w_lastWellBeingCheck := Some (now env);
             MongoStorage.w_wellBeingCounter := Some 0 |}) ;;
     json 200 "Well-being confirmed" None)%eff
    (fun _ => json 500 "Failed to confirm well-being" None).

(** The [settings] object of [GET /api/wellbeing/settings]:
    [user.alertFrequency || 'daily'], [user.customDays || 1],
    [user.alertTime || '09:00'], [user.enableSMS !== false],
    [user.enableEmail !== false], [user.maxWellBeingLimit || 15] and
    [user.escalationEnabled !== false]. *)
Definition settingsOf (user : User.t) : SettingsData.t :=
  {| SettingsData.alertFrequency :=
       match User.alertFrequency user with
       | Some f => str_or f "daily"
       | None => "daily"
       end;
     SettingsData.customDays :=
       Some (match User.customDays user with
             | Some d => num_or d 1
             | None => 1
             end);
     SettingsData.alertTime :=
       match User.alertTime user with
       | Some t => str_or t "09:00"
       | None => "09:00"
       end;
     SettingsData.enableSMS :=
       match User.enableSMS user with
       | Some false => false
       | _ => true
       end;
     SettingsData.enableEmail :=
       match User.enableEmail user with
       | Some false => false
       | _ => true
       end;
     SettingsData.maxMissedAlerts :=
       match User.maxWellBeingLimit user with
       | Some limit => num_or limit 15
       | None => 15
       end;
     SettingsData.escalationEnabled :=
       match User.escalationEnabled user with
       | Some false => false
       | _ => true
       end |}.

(** [GET /api/wellbeing/settings] *)
Definition get_wellbeing_settings (userId : string)
  : M Server (Response SettingsData.t) :=
  try_catch
    (do user <- storage (MongoStorage.getUser userId) ;;
     match user with
     | None => json 404 "User not found" None
     | Some user =>
         ret {| status := 200; message := None;
                payload := Some (settingsOf user) |}
     end)%eff
    (fun _ => json 500 "Failed to fetch settings" None).

(** The object the settings route hands to
    [storage.updateUserWellBeingSettings]. *)
Definition settingsUpdate (settingsData : SettingsData.t)
  : MongoStorage.WellBeingSettings :=
  {| MongoStorage.s_alertFrequency := SettingsData.alertFrequency settingsData;
     MongoStorage.s_customDays := SettingsData.customDays settingsData;
     MongoStorage.s_alertTime := SettingsData.alertTime settingsData;
     MongoStorage.s_enableSMS := SettingsData.enableSMS settingsData;
     MongoStorage.s_enableEmail := SettingsData.enableEmail settingsData;
     MongoStorage.s_maxWellBeingLimit :=
       SettingsData.maxMissedAlerts settingsData;
     MongoStorage.s_escalationEnabled :=
       SettingsData.escalationEnabled settingsData |}.

(** [PUT /api/wellbeing/settings] *)
Definition put_wellbeing_settings (env : Env) (userId : string)
  (body : Settings.Body) : M Server (Response unit) :=
  try_catch
    (do settingsData <- parse (wellBeingSettingsSchema body) ;;
     exec storage
       (MongoStorage.updateUserWellBeingSettings env userId
          (settingsUpdate settingsData)) ;;
     json 200 "Settings updated successfully" None)%eff
    (fun _ => json 400 "Failed to update settings" None).

End Routes.

(** ** Sequences of storage operations

    The operations of [MongoDBStorage] on the well-being fields of a user,
    each performed with the library outcomes [Env] of its call, and the
    states they reach from the empty database. *)

Module Engine.
Import MongoDBStorage.

Inductive Op : Type :=
| CreateUser (userData : UserData)
| IncrementMissed (userId : string)
| RecordCheckIn (userId : string)
| UpdateSettings (userId : string) (settings : WellBeingSettings).

(** The caller of [createUser] sees the user or the exception; the state
    machine only keeps the store. *)
Definition perform (env : Env) (op : Op) : M Db unit :=
  match op with
  | CreateUser userData =>
      try_catch (exec createUser env userData ;; ret tt)%eff (fun _ => ret tt)
  | IncrementMissed userId => incrementWellBeingCounter env userId
  | RecordCheckIn userId => updateUserWellBeing env userId
  | UpdateSettings userId settings =>
      updateUserWellBeingSettings env userId settings
  end.

Definition step (db : Db) (ev : Env * Op) : Db :=
  snd (perform (fst ev) (snd ev) db).

Definition run (evs : list (Env * Op)) (db : Db) : Db :=
  List.fold_left step evs db.

(** [listExceeded()]: the users [getUsersWithExceededLimits] returns. *)
Definition listExceeded (db : Db) : list Schema.User.t :=
  match getUsersWithExceededLimits db with
  | (Ok l, _) => l
  | (Throw _, _) => []
  end.

(** The ways one operation can change the users collection [l]. *)
Inductive UsersChange (env : Env) (l : list Schema.User.t)
  : Op -> list Schema.User.t -> Prop :=
| Unchanged op : UsersChange env l op l
| Created op userData :
    duplicateKey (newUser env userData) l = false ->
    UsersChange env l op (l ++ [newUser env userData])
| Incremented userId :
    UsersChange env l (IncrementMissed userId)
      (Mongo.updateOne (byId userId) (incCounter (now env)) l)
| CheckedIn userId :
    UsersChange env l (RecordCheckIn userId)
      (Mongo.updateOne (byId userId) (checkIn (now env)) l)
| Configured userId settings :
    UsersChange env l (UpdateSettings userId settings)
      (Mongo.updateOne (byId userId) (applySettings settings (now env)) l).

(** What a user document satisfies in the reachable states: a
    non-negative counter. *)
Definition userInv (u : Schema.User.t) : Prop :=
  0 <= Schema.User.wellBeingCounter u.

(** The invariant of the users collection in the reachable states. *)
Definition usersInv (l : list Schema.User.t) : Prop :=
  Forall userInv l /\ NoDup (List.map Schema.User._id l).

(** How the counter of one user may move over one operation: it does not
    decrease, unless the operation is this user's check-in, which leaves
    it at zero. *)
Definition counterStep (op : Op) (u u' : Schema.User.t) : Prop :=
  Schema.User._id u' = Schema.User._id u
  /\ (Schema.User.wellBeingCounter u <= Schema.User.wellBeingCounter u'
      \/ (op = RecordCheckIn (Schema.User.id u)
          /\ Schema.User.wellBeingCounter u' = 0)).

End Engine.

(** ** Sample requests *)

Module Sample.
Import Js Routes.

Definition env (t : Z) (n : N) (id : string) : Env :=
  {| now := t;
     newObjectId := mkObjectId n;
     nanoid := id;
     bcrypt_hash := fun s => "$2b$10$" ++ s;
     parseDate := fun s =>
       if String.eqb s "1990-01-01" then Some 631152000000 else None;
     isEmail := fun s => existsb (Ascii.eqb "@"%char) (list_ascii_of_string s) |}.

Definition env1 : Env := env 1700000000000 1 "V1StGXR8_Z5jdHi6B-myT".
Definition env2 : Env := env 1700000060000 2 "3Kq0bTn_x7WgPz5dLr8Ys".
Definition env3 : Env := env 1700000120000 3 "Xw9pLm2_Qr7sTu4vYz1Ab".

Definition alice : MongoDBStorage.UserData :=
  {| MongoDBStorage.d_fullName := "Alice Example";
     MongoDBStorage.d_dateOfBirth := Some 631152000000;
     MongoDBStorage.d_mobileNumber := "9876543210";
     MongoDBStorage.d_countryCode := "+91";
     MongoDBStorage.d_address := "12 Example Street";
     MongoDBStorage.d_email := "alice@example.com";
     MongoDBStorage.d_password := "correct horse" |}.

Definition aliceId : string := "V1StGXR8_Z5jdHi6B-myT".

(** A settings request. *)
Definition settings (frequency : string) (days : jsval) (limit : Z)
  (escalation : bool) : Zod.Settings.Body :=
  {| Zod.Settings.alertFrequency := JStr frequency;
     Zod.Settings.customDays := days;
     Zod.Settings.alertTime := JStr "09:00";
     Zod.Settings.enableSMS := JBool true;
     Zod.Settings.enableEmail := JBool true;
     Zod.Settings.maxMissedAlerts := JNum limit;
     Zod.Settings.escalationEnabled := JBool escalation |}.

(** The [settings] object of a daily alert with the given limit. *)
Definition daily (limit : Z) (escalation : bool)
  : MongoDBStorage.WellBeingSettings :=
  {| MongoDBStorage.s_alertFrequency := "daily";
     MongoDBStorage.s_customDays := None;
     MongoDBStorage.s_alertTime := "09:00";
     MongoDBStorage.s_enableSMS := true;
     MongoDBStorage.s_enableEmail := true;
     MongoDBStorage.s_maxWellBeingLimit := limit;
     MongoDBStorage.s_escalationEnabled := escalation |}.

Definition step1Body (mobile : string) : Zod.Step1.Body :=
  {| Zod.Step1.fullName := JStr "Alice Example";
     Zod.Step1.dateOfBirth := JStr "1990-01-01";
     Zod.Step1.mobileNumber := JStr mobile;
     Zod.Step1.countryCode := JUndefined;
     Zod.Step1.address := JStr "12 Example Street" |}.

Definition step2Body (email tempId : string) : Zod.Step2.Body :=
  {| Zod.Step2.email := JStr email;
     Zod.Step2.password := JStr "correct horse";
     Zod.Step2.tempId := JStr tempId |}.

(** *** States of [MongoDBStorage] *)

(** A database with one user. *)
Definition withAlice : MongoDBStorage.Db :=
  Engine.run [(env1, Engine.CreateUser alice)] MongoDBStorage.emptyDb.

Definition userAlice : Schema.User.t :=
  Eval vm_compute in MongoDBStorage.newUser env1 alice.

(** User B of the specification: twenty missed check-ins against a limit
    of fifteen, escalation switched off. *)
Definition withB : MongoDBStorage.Db :=
  Engine.run
    ((env1, Engine.CreateUser alice)
     :: (env1, Engine.UpdateSettings aliceId (daily 15 false))
     :: List.repeat (env2, Engine.IncrementMissed aliceId) 20)
    MongoDBStorage.emptyDb.

(** User A of the specification: fifteen missed check-ins against a limit
    of fifteen, escalation on. *)
Definition eventsA : list (Env * Engine.Op) :=
  (env1, Engine.CreateUser alice)
  :: List.repeat (env2, Engine.IncrementMissed aliceId) 15.

Definition withA : MongoDBStorage.Db := Engine.run eventsA MongoDBStorage.emptyDb.

Definition userA : Schema.User.t :=
  Eval vm_compute in
    List.hd (MongoDBStorage.newUser env1 alice) (MongoDBStorage.users withA).

(** User A with an open well-being alert. *)
Definition withAlert : MongoDBStorage.Db :=
  snd (MongoDBStorage.createWellBeingAlert env2
         {| MongoDBStorage.a_userId := aliceId;
            MongoDBStorage.a_alertType := "missed_checkin";
            MongoDBStorage.a_message := "No check-in for 15 days";
            MongoDBStorage.a_isResolved := false;
            MongoDBStorage.a_resolvedAt := None |}
         withA).

(** *** States of the server *)

(** The server after a phase 1 on the empty server, at the time of
    [env1]. *)
Definition afterStep1 : Server :=
  snd (register_step1 env1 (step1Body "9876543210") emptyServer).

Definition firstToken : string := "9876543210_1700000000000".

(** The same after the phase 2 that names [firstToken], at the time of
    [env2]: one registered user, whose [_id] is the ObjectId of [env2]. *)
Definition registered : Server :=
  snd (register_step2 env2 (step2Body "alice@example.com" firstToken)
         afterStep1).

(** The document of that user. *)
Definition registeredUser : Models.User.t :=
  Eval vm_compute in
    MongoStorage.newUser env2
      (userDataOf env2
         (Zod.Step1Data.mk "Alice Example" "1990-01-01" "9876543210" "+91"
            "12 Example Street")
         (Zod.Step2Data.mk "alice@example.com" "correct horse" firstToken))
      631152000000.

(** [req.userId] of that user: the 24 hexadecimal characters of its
    [_id]. *)
Definition registeredId : string := "000000000000000000000002".





(** A hundred years, in milliseconds. *)
Definition century : Z := 100 * 365 * 24 * 60 * 60 * 1000.

End Sample.

(** ** [server/session-store.ts]: class [MongoDBSessionStore] *)

Module SessionStore.
Import Js Mongo.

(** The session object of express-session as the routes declare it
    ([SessionData]), with the [maxAge] of its cookie ([None] when
    [session.cookie?.maxAge] is undefined). *)
Record SessionData : Type := {
  maxAge : option Z;
  registrationStep1 : option Zod.Step1Data.t;
  otp : option string;
  otpExpiry : option Z;
  userId : option string;
  isAdmin : option bool }.

(** A document of the sessions collection ([ISession]). *)
Record SessionDoc : Type := {
  sid : string;
  sess : SessionData;
  expire : Date }.

Definition bySid (id : string) (d : SessionDoc) : bool := String.eqb (sid d) id.

(** [session.cookie?.maxAge || 1000 * 60 * 60 * 24] *)
Definition lifetime (session : SessionData) : Z :=
  match maxAge session with
  | Some m => num_or m (1000 * 60 * 60 * 24)
  | None => 1000 * 60 * 60 * 24
  end.

(** [get(sid, callback)]: the stored session while [expire > new Date()],
    [null] otherwise. *)
Definition get (env : Env) (id : string) : M (list SessionDoc) (option SessionData) :=
  gets (fun docs =>
    match findOne (bySid id) docs with
    | Some sessionDoc =>
        if Z.ltb (now env) (expire sessionDoc) then Some (sess sessionDoc) else None
    | None => None
    end).

(** [set(sid, session, callback)] *)
Definition set (env : Env) (id : string) (session : SessionData)
  : M (list SessionDoc) unit :=
  let doc := {| sid := id; sess := session;
                expire := now env + lifetime session |} in
  modify (upsertOne (bySid id) (fun _ => doc) doc).

(** [destroy(sid, callback)] *)
Definition destroy (id : string) : M (list SessionDoc) unit :=
  modify (deleteOne (bySid id)).

(** [touch(sid, session, callback)]: [{ expire }] alone is written, and
    only to a stored session. *)
Definition touch (env : Env) (id : string) (session : SessionData)
  : M (list SessionDoc) unit :=
  modify (updateOne (bySid id)
            (fun d => {| sid := sid d; sess := sess d;
                         expire := now env + lifetime session |})).

(** The operations express-session performs on its store. *)
Inductive Op : Type :=
| SetSession (id : string) (session : SessionData)
| DestroySession (id : string)
| TouchSession (id : string) (session : SessionData).

(** The session an operation names. *)
Definition target (op : Op) : string :=
  match op with
  | SetSession id _ | DestroySession id | TouchSession id _ => id
  end.

Definition step (docs : list SessionDoc) (ev : Env * Op) : list SessionDoc :=
  match snd ev with
  | SetSession id session => snd (set (fst ev) id session docs)
  | DestroySession id => snd (destroy id docs)
  | TouchSession id session => snd (touch (fst ev) id session docs)
  end.

Definition run (evs : list (Env * Op)) (docs : list SessionDoc)
  : list SessionDoc :=
  List.fold_left step evs docs.

End SessionStore.

(** ** [server/auth.ts]: tokens and the authentication middleware *)

Module Auth.
Import Js Models.

Record TokenPayload : Type := {
  userId : string;
  email : string;
  type : string }.

(** The options handed to [jwt.sign] and [jwt.verify]. *)
Record Options : Type := {
  expiresIn : option string;
  issuer : string;
  audience : string }.

(** The [jsonwebtoken] library at the time of one request: [sign], and
    [verify], which yields the payload or throws ([None]). *)
Record Jwt : Type := {
  sign : TokenPayload -> string -> Options -> string;
  verify : string -> string -> Options -> option TokenPayload }.

(** [JWT_SECRET] and [JWT_REFRESH_SECRET]. *)
Record Secrets : Type := {
  JWT_SECRET : string;
  JWT_REFRESH_SECRET : string }.

Definition ACCESS_TOKEN_EXPIRY : string := "15m".
Definition REFRESH_TOKEN_EXPIRY : string := "7d".

Definition signOptions (expiry : string) : Options :=
  {| expiresIn := Some expiry;
     issuer := "posthumous-notification-app";
     audience := "app-users" |}.

Definition verifyOptions : Options :=
  {| expiresIn := None;
     issuer := "posthumous-notification-app";
     audience := "app-users" |}.

Definition accessPayload (user : User.t) : TokenPayload :=
  {| userId := toString (User._id user);
     email := User.email user;
     type := "access" |}.

Definition refreshPayload (user : User.t) : TokenPayload :=
  {| userId := toString (User._id user);
     email := User.email user;
     type := "refresh" |}.

Definition generateAccessToken (jwt : Jwt) (secrets : Secrets) (user : User.t)
  : string :=
  sign jwt (accessPayload user) (JWT_SECRET secrets)
    (signOptions ACCESS_TOKEN_EXPIRY).

Definition generateRefreshToken (jwt : Jwt) (secrets : Secrets) (user : User.t)
  : string :=
  sign jwt (refreshPayload user) (JWT_REFRESH_SECRET secrets)
    (signOptions REFRESH_TOKEN_EXPIRY).

Definition verifyAccessToken (jwt : Jwt) (secrets : Secrets) (token : string)
  : Result TokenPayload :=
  match verify jwt token (JWT_SECRET secrets) verifyOptions with
  | Some decoded =>
      if String.eqb (type decoded) "access" then Ok decoded
      else Throw "Invalid or expired access token"
  | None => Throw "Invalid or expired access token"
  end.

Definition verifyRefreshToken (jwt : Jwt) (secrets : Secrets) (token : string)
  : Result TokenPayload :=
  match verify jwt token (JWT_REFRESH_SECRET secrets) verifyOptions with
  | Some decoded =>
      if String.eqb (type decoded) "refresh" then Ok decoded
      else Throw "Invalid or expired refresh token"
  | None => Throw "Invalid or expired refresh token"
  end.

(** [s.slice(n)] *)
Fixpoint slice (n : nat) (s : string) : string :=
  match n, s with
  | O, _ => s
  | S k, String _ rest => slice k rest
  | S _, EmptyString => EmptyString
  end.

(** [extractTokenFromHeader]: [null] without a header (or with an empty
    one); the header without its "Bearer " prefix otherwise. *)
Definition extractTokenFromHeader (authorization : option string)
  : option string :=
  match authorization with
  | None => None
  | Some authHeader =>
      if String.eqb authHeader EmptyString then None
      else if String.prefix "Bearer " authHeader
           then Some (slice 7 authHeader)
           else Some authHeader
  end.

(** What a middleware does with a request: it calls [next()], having set
    [req.userId] or not, or it answers. *)
Inductive Outcome : Type :=
| Next (userId : option string)
| Answer (status : nat) (message code : string).

(** [if (!token)] *)
Definition noToken (token : option string) : bool :=
  match token with
  | None => true
  | Some t => String.eqb t EmptyString
  end.

Definition authenticateToken (jwt : Jwt) (secrets : Secrets)
  (authorization : option string) : Outcome :=
  let token := extractTokenFromHeader authorization in
  if noToken token then Answer 401 "Access token required" "NO_TOKEN"
  else
    match verifyAccessToken jwt secrets (default EmptyString token) with
    | Ok decoded => Next (Some (userId decoded))
    | Throw _ => Answer 401 "Invalid or expired token" "INVALID_TOKEN"
    end.

Definition optionalAuthentication (jwt : Jwt) (secrets : Secrets)
  (authorization : option string) : Outcome :=
  let token := extractTokenFromHeader authorization in
  if noToken token then Next None
  else
    match verifyAccessToken jwt secrets (default EmptyString token) with
    | Ok decoded => Next (Some (userId decoded))
    | Throw _ => Next None
    end.

Definition adminEmail : string := "admin@aulnovatechsoft.com".

Definition requireAdmin (jwt : Jwt) (secrets : Secrets)
  (authorization : option string) : Outcome :=
  let token := extractTokenFromHeader authorization in
  if noToken token then Answer 401 "Access token required" "NO_TOKEN"
  else
    match verifyAccessToken jwt secrets (default EmptyString token) with
    | Ok decoded =>
        if negb (String.eqb (email decoded) adminEmail)
        then Answer 403 "Admin access required" "INSUFFICIENT_PERMISSIONS"
        else Next (Some (userId decoded))
    | Throw _ => Answer 401 "Invalid or expired token" "INVALID_TOKEN"
    end.

End Auth.

(** ** The login handlers of [registerRoutes]

    [POST /api/send-otp] and [POST /api/login], over the same [storage]
    and the same [registrationTempData] as the registration handlers. *)

Module Login.
Import Js Models Routes.

(** [storage.getUserByEmail(identifier)], then
    [storage.getUserByMobile(identifier)] when there is none. *)
Definition findUser (identifier : string) : M Server (option User.t) :=
  (do user <- storage (MongoStorage.getUserByEmail identifier) ;;
   match user with
   | Some user => ret (Some user)
   | None => storage (MongoStorage.getUserByMobile identifier)
   end)%eff.

(** [`otp_${identifier}`] *)
Definition otpKey (identifier : string) : string := "otp_" ++ identifier.

(** [POST /api/send-otp]; [code] is the six-digit string drawn with
    [Math.random()]. The answer repeats the code. *)
Definition send_otp (env : Env) (code : string) (identifier : string)
  : M Server (Response string) :=
  try_catch
    (do user <- findUser identifier ;;
     match user with
     | None => json 404 "User not found" None
     | Some _ =>
         exec modify (set_registrationTempData
                        <[otpKey identifier :=
                            {| step1Data := None;
                               otp := Some code;
                               otpExpiry := Some (now env + 5 * 60 * 1000) |}]>) ;;
         json 200 "OTP sent successfully" (Some code)
     end)%eff
    (fun _ => json 500 "Failed to send OTP" None).

(** [loginSchema] *)
Record LoginBody : Type := {
  identifier : jsval;
  password : jsval;
  otp : jsval }.

Record LoginData : Type := {
  l_identifier : string;
  l_password : option string;
  l_otp : option string }.

Definition loginSchema (body : LoginBody) : option LoginData :=
  match Zod.z_string (identifier body),
        Zod.z_optional Zod.z_string (password body),
        Zod.z_optional Zod.z_string (otp body) with
  | Some identifier, Some password, Some otp =>
      Some {| l_identifier := identifier; l_password := password; l_otp := otp |}
  | _, _, _ => None
  end.

(** The [user] object of a login answer. *)
Inductive LoggedIn : Type :=
| Administrator
| Registered (_id : ObjectId) (email fullName : string).

Definition loggedIn (user : User.t) : Response LoggedIn :=
  {| status := 200; message := None;
     payload := Some (Registered (User._id user) (User.email user)
                        (User.fullName user)) |}.

(** JavaScript truthiness of an optional string. *)
Definition truthy (s : option string) : bool :=
  match s with
  | Some s => negb (String.eqb s EmptyString)
  | None => false
  end.

(** The one-time-password branch of the login. *)
Definition loginWithOtp (env : Env) (identifier otp : string) (user : User.t)
  : M Server (Response LoggedIn) :=
  (let tempKey := otpKey identifier in
   do tempOtpData <- gets (fun srv => registrationTempData srv !! tempKey) ;;
   match tempOtpData with
   | None => json 401 "Invalid or expired OTP" None
   | Some tempOtpData =>
       if negb (truthy (Routes.otp tempOtpData))
          || negb (String.eqb (default EmptyString (Routes.otp tempOtpData)) otp)
       then json 401 "Invalid or expired OTP" None
       else
         match otpExpiry tempOtpData with
         | Some expiry =>
             if negb (Z.eqb expiry 0) && Z.ltb expiry (now env)
             then
               exec modify (set_registrationTempData (delete tempKey)) ;;
               json 401 "OTP expired" None
             else
               exec modify (set_registrationTempData (delete tempKey)) ;;
               ret (loggedIn user)
         | None =>
             exec modify (set_registrationTempData (delete tempKey)) ;;
             ret (loggedIn user)
         end
   end)%eff.

(** The password branch of the login; [compare] is [bcrypt.compare]. *)
Definition loginWithPassword (compare : string -> string -> bool)
  (password : string) (user : User.t) : M Server (Response LoggedIn) :=
  if truthy (User.password user)
  then
    if compare password (default EmptyString (User.password user))
    then ret (loggedIn user)
    else json 401 "Invalid credentials" None
  else json 401 "Password not set for this account" None.

(** [POST /api/login] *)
Definition login (env : Env) (compare : string -> string -> bool)
  (body : LoginBody) : M Server (Response LoggedIn) :=
  try_catch
    (do data <- Zod.parse (loginSchema body) ;;
     if String.eqb (l_identifier data) "admin@aulnovatechsoft.com"
        && match l_password data with
           | Some password => String.eqb password "Admin@123"
           | None => false
           end
     then ret {| status := 200; message := None; payload := Some Administrator |}
     else
       do user <- findUser (l_identifier data) ;;
       match user with
       | None => json 401 "Invalid credentials" None
       | Some user =>
           if truthy (l_otp data)
           then loginWithOtp env (l_identifier data)
                  (default EmptyString (l_otp data)) user
           else if truthy (l_password data)
           then loginWithPassword compare
                  (default EmptyString (l_password data)) user
           else json 400 "Password or OTP required" None
       end)%eff
    (fun _ => json 400 "Login failed" None).

End Login.

(** ** Sequences of requests

    The requests the handlers above answer, each with the library outcomes
    [Env] of its time, and the states of the server they reach. *)

Module Requests.
Import Routes.

Inductive Request : Type :=
| RegisterStep1 (body : Zod.Step1.Body)
| RegisterStep2 (body : Zod.Step2.Body)
| SendOtp (code identifier : string)
| LogIn (compare : string -> string -> bool) (body : Login.LoginBody)
| Confirm (userId : string)
| GetSettings (userId : string)
| PutSettings (userId : string) (body : Zod.Settings.Body).

Definition handle (env : Env) (request : Request) : M Server unit :=
  match request with
  | RegisterStep1 body => (exec register_step1 env body ;; ret tt)%eff
  | RegisterStep2 body => (exec register_step2 env body ;; ret tt)%eff
  | SendOtp code identifier =>
      (exec Login.send_otp env code identifier ;; ret tt)%eff
  | LogIn compare body => (exec Login.login env compare body ;; ret tt)%eff
  | Confirm userId => (exec wellbeing_confirm env userId ;; ret tt)%eff
  | GetSettings userId => (exec get_wellbeing_settings userId ;; ret tt)%eff
  | PutSettings userId body =>
      (exec put_wellbeing_settings env userId body ;; ret tt)%eff
  end.

Definition step (srv : Server) (ev : Env * Request) : Server :=
  snd (handle (fst ev) (snd ev) srv).

Definition run (evs : list (Env * Request)) (srv : Server) : Server :=
  List.fold_left step evs srv.

End Requests.

(** ** More sample values *)

Module Sample2.

(** A session with a lifetime of one second. *)
Definition shortSession : SessionStore.SessionData :=
  {| SessionStore.maxAge := Some 1000;
     SessionStore.registrationStep1 := None;
     SessionStore.otp := None; SessionStore.otpExpiry := None;
     SessionStore.userId := Some "64b7f3a2c1d2e3f4a5b6c7d8";
     SessionStore.isAdmin := None |}.

(** The store after [set("s1", shortSession)] at the time of
    [Sample.env1]. *)
Definition oneSession : list SessionStore.SessionDoc :=
  SessionStore.run
    [(Sample.env1, SessionStore.SetSession "s1" shortSession)] [].

(** A day after [Sample.env1]. *)
Definition nextDay : Env := atTime (now Sample.env1 + 86400000) Sample.env1.

(** A nominee and an asset of the user of [Sample.withAlice], and a mood
    entry. *)
Definition bob : MongoDBStorage.NomineeData :=
  {| MongoDBStorage.n_userId := Sample.aliceId;
     MongoDBStorage.n_fullName := "Bob Example";
     MongoDBStorage.n_relationship := "brother";
     MongoDBStorage.n_mobileNumber := "9000000001";
     MongoDBStorage.n_email := None;
     MongoDBStorage.n_isVerified := false |}.

Definition deed : MongoDBStorage.AssetData :=
  {| MongoDBStorage.as_userId := Sample.aliceId;
     MongoDBStorage.as_assetType := "property";
     MongoDBStorage.as_title := "House deed";
     MongoDBStorage.as_description := None;
     MongoDBStorage.as_value := None;
     MongoDBStorage.as_currency := "USD";
     MongoDBStorage.as_contactInfo := None;
     MongoDBStorage.as_storageLocation := "local";
     MongoDBStorage.as_accessInstructions := None |}.

Definition calm : MongoDBStorage.MoodData :=
  {| MongoDBStorage.m_userId := Sample.aliceId;
     MongoDBStorage.m_mood := "calm";
     MongoDBStorage.m_emoji := ":)";
     MongoDBStorage.m_notes := None |}.

(** The database of [Sample.withAlice]. *)
Definition aliceDb : MongoDBStorage.Db := Sample.withAlice.

(** The same with the asset [deed], stored at the time of [Sample.env2]. *)
Definition withDeed : MongoDBStorage.Db :=
  snd (MongoDBStorage.createAsset Sample.env2 deed aliceDb).

(** The same with the mood entry [calm], stored at the time of
    [Sample.env2]. *)
Definition withMood : MongoDBStorage.Db :=
  snd (MongoDBStorage.createMoodEntry Sample.env2 calm aliceDb).

(** A user document of [shared/models.ts] and a server that stores it. *)
Definition carol : Models.User.t :=
  {| Models.User._id := Js.mkObjectId 7;
     Models.User.fullName := "Carol Example";
     Models.User.dateOfBirth := 631152000000;
     Models.User.mobileNumber := "9000000002";
     Models.User.countryCode := "+91";
     Models.User.address := "3 Example Road";
     Models.User.email := "carol@example.com";
     Models.User.password := Some "$2b$10$correct horse";
     Models.User.provider := None;
     Models.User.providerId := None;
     Models.User.isVerified := true;
     Models.User.createdAt := 1700000000000;
     Models.User.updatedAt := 1700000000000 |}.

Definition withCarol : Routes.Server :=
  {| Routes.db :=
       {| MongoStorage.users := [carol];
          MongoStorage.nominees := [];
          MongoStorage.assets := [];
          MongoStorage.moodEntries := [];
          MongoStorage.wellBeingAlerts := [];
          MongoStorage.queries := [] |};
     Routes.registrationTempData := ∅ |}.

(** [req.userId] of [carol]: the 24 hexadecimal characters of its [_id]. *)
Definition carolId : string := "000000000000000000000007".

(** The well-being alert record of [carol]: fifteen missed alerts against
    a maximum of fifteen. *)
Definition carolAlert : Models.WellBeingAlert.t :=
  {| Models.WellBeingAlert._id := Js.mkObjectId 8;
     Models.WellBeingAlert.userId := Js.mkObjectId 7;
     Models.WellBeingAlert.alertFrequency := "daily";
     Models.WellBeingAlert.customDays := None;
     Models.WellBeingAlert.alertTime := "09:00";
     Models.WellBeingAlert.enableSMS := true;
     Models.WellBeingAlert.enableEmail := true;
     Models.WellBeingAlert.maxMissedAlerts := 15;
     Models.WellBeingAlert.escalationEnabled := true;
     Models.WellBeingAlert.currentCount := 15;
     Models.WellBeingAlert.lastResponse := None;
     Models.WellBeingAlert.isActive := true;
     Models.WellBeingAlert.createdAt := 1700000000000;
     Models.WellBeingAlert.updatedAt := 1700000000000 |}.

(** The server of [carol] with that record. *)
Definition atRisk : Routes.Server :=
  {| Routes.db :=
       {| MongoStorage.users := [carol];
          MongoStorage.nominees := [];
          MongoStorage.assets := [];
          MongoStorage.moodEntries := [];
          MongoStorage.wellBeingAlerts := [carolAlert];
          MongoStorage.queries := [] |};
     Routes.registrationTempData := ∅ |}.

(** A login request with a one-time password and one with a password. *)
Definition otpLogin (identifier code : string) : Login.LoginBody :=
  {| Login.identifier := Js.JStr identifier;
     Login.password := Js.JUndefined;
     Login.otp := Js.JStr code |}.

Definition passwordLogin (identifier password : string) : Login.LoginBody :=
  {| Login.identifier := Js.JStr identifier;
     Login.password := Js.JStr password;
     Login.otp := Js.JUndefined |}.

(** The administrator's credentials, with a one-time password. *)
Definition adminLogin : Login.LoginBody :=
  {| Login.identifier := Js.JStr "admin@aulnovatechsoft.com";
     Login.password := Js.JStr "Admin@123";
     Login.otp := Js.JStr "000000" |}.

(** [bcrypt.compare] for the hashes of [Sample.env]. *)
Definition compare (password hash : string) : bool :=
  String.eqb ("$2b$10$" ++ password) hash.

(** A [jsonwebtoken] that issues tokens for one payload: the token is the
    secret followed by the type, and [verify] accepts the two tokens of a
    secret. *)
Definition jwtFor (userId email : string) : Auth.Jwt :=
  {| Auth.sign := fun payload secret _ => secret ++ ":" ++ Auth.type payload;
     Auth.verify := fun token secret _ =>
       if String.eqb token (secret ++ ":access")
       then Some {| Auth.userId := userId; Auth.email := email;
                    Auth.type := "access" |}
       else if String.eqb token (secret ++ ":refresh")
       then Some {| Auth.userId := userId; Auth.email := email;
                    Auth.type := "refresh" |}
       else None |}.

Definition secrets : Auth.Secrets :=
  {| Auth.JWT_SECRET := "your-super-secret-jwt-key-change-in-production";
     Auth.JWT_REFRESH_SECRET := "your-refresh-secret-key" |}.

(** The library for the tokens of [carol]. *)
Definition carolJwt : Auth.Jwt :=
  jwtFor (Js.toString (Models.User._id carol)) (Models.User.email carol).

End Sample2.

(** * Facts *)

Import Js Mongo.

(** ** ObjectIds and the collection primitives *)

Lemma ObjectId_eqb_eq a b : ObjectId_eqb a b = true <-> a = b.
Proof.
  destruct a as [a], b as [b]. unfold ObjectId_eqb. simpl.
  rewrite N.eqb_eq. split; [intros ->; reflexivity | congruence].
Qed.

Lemma ObjectId_eqb_refl a : ObjectId_eqb a a = true.
Proof. apply ObjectId_eqb_eq. reflexivity. Qed.

Lemma length_toHex digits : forall v acc,
  String.length (toHex digits v acc) = (digits + String.length acc)%nat.
Proof.
  induction digits as [|k IH]; intros v acc; simpl; [reflexivity|].
  rewrite IH. simpl. lia.
Qed.

Lemma length_toString o : String.length (toString o) = 24%nat.
Proof. unfold toString. rewrite length_toHex. reflexivity. Qed.

Lemma toString_not_admin o : toString o <> "admin".
Proof.
  intros H. pose proof (length_toString o) as L. rewrite H in L. discriminate L.
Qed.

Section UpdateOne.
Context {A : Type} (p : A -> bool) (f : A -> A).

Lemma updateOne_length l : List.length (updateOne p f l) = List.length l.
Proof.
  induction l as [|x l IH]; simpl; [reflexivity|].
  destruct (p x); simpl; congruence.
Qed.

Lemma updateOne_no_match l : findOne p l = None -> updateOne p f l = l.
Proof.
  unfold findOne. induction l as [|x l IH]; simpl; [reflexivity|].
  destruct (p x); [discriminate|]. intros H. rewrite IH; auto.
Qed.

(** Position by position, a document is kept or, if it matches, rewritten. *)
Lemma updateOne_Forall2 l :
  Forall2 (fun x y => y = x \/ (p x = true /\ y = f x)) l (updateOne p f l).
Proof.
  induction l as [|x l IH]; simpl; [constructor|].
  destruct (p x) eqn:E.
  - constructor; [right; auto|].
    clear. induction l; constructor; auto.
  - constructor; [left; reflexivity | exact IH].
Qed.

Lemma updateOne_Forall (P : A -> Prop) l :
  (forall x, P x -> P (f x)) -> Forall P l -> Forall P (updateOne p f l).
Proof.
  intros Hf. induction 1 as [|x l Hx Hl IH]; simpl; [constructor|].
  destruct (p x); constructor; auto.
Qed.

Lemma updateOne_map {B} (g : A -> B) l :
  (forall x, g (f x) = g x) -> List.map g (updateOne p f l) = List.map g l.
Proof.
  intros Hg. induction l as [|x l IH]; simpl; [reflexivity|].
  destruct (p x); simpl; rewrite ?Hg, ?IH; reflexivity.
Qed.

Hypothesis keeps_filter : forall x, p (f x) = p x.

Lemma findOne_updateOne l :
  findOne p (updateOne p f l) = option_map f (findOne p l).
Proof.
  unfold findOne. induction l as [|x l IH]; simpl; [reflexivity|].
  destruct (p x) eqn:E; simpl.
  - rewrite keeps_filter, E. reflexivity.
  - rewrite E. exact IH.
Qed.

Lemma updateOne_updateOne (g : A -> A) l :
  updateOne p g (updateOne p f l) = updateOne p (fun x => g (f x)) l.
Proof.
  induction l as [|x l IH]; simpl; [reflexivity|].
  destruct (p x) eqn:E; simpl.
  - rewrite keeps_filter, E. reflexivity.
  - rewrite E, IH. reflexivity.
Qed.

End UpdateOne.

Lemma findOne_Some_In {A} (p : A -> bool) l x :
  findOne p l = Some x -> In x l /\ p x = true.
Proof. unfold findOne. apply List.find_some. Qed.

Lemma NoDup_map_inj {A B} (g : A -> B) l a b :
  NoDup (List.map g l) -> In a l -> In b l -> g a = g b -> a = b.
Proof.
  induction l as [|x l IH]; simpl; [tauto|].
  intros ND Ha Hb E. inversion ND as [|? ? Hx ND']; subst.
  destruct Ha as [->|Ha], Hb as [->|Hb]; auto.
  - exfalso. apply Hx. rewrite E. apply List.in_map. exact Hb.
  - exfalso. apply Hx. rewrite <- E. apply List.in_map. exact Ha.
Qed.

(** ** More on the collection primitives *)

Lemma findOne_app {A} (p : A -> bool) l k :
  findOne p (l ++ k) = match findOne p l with
                       | Some x => Some x
                       | None => findOne p k
                       end.
Proof.
  unfold findOne. induction l as [|x l IH]; simpl; [reflexivity|].
  destruct (p x); [reflexivity | exact IH].
Qed.

Lemma findOne_None_forall {A} (p : A -> bool) l :
  findOne p l = None <-> forall x, In x l -> p x = false.
Proof.
  unfold findOne. split.
  - intros H x Hx. exact (List.find_none p l H x Hx).
  - intros H. induction l as [|x l IH]; simpl; [reflexivity|].
    rewrite (H x (or_introl eq_refl)). apply IH.
    intros y Hy. apply H. right. exact Hy.
Qed.

(** [updateOne] and a filter the update may newly satisfy. *)
Lemma findOne_updateOne_into {A} (p : A -> bool) f l :
  (forall x, p x = true -> p (f x) = true) ->
  findOne p (updateOne p f l) = option_map f (findOne p l).
Proof.
  intros Hf. unfold findOne. induction l as [|x l IH]; simpl; [reflexivity|].
  destruct (p x) eqn:E; simpl.
  - rewrite (Hf x E). reflexivity.
  - rewrite E. exact IH.
Qed.

(** An update of documents that another filter does not match, before or
    after, leaves that filter's first match as it was. *)
Lemma findOne_updateOne_other {A} (p q : A -> bool) f l :
  (forall x, p x = true -> q (f x) = false) ->
  (forall x, p x = true -> q x = false) ->
  findOne q (updateOne p f l) = findOne q l.
Proof.
  intros Hq Hpq. unfold findOne. induction l as [|x l IH]; simpl; [reflexivity|].
  destruct (p x) eqn:E; simpl.
  - rewrite (Hq x E), (Hpq x E). reflexivity.
  - destruct (q x); [reflexivity | exact IH].
Qed.

Lemma deleteOne_no_match {A} (p : A -> bool) l :
  findOne p l = None -> deleteOne p l = l.
Proof.
  unfold findOne. induction l as [|x l IH]; simpl; [reflexivity|].
  destruct (p x); [discriminate|]. intros H. rewrite IH; auto.
Qed.

Lemma deleteOne_snoc {A} (p : A -> bool) l x :
  findOne p l = None -> p x = true -> deleteOne p (l ++ [x]) = l.
Proof.
  unfold findOne. intros H Hx. induction l as [|y l IH]; simpl in *.
  - rewrite Hx. reflexivity.
  - destruct (p y); [discriminate|]. rewrite IH; auto.
Qed.

Lemma findOne_deleteOne_other {A} (p q : A -> bool) l :
  (forall x, p x = true -> q x = false) ->
  findOne q (deleteOne p l) = findOne q l.
Proof.
  intros Hpq. unfold findOne. induction l as [|x l IH]; simpl; [reflexivity|].
  destruct (p x) eqn:E; simpl.
  - rewrite (Hpq x E). reflexivity.
  - destruct (q x); [reflexivity | exact IH].
Qed.

Lemma In_deleteOne {A} (p : A -> bool) l x :
  In x (deleteOne p l) -> In x l.
Proof.
  induction l as [|y l IH]; simpl; [tauto|].
  destruct (p y); simpl; [tauto|]. intros [H|H]; [left; exact H | right; auto].
Qed.

Lemma NoDup_map_deleteOne {A B} (g : A -> B) (p : A -> bool) l :
  NoDup (List.map g l) -> NoDup (List.map g (deleteOne p l)).
Proof.
  induction l as [|y l IH]; simpl; [auto|].
  intros ND. inversion ND as [|? ? Hy ND']; subst.
  destruct (p y); [exact ND'|]. simpl. constructor; [|auto].
  intros Hin. apply Hy. apply List.in_map_iff in Hin as (z & Hz & Hin).
  apply List.in_map_iff. exists z. split; [exact Hz|].
  eapply In_deleteOne. exact Hin.
Qed.

(** With one document per key, deleting the first match leaves none. *)
Lemma findOne_deleteOne_same {A B} (g : A -> B) (p : A -> bool) l :
  (forall x y, p x = true -> p y = true -> g x = g y) ->
  NoDup (List.map g l) ->
  findOne p (deleteOne p l) = None.
Proof.
  intros Hp. unfold findOne. induction l as [|y l IH]; simpl; [reflexivity|].
  intros ND. inversion ND as [|? ? Hy ND']; subst.
  destruct (p y) eqn:E; simpl.
  - destruct (List.find p l) as [z|] eqn:F; [|reflexivity].
    apply List.find_some in F as [Hz Hpz]. exfalso. apply Hy.
    rewrite (Hp y z E Hpz). apply List.in_map. exact Hz.
  - rewrite E. apply IH. exact ND'.
Qed.

(** ** ObjectIds as strings *)

Lemma hexValue_hexDigit d : (d < 16)%N -> hexValue (hexDigit d) = Some d.
Proof.
  intros H.
  destruct d as [|p]; [reflexivity|].
  do 4 (destruct p as [p|p|]; try reflexivity; try (exfalso; lia)).
Qed.

Lemma parseHex_toHex digits : forall v acc a,
  parseHex (toHex digits v acc) a
  = parseHex acc (a * 16 ^ N.of_nat digits + v mod 16 ^ N.of_nat digits)%N.
Proof.
  induction digits as [|k IH]; intros v acc a.
  - cbn [toHex N.of_nat]. rewrite N.pow_0_r, N.mod_1_r, N.mul_1_r, N.add_0_r. reflexivity.
  - cbn [toHex]. rewrite IH. cbn [parseHex].
    rewrite hexValue_hexDigit by (apply N.mod_lt; discriminate).
    f_equal. rewrite Nat2N.inj_succ, N.pow_succ_r'.
    rewrite (N.Div0.mod_mul_r v 16 (16 ^ N.of_nat k)). ring.
Qed.

Lemma castObjectId_toString o :
  (oid o < 2 ^ 96)%N -> castObjectId (toString o) = Some o.
Proof.
  intros H. unfold castObjectId. rewrite length_toString.
  cbn [Nat.eqb]. unfold toString. rewrite parseHex_toHex. cbn [parseHex].
  rewrite N.mul_0_l, N.add_0_l.
  replace (16 ^ N.of_nat 24)%N with (2 ^ 96)%N by (vm_compute; reflexivity).
  rewrite N.mod_small by exact H. destruct o. reflexivity.
Qed.

(** ** C1: who is listed as exceeded *)

Import Schema.

Lemma transformUser_counter u :
  User.wellBeingCounter (MongoDBStorage.transformUser u) = User.wellBeingCounter u
  /\ User.maxWellBeingLimit (MongoDBStorage.transformUser u) = User.maxWellBeingLimit u
  /\ User.escalationEnabled (MongoDBStorage.transformUser u) = User.escalationEnabled u
  /\ User._id (MongoDBStorage.transformUser u) = User._id u.
Proof. repeat split. Qed.

Lemma listExceeded_In db u' :
  In u' (Engine.listExceeded db) <->
  exists u, In u (MongoDBStorage.users db)
            /\ u' = MongoDBStorage.transformUser u
            /\ User.maxWellBeingLimit u <= User.wellBeingCounter u.
Proof.
  unfold Engine.listExceeded, MongoDBStorage.getUsersWithExceededLimits, gets, find.
  rewrite List.in_map_iff. split.
  - intros (u & <- & Hu). apply List.filter_In in Hu as [Hin Hex].
    exists u. repeat split; auto. apply Z.leb_le. exact Hex.
  - intros (u & Hin & -> & Hex). exists u. split; [reflexivity|].
    apply List.filter_In. split; [exact Hin|]. apply Z.leb_le. exact Hex.
Qed.

(** C1, as the specification states it, fails on user B: the counter is
    past the limit, escalation is switched off, and B is listed. *)
Lemma C1_escalation_off_still_listed :
  List.map (fun u => (User.id u, User.wellBeingCounter u,
                      User.maxWellBeingLimit u, User.escalationEnabled u))
           (Engine.listExceeded Sample.withB)
  = [(Sample.aliceId, 20, 15, false)].
Proof. vm_compute. reflexivity. Qed.

(** C1 (amended): [getUsersWithExceededLimits] lists exactly the stored
    users whose counter has reached their limit, whatever their
    [escalationEnabled]; the alert-based variant of [MongoStorage] lists
    exactly the users owning an alert record whose [currentCount] has
    reached its [maxMissedAlerts], whatever its [escalationEnabled]. *)
Theorem C1_listed_iff_counter_reached_limit :
  (forall db : MongoDBStorage.Db,
     exists l, MongoDBStorage.getUsersWithExceededLimits db = (Ok l, db)
       /\ forall u', In u' l <->
            exists u, In u (MongoDBStorage.users db)
              /\ u' = MongoDBStorage.transformUser u
              /\ User.maxWellBeingLimit u <= User.wellBeingCounter u)
  /\ (forall db : MongoStorage.Db,
        exists l, fst (MongoStorage.getUsersWithExceededLimits db) = Ok l
          /\ forall u, In u l <->
               In u (MongoStorage.users db)
               /\ exists a, In a (MongoStorage.wellBeingAlerts db)
                    /\ Models.WellBeingAlert.userId a = Models.User._id u
                    /\ Models.WellBeingAlert.maxMissedAlerts a
                       <= Models.WellBeingAlert.currentCount a).
Proof.
  split.
  - intros db. eexists. split; [reflexivity|].
    intros u'.
    apply listExceeded_In.
  - intros db. eexists. split; [reflexivity|].
    intros u. unfold find. rewrite List.filter_In. simpl.
    rewrite List.existsb_exists. split.
    + intros (Hin & o & Ho & Heq). split; [exact Hin|].
      apply List.in_map_iff in Ho as (a & <- & Ha).
      apply List.filter_In in Ha as [Ha Hex].
      exists a. repeat split; auto.
      * symmetry. apply ObjectId_eqb_eq. exact Heq.
      * apply Z.leb_le. exact Hex.
    + intros (Hin & a & Ha & Hid & Hex). split; [exact Hin|].
      exists (Models.WellBeingAlert.userId a). split.
      * apply List.in_map. apply List.filter_In. split; [exact Ha|].
        apply Z.leb_le. exact Hex.
      * rewrite Hid. apply ObjectId_eqb_refl.
Qed.

(** ** Operations and the users collection *)

Lemma createUser_eq env userData d :
  MongoDBStorage.createUser env userData d =
  let user := MongoDBStorage.newUser env userData in
  match MongoDBStorage.d_dateOfBirth userData with
  | None => (Throw "User validation failed", d)
  | Some _ =>
      if MongoDBStorage.duplicateKey user (MongoDBStorage.users d)
      then (Throw "E11000 duplicate key error", d)
      else (Ok (MongoDBStorage.transformHydrated user),
            MongoDBStorage.set_users (insert user) d)
  end.
Proof.
  unfold MongoDBStorage.createUser, MongoDBStorage.saveUser, bind. simpl.
  destruct (MongoDBStorage.d_dateOfBirth userData); [|reflexivity].
  destruct (MongoDBStorage.duplicateKey _ _); reflexivity.
Qed.

Lemma step_UsersChange db env op :
  Engine.UsersChange env (MongoDBStorage.users db) op
    (MongoDBStorage.users (Engine.step db (env, op))).
Proof.
  unfold Engine.step, Engine.perform; simpl.
  destruct op as [d|uid|uid|uid settings].
  - unfold try_catch, bind. rewrite createUser_eq. simpl.
    destruct (MongoDBStorage.d_dateOfBirth d); [|apply Engine.Unchanged].
    destruct (MongoDBStorage.duplicateKey _ _) eqn:E; [apply Engine.Unchanged|].
    simpl. apply Engine.Created. exact E.
  - apply Engine.Incremented.
  - apply Engine.CheckedIn.
  - apply Engine.Configured.
Qed.

(** No operation writes to a collection other than the users'. *)
Lemma step_other_collections db env op :
  let db' := Engine.step db (env, op) in
  MongoDBStorage.wellBeingAlerts db' = MongoDBStorage.wellBeingAlerts db
  /\ MongoDBStorage.nominees db' = MongoDBStorage.nominees db
  /\ MongoDBStorage.assets db' = MongoDBStorage.assets db
  /\ MongoDBStorage.moodEntries db' = MongoDBStorage.moodEntries db.
Proof.
  unfold Engine.step, Engine.perform; simpl.
  destruct op as [d|uid|uid|uid settings]; try (repeat split).
  all: unfold try_catch, bind; rewrite createUser_eq; simpl;
    destruct (MongoDBStorage.d_dateOfBirth d); [|reflexivity];
    destruct (MongoDBStorage.duplicateKey _ _); reflexivity.
Qed.

Lemma duplicateKey_false u l :
  MongoDBStorage.duplicateKey u l = false ->
  ~ In (User._id u) (List.map User._id l).
Proof.
  unfold MongoDBStorage.duplicateKey. intros H Hin.
  apply List.in_map_iff in Hin as (v & Hid & Hv).
  assert (E : existsb (fun v =>
    ObjectId_eqb (User._id v) (User._id u)
    || String.eqb (User.id v) (User.id u)
    || match User.email v, User.email u with
       | Some a, Some b => String.eqb a b
       | _, _ => false
       end) l = true).
  { apply List.existsb_exists. exists v. split; [exact Hv|].
    rewrite Hid, ObjectId_eqb_refl. reflexivity. }
  rewrite E in H. discriminate.
Qed.

Lemma NoDup_snoc {A} (l : list A) x : NoDup l -> ~ In x l -> NoDup (l ++ [x]).
Proof.
  induction 1 as [|y l Hy ND IH]; simpl; intros Hx.
  - constructor; [intros []|constructor].
  - constructor.
    + rewrite List.in_app_iff. simpl. intros [H|[H|[]]]; [tauto|].
      apply Hx. left. symmetry. exact H.
    + apply IH. tauto.
Qed.

Lemma UsersChange_inv env l op l' :
  Engine.UsersChange env l op l' -> Engine.usersInv l -> Engine.usersInv l'.
Proof.
  intros C [HF HN]. destruct C as [op|op d E|uid|uid|uid settings].
  - split; assumption.
  - split.
    + apply Forall_app. split; [exact HF|].
      constructor; [|constructor]. unfold Engine.userInv. simpl. lia.
    + rewrite List.map_app. simpl. apply NoDup_snoc; [exact HN|].
      apply (duplicateKey_false _ _ E).
  - split.
    + apply updateOne_Forall; [|exact HF].
      unfold Engine.userInv. simpl. intros x. lia.
    + rewrite updateOne_map; [exact HN | reflexivity].
  - split.
    + apply updateOne_Forall; [|exact HF].
      unfold Engine.userInv. simpl. intros x. lia.
    + rewrite updateOne_map; [exact HN | reflexivity].
  - split.
    + apply updateOne_Forall; [|exact HF].
      unfold Engine.userInv. simpl. intros x. lia.
    + rewrite updateOne_map; [exact HN | reflexivity].
Qed.

Lemma run_inv evs : forall db,
  Engine.usersInv (MongoDBStorage.users db) ->
  Engine.usersInv (MongoDBStorage.users (Engine.run evs db)).
Proof.
  induction evs as [|[env op] evs IH]; intros db H; simpl; [exact H|].
  apply IH. eapply UsersChange_inv; [apply step_UsersChange | exact H].
Qed.

Lemma reachable_inv evs :
  Engine.usersInv (MongoDBStorage.users (Engine.run evs MongoDBStorage.emptyDb)).
Proof. apply run_inv. split; constructor. Qed.

Lemma Forall2_refl_on {A} (R : A -> A -> Prop) l :
  (forall x, R x x) -> Forall2 R l l.
Proof. intros H. induction l; constructor; auto. Qed.

Lemma UsersChange_counterStep env l op l' :
  Engine.UsersChange env l op l' ->
  exists kept added,
    l' = (kept ++ added)%list
    /\ Forall2 (Engine.counterStep op) l kept
    /\ Forall (fun u => User.wellBeingCounter u = 0) added.
Proof.
  assert (R : forall op x, Engine.counterStep op x x).
  { intros ? x. split; [reflexivity | left; lia]. }
  assert (U : forall op uid f,
    (forall x, MongoDBStorage.byId uid x = true -> Engine.counterStep op x (f x)) ->
    Forall2 (Engine.counterStep op) l (updateOne (MongoDBStorage.byId uid) f l)).
  { intros op0 uid f Hf.
    eapply List.Forall2_impl; [|apply updateOne_Forall2].
    intros x y [->|[Hp ->]]; [apply R | apply Hf; exact Hp]. }
  intros C. destruct C as [op|op d E|uid|uid|uid settings].
  - exists l, []. rewrite List.app_nil_r.
    repeat split; [apply Forall2_refl_on; apply R | constructor].
  - exists l, [MongoDBStorage.newUser env d].
    repeat split; [apply Forall2_refl_on; apply R|].
    constructor; [reflexivity | constructor].
  - eexists _, []. rewrite List.app_nil_r. repeat split; [|constructor].
    apply U. intros x _. split; [reflexivity | left; simpl; lia].
  - eexists _, []. rewrite List.app_nil_r. repeat split; [|constructor].
    apply U. intros x Hx. split; [reflexivity | right]. split; [|reflexivity].
    unfold MongoDBStorage.byId in Hx. apply String.eqb_eq in Hx. rewrite Hx.
    reflexivity.
  - eexists _, []. rewrite List.app_nil_r. repeat split; [|constructor].
    apply U. intros x _. split; [reflexivity | left; simpl; lia].
Qed.

(** ** C2: the missed-check-in counter *)

(** C2: in every state reached from the empty database by [createUser],
    [incrementWellBeingCounter], the check-in [updateUserWellBeing] and the
    settings update [updateUserWellBeingSettings], no [wellBeingCounter] is
    negative; over one such operation every stored user keeps its place and
    its counter does not decrease, except for the user a check-in names
    (users the operation adds start at 0); and the check-in leaves the
    counter of the user it names at exactly 0. *)
Theorem C2_counter_never_negative_and_only_checkin_lowers_it :
  (forall evs,
     Forall (fun u => 0 <= User.wellBeingCounter u)
       (MongoDBStorage.users (Engine.run evs MongoDBStorage.emptyDb)))
  /\ (forall db env op,
        exists kept added,
          MongoDBStorage.users (Engine.step db (env, op))
          = (kept ++ added)%list
          /\ Forall2 (Engine.counterStep op) (MongoDBStorage.users db) kept
          /\ Forall (fun u => User.wellBeingCounter u = 0) added)
  /\ (forall db env userId u,
        findOne (MongoDBStorage.byId userId) (MongoDBStorage.users db)
        = Some u ->
        exists u',
          findOne (MongoDBStorage.byId userId)
            (MongoDBStorage.users
               (Engine.step db (env, Engine.RecordCheckIn userId)))
          = Some u'
          /\ User._id u' = User._id u
          /\ User.wellBeingCounter u' = 0).
Proof.
  split; [|split].
  - intros evs. destruct (reachable_inv evs) as [HF _]. exact HF.
  - intros db env op. eapply UsersChange_counterStep. apply step_UsersChange.
  - intros db env userId u Hu.
    change (MongoDBStorage.users
              (Engine.step db (env, Engine.RecordCheckIn userId)))
      with (updateOne (MongoDBStorage.byId userId)
              (MongoDBStorage.checkIn (now env)) (MongoDBStorage.users db)).
    rewrite findOne_updateOne by reflexivity. rewrite Hu.
    eexists. repeat split.
Qed.

(** The run that leads to user A, followed by A's check-in. *)
Lemma C2_run_of_user_A :
  Forall (fun u => 0 <= User.wellBeingCounter u)
    (MongoDBStorage.users (Engine.run Sample.eventsA MongoDBStorage.emptyDb))
  /\ exists u',
       findOne (MongoDBStorage.byId Sample.aliceId)
         (MongoDBStorage.users
            (Engine.step Sample.withA
               (Sample.env2, Engine.RecordCheckIn Sample.aliceId)))
       = Some u'
       /\ User._id u' = User._id Sample.userA
       /\ User.wellBeingCounter u' = 0.
Proof.
  split.
  - apply (proj1 C2_counter_never_negative_and_only_checkin_lowers_it).
  - apply (proj2 (proj2 C2_counter_never_negative_and_only_checkin_lowers_it)).
    vm_compute. reflexivity.
Defined.

(** ** What each handler returns and writes *)

Import Routes.

(** The settings read of every user document of [shared/models.ts]: no
    path of [UserSchema] holds a setting, so every field is its default. *)
Lemma settingsOf_defaults user :
  settingsOf user
  = {| Zod.SettingsData.alertFrequency := "daily";
       Zod.SettingsData.customDays := Some 1;
       Zod.SettingsData.alertTime := "09:00";
       Zod.SettingsData.enableSMS := true;
       Zod.SettingsData.enableEmail := true;
       Zod.SettingsData.maxMissedAlerts := 15;
       Zod.SettingsData.escalationEnabled := true |}.
Proof. reflexivity. Qed.

Lemma wellbeing_confirm_eq env userId srv :
  wellbeing_confirm env userId srv =
  match castObjectId userId with
  | None => (Ok (reply 500 "Failed to confirm well-being" None), srv)
  | Some o =>
      (Ok (reply 200 "Well-being confirmed" None),
       set_db (MongoStorage.logQuery "User.findOneAndUpdate"
                 (MongoStorage.set_users
                    (updateOne (MongoStorage.byObjectId o)
                               (MongoStorage.stamp (now env)))
                    (db srv)))
              srv)
  end.
Proof.
  unfold wellbeing_confirm, try_catch, bind, storage, zoom,
    MongoStorage.updateUserWellBeing.
  destruct srv as [d tmp]; simpl.
  destruct (castObjectId userId); reflexivity.
Qed.

Lemma put_wellbeing_settings_eq env userId body srv :
  put_wellbeing_settings env userId body srv =
  match Zod.wellBeingSettingsSchema body with
  | None => (Ok (reply 400 "Failed to update settings" None), srv)
  | Some data =>
      match castObjectId userId with
      | None => (Ok (reply 400 "Failed to update settings" None), srv)
      | Some o =>
          (Ok (reply 200 "Settings updated successfully" None),
           set_db (MongoStorage.logQuery "User.findOneAndUpdate"
                     (MongoStorage.set_users
                        (updateOne (MongoStorage.byObjectId o)
                                   (MongoStorage.stamp (now env)))
                        (db srv)))
                  srv)
      end
  end.
Proof.
  unfold put_wellbeing_settings, try_catch, bind, Zod.parse, storage, zoom,
    MongoStorage.updateUserWellBeingSettings.
  destruct (Zod.wellBeingSettingsSchema body); [|reflexivity].
  destruct srv as [d tmp]; simpl.
  destruct (castObjectId userId); reflexivity.
Qed.

Lemma get_wellbeing_settings_eq userId srv :
  get_wellbeing_settings userId srv =
  match castObjectId userId with
  | None => (Ok (reply 500 "Failed to fetch settings" None), srv)
  | Some o =>
      let srv' := set_db (MongoStorage.logQuery "User.findOne" (db srv)) srv in
      match findOne (MongoStorage.byObjectId o) (MongoStorage.users (db srv)) with
      | None => (Ok (reply 404 "User not found" None), srv')
      | Some user =>
          (Ok {| status := 200; message := None;
                 payload := Some (settingsOf user) |}, srv')
      end
  end.
Proof.
  unfold get_wellbeing_settings, try_catch, bind, storage, zoom,
    MongoStorage.getUser, MongoStorage.query.
  destruct srv as [d tmp]; simpl.
  destruct (castObjectId userId); [|reflexivity]. simpl.
  destruct (findOne _ _); reflexivity.
Qed.

Lemma register_step1_eq env body srv :
  register_step1 env body srv =
  match Zod.registrationStep1Schema body with
  | None => (Ok (reply 400 "Invalid data" None), srv)
  | Some data =>
      let srv1 := set_db (MongoStorage.logQuery "User.findOne" (db srv)) srv in
      match findOne (fun u => String.eqb (Models.User.mobileNumber u)
                                (Zod.Step1Data.mobileNumber data))
                    (MongoStorage.users (db srv)) with
      | Some _ => (Ok (reply 400 "Mobile number already registered" None), srv1)
      | None =>
          (Ok (reply 200 "Step 1 completed successfully"
                 (Some (tempIdOf env data))),
           set_registrationTempData
             <[tempIdOf env data := tempDataOf data]> srv1)
      end
  end.
Proof.
  unfold register_step1, try_catch, bind, Zod.parse, storage, zoom,
    MongoStorage.getUserByMobile, MongoStorage.query.
  destruct (Zod.registrationStep1Schema body) as [data|]; [|reflexivity].
  destruct srv as [d tmp]; simpl.
  destruct (findOne _ _); reflexivity.
Qed.

Lemma register_step2_eq env body srv :
  register_step2 env body srv =
  match Zod.registrationStep2Schema env body with
  | None => (Ok (reply 400 "Registration failed" None), srv)
  | Some data =>
      match registrationTempData srv !! Zod.Step2Data.tempId data ≫= step1Data with
      | None =>
          (Ok (reply 400 "Please complete step 1 first or session expired" None),
           srv)
      | Some step1 =>
          let d1 := MongoStorage.logQuery "User.findOne" (db srv) in
          match findOne (fun u => String.eqb (Models.User.email u)
                                    (Zod.Step2Data.email data))
                        (MongoStorage.users (db srv)) with
          | Some _ => (Ok (reply 400 "Email already registered" None),
                       set_db d1 srv)
          | None =>
              match MongoStorage.createUser env (userDataOf env step1 data) d1 with
              | (Throw _, d2) =>
                  (Ok (reply 400 "Registration failed" None), set_db d2 srv)
              | (Ok user, d2) =>
                  (Ok (reply 200 "Registration successful" (Some (summary user))),
                   set_registrationTempData (delete (Zod.Step2Data.tempId data))
                     (set_db d2 srv))
              end
          end
      end
  end.
Proof.
  unfold register_step2, try_catch, bind, Zod.parse, storage, zoom,
    MongoStorage.getUserByEmail, MongoStorage.query, gets.
  destruct (Zod.registrationStep2Schema env body) as [data|]; [|reflexivity].
  destruct srv as [d tmp]; simpl.
  destruct (tmp !! Zod.Step2Data.tempId data ≫= step1Data) as [step1|]; [|reflexivity].
  destruct (findOne _ _); [reflexivity|].
  destruct (MongoStorage.createUser _ _ _) as [[user|e] d2]; reflexivity.
Qed.

(** [createUser] writes a user or nothing. *)
Lemma MongoStorage_createUser_users env userData d :
  match MongoStorage.createUser env userData d with
  | (Ok user, d') =>
      MongoStorage.users d' = (MongoStorage.users d ++ [user])%list
      /\ MongoStorage.duplicateKey user (MongoStorage.users d) = false
      /\ Models.User._id user = newObjectId env
      /\ Models.User.mobileNumber user = MongoStorage.d_mobileNumber userData
      /\ Models.User.email user = MongoStorage.d_email userData
  | (Throw _, d') => MongoStorage.users d' = MongoStorage.users d
  end.
Proof.
  unfold MongoStorage.createUser.
  destruct (MongoStorage.d_dateOfBirth userData) as [birth|]; [|reflexivity].
  destruct (negb (MongoStorage.validUser userData)); [reflexivity|].
  destruct (MongoStorage.duplicateKey _ _) eqn:E; [reflexivity|].
  repeat split. exact E.
Qed.

(** A rewrite that keeps the keys a filter reads keeps what the filter
    selects. *)
Lemma find_updateOne_map {A B} (p q : A -> bool) (f : A -> A) (g : A -> B) l :
  (forall x, q (f x) = q x) -> (forall x, g (f x) = g x) ->
  List.map g (find q (updateOne p f l)) = List.map g (find q l).
Proof.
  intros Hq Hg. unfold find. induction l as [|x l IH]; simpl; [reflexivity|].
  destruct (p x); simpl.
  - rewrite Hq. destruct (q x); simpl; rewrite ?Hg; reflexivity.
  - destruct (q x); simpl; rewrite IH; reflexivity.
Qed.

Lemma getUsersWithExceededLimits_eq d :
  fst (MongoStorage.getUsersWithExceededLimits d)
  = Ok (find (fun u =>
               existsb (ObjectId_eqb (Models.User._id u))
                 (List.map Models.WellBeingAlert.userId
                    (find MongoStorage.exceeded (MongoStorage.wellBeingAlerts d))))
             (MongoStorage.users d)).
Proof. reflexivity. Qed.

(** ** C3: the check-in *)

(** C3: the check-in route writes neither the counter nor the time of the
    check-in. Whatever the request, every stored user document is what it
    was or, for the user named, what it was with [updatedAt] stamped; no
    alert record changes; and [getUsersWithExceededLimits] lists the users
    it listed before. In particular the registered user of the sample,
    confirming with the identifier of its token, is answered 200 and its
    document has no check-in time and no counter afterwards; and the user
    whose alert record stands at 15 of 15 is answered 200 and is listed
    before and after. *)
Theorem C3_confirm_route_writes_no_counter :
  (forall env userId srv,
     let srv' := snd (wellbeing_confirm env userId srv) in
     Forall2 (fun u u' => u' = u \/ u' = MongoStorage.stamp (now env) u)
       (MongoStorage.users (db srv)) (MongoStorage.users (db srv'))
     /\ MongoStorage.wellBeingAlerts (db srv')
        = MongoStorage.wellBeingAlerts (db srv)
     /\ exists listed listed',
          fst (MongoStorage.getUsersWithExceededLimits (db srv)) = Ok listed
          /\ fst (MongoStorage.getUsersWithExceededLimits (db srv')) = Ok listed'
          /\ List.map Models.User._id listed'
             = List.map Models.User._id listed)
  /\ (let r := wellbeing_confirm Sample.env3 Sample.registeredId
                 Sample.registered in
      fst r = Ok (reply 200 "Well-being confirmed" None)
      /\ List.map Models.User._id (MongoStorage.users (db Sample.registered))
         = [mkObjectId 2]
      /\ MongoStorage.users (db (snd r))
         = List.map (MongoStorage.stamp (now Sample.env3))
             (MongoStorage.users (db Sample.registered))
      /\ List.map Models.User.wellBeingCounter (MongoStorage.users (db (snd r)))
         = [None]
      /\ List.map Models.User.lastWellBeingCheck
           (MongoStorage.users (db (snd r)))
         = [None])
  /\ (let r := wellbeing_confirm Sample.env3 Sample2.carolId Sample2.atRisk in
      fst r = Ok (reply 200 "Well-being confirmed" None)
      /\ fst (MongoStorage.getUsersWithExceededLimits (db Sample2.atRisk))
         = Ok [Sample2.carol]
      /\ fst (MongoStorage.getUsersWithExceededLimits (db (snd r)))
         = Ok [MongoStorage.stamp (now Sample.env3) Sample2.carol]).
Proof.
  split; [|split; [vm_compute; repeat split | vm_compute; repeat split]].
  intros env userId srv srv'. unfold srv'. rewrite wellbeing_confirm_eq.
  destruct (castObjectId userId) as [o|]; simpl.
  - split; [|split; [reflexivity|]].
    + eapply List.Forall2_impl; [|apply updateOne_Forall2].
      intros x y [->|[_ ->]]; [left | right]; reflexivity.
    + exists (find (fun u =>
                existsb (ObjectId_eqb (Models.User._id u))
                  (List.map Models.WellBeingAlert.userId
                     (find MongoStorage.exceeded
                        (MongoStorage.wellBeingAlerts (db srv)))))
              (MongoStorage.users (db srv))).
      exists (find (fun u =>
                existsb (ObjectId_eqb (Models.User._id u))
                  (List.map Models.WellBeingAlert.userId
                     (find MongoStorage.exceeded
                        (MongoStorage.wellBeingAlerts (db srv)))))
              (updateOne (MongoStorage.byObjectId o)
                 (MongoStorage.stamp (now env)) (MongoStorage.users (db srv)))).
      split; [reflexivity|]. split; [reflexivity|].
      apply find_updateOne_map; reflexivity.
  - split; [|split; [reflexivity|]].
    + apply Forall2_refl_on. left. reflexivity.
    + eexists _, _. repeat split.
Qed.

(** ** C4: validation of a settings update *)





(** ** C5: settings round trip *)

(** C5: the settings update of the route is not read back. For a stored
    user and a request that passes [wellBeingSettingsSchema], the update is
    answered 200, writes nothing but [updatedAt] to the user's document,
    and the settings read that follows returns the defaults, whose
    [maxMissedAlerts] is 15 whatever threshold the request carried. *)
Theorem C5_settings_update_is_not_read_back :
  forall env userId o srv u body data,
    castObjectId userId = Some o ->
    findOne (MongoStorage.byObjectId o) (MongoStorage.users (db srv)) = Some u ->
    Zod.wellBeingSettingsSchema body = Some data ->
    let put := put_wellbeing_settings env userId body srv in
    let get := get_wellbeing_settings userId (snd put) in
    fst put = Ok (reply 200 "Settings updated successfully" None)
    /\ findOne (MongoStorage.byObjectId o) (MongoStorage.users (db (snd put)))
       = Some (MongoStorage.stamp (now env) u)
    /\ exists settings,
         fst get = Ok {| status := 200; message := None;
                         payload := Some settings |}
         /\ Zod.SettingsData.maxMissedAlerts settings = 15
         /\ settings = settingsOf u.
Proof.
  intros env userId o srv u body data Ho Hu Hdata put get.
  assert (Hput : put
    = (Ok (reply 200 "Settings updated successfully" None),
       set_db (MongoStorage.logQuery "User.findOneAndUpdate"
                 (MongoStorage.set_users
                    (updateOne (MongoStorage.byObjectId o)
                               (MongoStorage.stamp (now env)))
                    (db srv)))
              srv)).
  { unfold put. rewrite put_wellbeing_settings_eq, Hdata, Ho. reflexivity. }
  assert (Hfind : findOne (MongoStorage.byObjectId o)
                    (MongoStorage.users (db (snd put)))
                  = Some (MongoStorage.stamp (now env) u)).
  { rewrite Hput. simpl. rewrite findOne_updateOne by reflexivity.
    rewrite Hu. reflexivity. }
  split; [rewrite Hput; reflexivity|]. split; [exact Hfind|].
  eexists. unfold get. rewrite get_wellbeing_settings_eq, Ho. simpl.
  rewrite Hfind. simpl. repeat split.
Qed.

(** The example of the specification: the threshold 5 is submitted and
    accepted, and 15 is read back. *)
Lemma C5_threshold_5_reads_back_15 :
  let body := Sample.settings "weekly" JUndefined 5 true in
  let put := put_wellbeing_settings Sample.env3 Sample.registeredId body
               Sample.registered in
  let get := get_wellbeing_settings Sample.registeredId (snd put) in
  Zod.Settings.maxMissedAlerts body = JNum 5
  /\ fst put = Ok (reply 200 "Settings updated successfully" None)
  /\ exists settings,
       fst get = Ok {| status := 200; message := None;
                       payload := Some settings |}
       /\ Zod.SettingsData.maxMissedAlerts settings = 15.
Proof.
  split; [reflexivity|].
  destruct (C5_settings_update_is_not_read_back
              Sample.env3 Sample.registeredId (mkObjectId 2) Sample.registered
              Sample.registeredUser
              (Sample.settings "weekly" JUndefined 5 true)
              (Zod.SettingsData.mk "weekly" None "09:00" true true 5 true))
    as (Hput & _ & settings & Hget & Hmax & _).
  - vm_compute. reflexivity.
  - vm_compute. reflexivity.
  - reflexivity.
  - split; [exact Hput|]. exists settings. split; [exact Hget | exact Hmax].
Defined.

(** ** C6: uniqueness at registration *)







(** ** C7: the administrator pseudo-account *)

(** C7: in every state of the store, no user returned by
    [getUsersWithExceededLimits] has the identifier "admin" (the users it
    returns are stored documents, whose [_id] renders as 24 hexadecimal
    characters); and the per-user queries for nominees, assets, mood
    entries and well-being alerts, called with "admin", return the empty
    result without sending a query: the state, query log included, is
    unchanged. *)
Theorem C7_admin_never_listed_and_queries_short_circuit :
  forall db : MongoStorage.Db,
    (exists l,
       fst (MongoStorage.getUsersWithExceededLimits db) = Ok l
       /\ Forall (fun u => In u (MongoStorage.users db)
                           /\ toString (Models.User._id u) <> "admin") l)
    /\ MongoStorage.getNomineesByUserId "admin" db = (Ok [], db)
    /\ MongoStorage.getNominees "admin" db = (Ok [], db)
    /\ MongoStorage.getAssetsByUserId "admin" db = (Ok [], db)
    /\ MongoStorage.getAssets "admin" db = (Ok [], db)
    /\ MongoStorage.getMoodEntriesByUserId "admin" db = (Ok [], db)
    /\ (forall limit, MongoStorage.getRecentMoodEntries "admin" limit db = (Ok [], db))
    /\ MongoStorage.getUserMoodEntries "admin" db = (Ok [], db)
    /\ MongoStorage.getUserLatestMood "admin" db = (Ok None, db)
    /\ MongoStorage.getWellBeingAlerts (Some "admin") db = (Ok [], db).
Proof.
  intros db. split.
  - eexists. split; [reflexivity|].
    apply List.Forall_forall. intros u Hu. split; [|apply toString_not_admin].
    simpl in Hu. unfold find in Hu. apply List.filter_In in Hu. apply Hu.
  - repeat split.
Qed.


(** ** C8: the lifetime of the correlation data *)

(** C8, as the specification states it, fails: a phase 2 that arrives a
    hundred years after its phase 1 is accepted and creates the user. *)
Lemma C8_token_accepted_a_century_later :
  let late := atTime (now Sample.env1 + Sample.century) Sample.env2 in
  let r := register_step2 late
             (Sample.step2Body "alice@example.com" Sample.firstToken)
             Sample.afterStep1 in
  registrationTempData Sample.afterStep1 !! Sample.firstToken
  = Some (tempDataOf (Zod.Step1Data.mk "Alice Example" "1990-01-01"
                        "9876543210" "+91" "12 Example Street"))
  /\ fst r = Ok (reply 200 "Registration successful"
                   (Some {| sum_id := mkObjectId 2;
                            sum_email := "alice@example.com";
                            sum_fullName := "Alice Example" |}))
  /\ List.map Models.User.mobileNumber (MongoStorage.users (db (snd r)))
     = ["9876543210"].
Proof. vm_compute. repeat split. Qed.

(** The answer of phase 2, and whether it stores a user, do not depend on
    the clock. *)
Lemma register_step2_any_time t env body srv :
  exists r r',
    fst (register_step2 env body srv) = Ok r
    /\ fst (register_step2 (atTime t env) body srv) = Ok r'
    /\ r' = r
    /\ List.map Models.User._id
         (MongoStorage.users (db (snd (register_step2 (atTime t env) body srv))))
       = List.map Models.User._id
           (MongoStorage.users (db (snd (register_step2 env body srv)))).
Proof.
  rewrite !register_step2_eq.
  change (Zod.registrationStep2Schema (atTime t env) body)
    with (Zod.registrationStep2Schema env body).
  destruct (Zod.registrationStep2Schema env body) as [data|];
    [|eexists _, _; repeat split].
  destruct (_ ≫= step1Data) as [s1|]; [|eexists _, _; repeat split].
  destruct (findOne _ _); [eexists _, _; repeat split|].
  unfold MongoStorage.createUser. simpl.
  destruct (parseDate env _); [|eexists _, _; repeat split].
  destruct (negb (MongoStorage.validUser _)); [eexists _, _; repeat split|].
  change (MongoStorage.duplicateKey
            (MongoStorage.newUser (atTime t env) (userDataOf (atTime t env) s1 data) d)
            (MongoStorage.users (db srv)))
    with (MongoStorage.duplicateKey
            (MongoStorage.newUser env (userDataOf env s1 data) d)
            (MongoStorage.users (db srv))).
  destruct (MongoStorage.duplicateKey _ _); eexists _, _; repeat split.
  simpl. unfold insert. rewrite !List.map_app. reflexivity.
Qed.

(** C8 (amended): the phase-1 correlation data has no lifetime: the answer
    of phase 2, and whether it stores a user, do not depend on the time of
    the request. A phase 2 whose token is not in the map is answered 400
    and writes nothing, so it creates no user; and the accepted phase 2
    removes its token from the map. *)
Theorem C8_token_has_no_lifetime :
  forall env srv,
    (forall body t,
       exists r r',
         fst (register_step2 env body srv) = Ok r
         /\ fst (register_step2 (atTime t env) body srv) = Ok r'
         /\ r' = r
         /\ List.map Models.User._id
              (MongoStorage.users
                 (db (snd (register_step2 (atTime t env) body srv))))
            = List.map Models.User._id
                (MongoStorage.users (db (snd (register_step2 env body srv)))))
    /\ (forall body data,
          Zod.registrationStep2Schema env body = Some data ->
          registrationTempData srv !! Zod.Step2Data.tempId data ≫= step1Data
          = None ->
          register_step2 env body srv
          = (Ok (reply 400 "Please complete step 1 first or session expired" None),
             srv))
    /\ (forall body data r srv',
          Zod.registrationStep2Schema env body = Some data ->
          register_step2 env body srv = (Ok r, srv') ->
          status r = 200%nat ->
          registrationTempData srv' !! Zod.Step2Data.tempId data = None).
Proof.
  intros env srv. split; [|split].
  - intros body t. apply register_step2_any_time.
  - intros body data Hdata Hnone.
    rewrite register_step2_eq, Hdata, Hnone. reflexivity.
  - intros body data r srv' Hdata. rewrite register_step2_eq, Hdata.
    destruct (_ ≫= step1Data) as [s1|]; [|intros [= <- <-]; discriminate].
    destruct (findOne _ _); [intros [= <- <-]; discriminate|]. simpl.
    destruct (MongoStorage.createUser _ _ _) as [[user|e] d];
      [|intros [= <- <-]; discriminate].
    intros [= <- <-] _. simpl. apply lookup_delete_eq.
Qed.

Lemma C8_consumed_token_rejected_example :
  registrationTempData Sample.registered !! Sample.firstToken = None
  /\ register_step2 Sample.env2
       (Sample.step2Body "alice@example.com" Sample.firstToken)
       Sample.registered
     = (Ok (reply 400 "Please complete step 1 first or session expired" None),
        Sample.registered).
Proof.
  assert (Hparse :
    Zod.registrationStep2Schema Sample.env2
      (Sample.step2Body "alice@example.com" Sample.firstToken)
    = Some (Zod.Step2Data.mk "alice@example.com" "correct horse"
              Sample.firstToken))
    by (vm_compute; reflexivity).
  split.
  - apply (proj2 (proj2
             (C8_token_has_no_lifetime Sample.env2 Sample.afterStep1))
             _ _
             (reply 200 "Registration successful"
                (Some {| sum_id := mkObjectId 2;
                         sum_email := "alice@example.com";
                         sum_fullName := "Alice Example" |}))
             _ Hparse).
    + vm_compute. reflexivity.
    + reflexivity.
  - apply (proj1 (proj2
             (C8_token_has_no_lifetime Sample.env2 _)) _ _ Hparse).
    vm_compute. reflexivity.
Defined.

(** ** C9: the check-in and the well-being alerts *)

(** C9, as the specification states it, fails: user A has an open alert;
    after the check-in the counter is 0 and the alert is still open. *)
Lemma C9_open_alert_survives_checkin :
  let db' := snd (MongoDBStorage.updateUserWellBeing Sample.env2 Sample.aliceId
                    Sample.withAlert) in
  List.map (fun a => (WellBeingAlert.userId a, WellBeingAlert.isResolved a))
           (MongoDBStorage.wellBeingAlerts Sample.withAlert)
  = [(User._id Sample.userA, false)]
  /\ List.map (fun u => (User._id u, User.wellBeingCounter u))
              (MongoDBStorage.users db')
     = [(User._id Sample.userA, 0)]
  /\ List.map (fun a => (WellBeingAlert.userId a, WellBeingAlert.isResolved a))
              (MongoDBStorage.wellBeingAlerts db')
     = [(User._id Sample.userA, false)].
Proof. vm_compute. repeat split. Qed.

(** C9 (amended): the check-in [updateUserWellBeing] zeroes the user's
    counter and sets [lastWellBeingCheck] to the current time, and leaves
    every well-being alert record as it was: open alerts stay open. The
    confirm route changes no alert record either. *)
Theorem C9_checkin_leaves_alerts_untouched :
  forall env userId,
    (forall db u,
       findOne (MongoDBStorage.byId userId) (MongoDBStorage.users db) = Some u ->
       let db' := snd (MongoDBStorage.updateUserWellBeing env userId db) in
       MongoDBStorage.wellBeingAlerts db' = MongoDBStorage.wellBeingAlerts db
       /\ exists u',
            findOne (MongoDBStorage.byId userId) (MongoDBStorage.users db')
            = Some u'
            /\ User.wellBeingCounter u' = 0
            /\ User.lastWellBeingCheck u' = Some (now env))
    /\ (forall srv,
          MongoStorage.wellBeingAlerts (db (snd (wellbeing_confirm env userId srv)))
          = MongoStorage.wellBeingAlerts (db srv)).
Proof.
  intros env userId. split.
  - intros db u Hu db'. unfold db'. split; [reflexivity|].
    change (MongoDBStorage.users
              (snd (MongoDBStorage.updateUserWellBeing env userId db)))
      with (updateOne (MongoDBStorage.byId userId)
              (MongoDBStorage.checkIn (now env)) (MongoDBStorage.users db)).
    rewrite findOne_updateOne by reflexivity. rewrite Hu.
    eexists. repeat split.
  - intros srv. rewrite wellbeing_confirm_eq.
    destruct (castObjectId userId); reflexivity.
Qed.

Lemma C9_checkin_with_open_alert_example :
  let db' := snd (MongoDBStorage.updateUserWellBeing Sample.env2 Sample.aliceId
                    Sample.withAlert) in
  MongoDBStorage.wellBeingAlerts db'
  = MongoDBStorage.wellBeingAlerts Sample.withAlert
  /\ exists u',
       findOne (MongoDBStorage.byId Sample.aliceId) (MongoDBStorage.users db')
       = Some u'
       /\ User.wellBeingCounter u' = 0
       /\ User.lastWellBeingCheck u' = Some (now Sample.env2).
Proof.
  apply (proj1 (C9_checkin_leaves_alerts_untouched Sample.env2 Sample.aliceId)
           Sample.withAlert Sample.userA).
  vm_compute. reflexivity.
Defined.

(** ** C10: reads for an unknown user *)

Lemma findOne_byId_None userId l :
  (forall u, In u l -> User.id u <> userId) ->
  findOne (MongoDBStorage.byId userId) l = None.
Proof.
  intros H. unfold findOne.
  destruct (List.find _ l) as [u|] eqn:E; [|reflexivity].
  apply List.find_some in E as [Hin Hid].
  apply String.eqb_eq in Hid. exfalso. exact (H u Hin Hid).
Qed.

(** C10: for a [userId] that is the [id] of no stored user,
    [getUserNominees], [getUserAssets], [getUserMoodEntries] (and
    [getUserWellBeingAlerts]) return the empty list and
    [getLatestMoodEntry] returns no value; none throws, and the store is
    unchanged. *)
Theorem C10_unknown_user_reads_are_empty :
  forall userId db,
    (forall u, In u (MongoDBStorage.users db) -> User.id u <> userId) ->
    MongoDBStorage.getUserNominees userId db = (Ok [], db)
    /\ MongoDBStorage.getUserAssets userId db = (Ok [], db)
    /\ MongoDBStorage.getUserMoodEntries userId db = (Ok [], db)
    /\ MongoDBStorage.getLatestMoodEntry userId db = (Ok None, db)
    /\ MongoDBStorage.getUserWellBeingAlerts userId db = (Ok [], db).
Proof.
  intros userId db H. apply findOne_byId_None in H.
  unfold MongoDBStorage.getUserNominees, MongoDBStorage.getUserAssets,
    MongoDBStorage.getUserMoodEntries, MongoDBStorage.getLatestMoodEntry,
    MongoDBStorage.getUserWellBeingAlerts, bind, gets.
  rewrite H. repeat split.
Qed.

Lemma C10_unknown_user_example :
  MongoDBStorage.getUserNominees "nobody" Sample.withAlert
  = (Ok [], Sample.withAlert)
  /\ MongoDBStorage.getUserAssets "nobody" Sample.withAlert
     = (Ok [], Sample.withAlert)
  /\ MongoDBStorage.getUserMoodEntries "nobody" Sample.withAlert
     = (Ok [], Sample.withAlert)
  /\ MongoDBStorage.getLatestMoodEntry "nobody" Sample.withAlert
     = (Ok None, Sample.withAlert)
  /\ MongoDBStorage.getUserWellBeingAlerts "nobody" Sample.withAlert
     = (Ok [], Sample.withAlert).
Proof.
  assert (E : MongoDBStorage.users Sample.withAlert = [Sample.userA])
    by (vm_compute; reflexivity).
  apply (C10_unknown_user_reads_are_empty "nobody" Sample.withAlert).
  intros u Hu. rewrite E in Hu. destruct Hu as [<-|[]]. discriminate.
Defined.

(** * Further facts about the code *)

(** ** The session store *)

Lemma lifetime_cases session :
  SessionStore.lifetime session
  = match SessionStore.maxAge session with
    | Some 0 | None => 86400000
    | Some m => m
    end.
Proof.
  unfold SessionStore.lifetime, num_or.
  destruct (SessionStore.maxAge session) as [[|m|m]|]; reflexivity.
Qed.

Lemma bySid_eq id d : SessionStore.bySid id d = true <-> SessionStore.sid d = id.
Proof. unfold SessionStore.bySid. apply String.eqb_eq. Qed.

Lemma bySid_other id id' d :
  id <> id' -> SessionStore.bySid id d = true -> SessionStore.bySid id' d = false.
Proof.
  intros Hne H. apply bySid_eq in H. unfold SessionStore.bySid.
  apply String.eqb_neq. congruence.
Qed.

Lemma findOne_after_set env id session docs :
  findOne (SessionStore.bySid id) (snd (SessionStore.set env id session docs))
  = Some {| SessionStore.sid := id; SessionStore.sess := session;
            SessionStore.expire := now env + SessionStore.lifetime session |}.
Proof.
  unfold SessionStore.set, modify, upsertOne. simpl.
  destruct (List.find _ docs) as [d|] eqn:F.
  - rewrite findOne_updateOne_into.
    + unfold findOne. rewrite F. reflexivity.
    + intros x _. apply bySid_eq. reflexivity.
  - unfold insert. rewrite findOne_app. unfold findOne at 1. rewrite F.
    simpl. unfold SessionStore.bySid. simpl. rewrite String.eqb_refl.
    reflexivity.
Qed.

(** X1: a session written by [set] at time [t0] is what [get] returns
    while the clock is before [t0 + maxAge], where a missing [maxAge] and
    [maxAge = 0] both count as one day; from that instant on [get] returns
    [null]. Reading does not change the store. *)
Theorem session_readable_until_it_expires :
  forall docs env0 env id session,
    let docs' := snd (SessionStore.set env0 id session docs) in
    SessionStore.get env id docs'
    = (Ok (if Z.ltb (now env) (now env0 + SessionStore.lifetime session)
           then Some session else None),
       docs')
    /\ SessionStore.lifetime session
       = match SessionStore.maxAge session with
         | Some 0 | None => 24 * 60 * 60 * 1000
         | Some m => m
         end.
Proof.
  intros docs env0 env id session docs'. split; [|apply lifetime_cases].
  unfold SessionStore.get, gets. unfold docs'.
  rewrite findOne_after_set. reflexivity.
Qed.

Lemma sessions_step_sids docs ev :
  NoDup (List.map SessionStore.sid docs) ->
  NoDup (List.map SessionStore.sid (SessionStore.step docs ev)).
Proof.
  intros ND. destruct ev as [env [id session|id|id session]];
    unfold SessionStore.step; simpl.
  - unfold upsertOne. destruct (List.find _ docs) as [d|] eqn:F.
    + assert (E : List.map SessionStore.sid
                    (updateOne (SessionStore.bySid id)
                       (fun _ => {| SessionStore.sid := id;
                                    SessionStore.sess := session;
                                    SessionStore.expire :=
                                      now env + SessionStore.lifetime session |})
                       docs)
                  = List.map SessionStore.sid docs).
      { clear F ND. induction docs as [|x l IH]; simpl; [reflexivity|].
        destruct (SessionStore.bySid id x) eqn:E; simpl.
        - apply bySid_eq in E. rewrite E. reflexivity.
        - rewrite IH. reflexivity. }
      rewrite E. exact ND.
    + unfold insert. rewrite List.map_app. simpl. apply NoDup_snoc; [exact ND|].
      intros Hin. apply List.in_map_iff in Hin as (d & Hd & Hin).
      apply (List.find_none _ _ F) in Hin. apply bySid_eq in Hd.
      rewrite Hd in Hin. discriminate.
  - apply NoDup_map_deleteOne. exact ND.
  - rewrite updateOne_map; [exact ND | reflexivity].
Qed.

Lemma sessions_run_sids evs : forall docs,
  NoDup (List.map SessionStore.sid docs) ->
  NoDup (List.map SessionStore.sid (SessionStore.run evs docs)).
Proof.
  induction evs as [|ev evs IH]; intros docs ND; simpl; [exact ND|].
  apply IH. apply sessions_step_sids. exact ND.
Qed.

(** X2: whatever [set], [destroy] and [touch] calls led to the store, it
    holds at most one document per session id, and after [destroy(sid)]
    the session is gone: [get(sid)] returns [null] at every time. *)
Theorem session_destroyed_is_gone :
  forall evs env id,
    let docs := SessionStore.run evs [] in
    let docs' := snd (SessionStore.destroy id docs) in
    NoDup (List.map SessionStore.sid docs)
    /\ SessionStore.get env id docs' = (Ok None, docs').
Proof.
  intros evs env id docs docs'.
  assert (ND : NoDup (List.map SessionStore.sid docs)).
  { apply sessions_run_sids. constructor. }
  split; [exact ND|].
  unfold SessionStore.get, gets, docs', SessionStore.destroy, modify. simpl.
  rewrite (findOne_deleteOne_same SessionStore.sid); [reflexivity | | exact ND].
  intros x y Hx Hy. apply bySid_eq in Hx, Hy. congruence.
Qed.

(** X3: an operation on one session id does not change what [get] returns
    for another. *)
Theorem session_operations_do_not_interfere :
  forall docs env0 op env id',
    SessionStore.target op <> id' ->
    fst (SessionStore.get env id' (SessionStore.step docs (env0, op)))
    = fst (SessionStore.get env id' docs).
Proof.
  intros docs env0 op env id' Hne.
  unfold SessionStore.get, gets. simpl.
  assert (E : findOne (SessionStore.bySid id') (SessionStore.step docs (env0, op))
              = findOne (SessionStore.bySid id') docs).
  { destruct op as [id session|id|id session]; unfold SessionStore.step; simpl.
    - unfold upsertOne. destruct (List.find _ docs) as [d|] eqn:F.
      + apply findOne_updateOne_other.
        * intros x _. unfold SessionStore.bySid. simpl.
          apply String.eqb_neq. exact Hne.
        * intros x. apply bySid_other. exact Hne.
      + unfold insert. rewrite findOne_app.
        destruct (findOne (SessionStore.bySid id') docs); [reflexivity|].
        unfold findOne. simpl. unfold SessionStore.bySid. simpl.
        destruct (String.eqb_spec id id') as [->|_]; [contradiction | reflexivity].
    - apply findOne_deleteOne_other. intros x. apply bySid_other. exact Hne.
    - apply findOne_updateOne_other; intros x Hx;
        apply (bySid_other id id' _ Hne); exact Hx. }
  rewrite E. reflexivity.
Qed.

Lemma sessions_do_not_interfere_example :
  fst (SessionStore.get Sample.env2 "s1"
         (SessionStore.step Sample2.oneSession
            (Sample.env2, SessionStore.DestroySession "s2")))
  = fst (SessionStore.get Sample.env2 "s1" Sample2.oneSession).
Proof.
  apply (session_operations_do_not_interfere Sample2.oneSession Sample.env2
           (SessionStore.DestroySession "s2") Sample.env2 "s1").
  discriminate.
Defined.

(** X4: [touch] never creates a session: for an id that is not stored the
    store is unchanged. For a stored session it keeps the data and moves
    the expiry to the time of the call plus the lifetime of the session it
    is given, whether or not the stored session had expired: afterwards
    [get] returns the stored data until that new instant. *)
Theorem session_touch_extends_and_never_creates :
  forall docs env0 env id session,
    (findOne (SessionStore.bySid id) docs = None ->
     SessionStore.touch env0 id session docs = (Ok tt, docs))
    /\ (forall d,
          findOne (SessionStore.bySid id) docs = Some d ->
          let docs' := snd (SessionStore.touch env0 id session docs) in
          SessionStore.get env id docs'
          = (Ok (if Z.ltb (now env) (now env0 + SessionStore.lifetime session)
                 then Some (SessionStore.sess d) else None),
             docs')).
Proof.
  intros docs env0 env id session. split.
  - intros H. unfold SessionStore.touch, modify.
    rewrite updateOne_no_match by exact H. reflexivity.
  - intros d H docs'. unfold docs', SessionStore.get, SessionStore.touch,
      gets, modify. simpl.
    rewrite findOne_updateOne by reflexivity. rewrite H. reflexivity.
Qed.

(** A session that expired a day ago is readable again after [touch]. *)
Lemma session_touch_revives_example :
  fst (SessionStore.get Sample2.nextDay "s1" Sample2.oneSession) = Ok None
  /\ SessionStore.get Sample2.nextDay "s1"
       (snd (SessionStore.touch Sample2.nextDay "s1" Sample2.shortSession
               Sample2.oneSession))
     = (Ok (Some Sample2.shortSession),
        snd (SessionStore.touch Sample2.nextDay "s1" Sample2.shortSession
               Sample2.oneSession)).
Proof.
  split; [reflexivity|].
  exact (proj2 (session_touch_extends_and_never_creates Sample2.oneSession
                  Sample2.nextDay Sample2.nextDay "s1" Sample2.shortSession)
           {| SessionStore.sid := "s1";
              SessionStore.sess := Sample2.shortSession;
              SessionStore.expire := now Sample.env1 + 1000 |}
           eq_refl).
Defined.

(** ** Nominees and assets *)

Lemma existsb_id_fresh {A} (idOf : A -> ObjectId) o l :
  ~ In o (List.map idOf l) ->
  existsb (fun y => ObjectId_eqb (idOf y) o) l = false.
Proof.
  intros H. induction l as [|x l IH]; simpl; [reflexivity|].
  simpl in H. rewrite IH by tauto.
  destruct (ObjectId_eqb (idOf x) o) eqn:E; [|reflexivity].
  apply ObjectId_eqb_eq in E. tauto.
Qed.

Lemma findOne_id_fresh {A} (idOf : A -> ObjectId) o l :
  ~ In o (List.map idOf l) ->
  findOne (fun y => ObjectId_eqb (idOf y) o) l = None.
Proof.
  intros H. apply findOne_None_forall. intros x Hx.
  destruct (ObjectId_eqb (idOf x) o) eqn:E; [|reflexivity].
  apply ObjectId_eqb_eq in E. exfalso. apply H. rewrite <- E.
  apply List.in_map. exact Hx.
Qed.

Lemma save_eq {A} name coll set (idOf : A -> ObjectId) valid x db :
  MongoDBStorage.save name coll set idOf valid x db
  = if negb valid then (Throw (name ++ " validation failed"), db)
    else if existsb (fun y => ObjectId_eqb (idOf y) (idOf x)) (coll db)
    then (Throw "E11000 duplicate key error", db)
    else (Ok tt, set (insert x) db).
Proof. reflexivity. Qed.

Lemma createNominee_eq env data db :
  MongoDBStorage.createNominee env data db
  = match findOne (MongoDBStorage.byId (MongoDBStorage.n_userId data))
            (MongoDBStorage.users db) with
    | None => (Throw "User not found", db)
    | Some u =>
        let nominee := MongoDBStorage.newNominee env (User._id u) data in
        if negb (MongoDBStorage.validNominee data)
        then (Throw "Nominee validation failed", db)
        else if existsb (fun y => ObjectId_eqb (Nominee._id y) (newObjectId env))
                  (MongoDBStorage.nominees db)
        then (Throw "E11000 duplicate key error", db)
        else (Ok nominee, MongoDBStorage.set_nominees (insert nominee) db)
    end.
Proof.
  unfold MongoDBStorage.createNominee, bind, gets.
  destruct (findOne _ _) as [u|]; [|reflexivity].
  rewrite save_eq. simpl.
  destruct (negb _); [reflexivity|].
  destruct (existsb _ _); reflexivity.
Qed.

Lemma createAsset_eq env data db :
  MongoDBStorage.createAsset env data db
  = match findOne (MongoDBStorage.byId (MongoDBStorage.as_userId data))
            (MongoDBStorage.users db) with
    | None => (Throw "User not found", db)
    | Some u =>
        let asset := MongoDBStorage.newAsset env (User._id u) data in
        if negb (MongoDBStorage.validAsset data)
        then (Throw "Asset validation failed", db)
        else if existsb (fun y => ObjectId_eqb (Asset._id y) (newObjectId env))
                  (MongoDBStorage.assets db)
        then (Throw "E11000 duplicate key error", db)
        else (Ok asset, MongoDBStorage.set_assets (insert asset) db)
    end.
Proof.
  unfold MongoDBStorage.createAsset, bind, gets.
  destruct (findOne _ _) as [u|]; [|reflexivity].
  rewrite save_eq. simpl.
  destruct (negb _); [reflexivity|].
  destruct (existsb _ _); reflexivity.
Qed.

Lemma getUserNominees_eq userId db :
  MongoDBStorage.getUserNominees userId db
  = (Ok match findOne (MongoDBStorage.byId userId) (MongoDBStorage.users db) with
        | None => []
        | Some user =>
            List.map (fun nominee =>
                        MongoDBStorage.withId nominee (toString (Nominee._id nominee)))
              (find (fun n => ObjectId_eqb (Nominee.userId n) (User._id user))
                    (MongoDBStorage.nominees db))
        end, db).
Proof.
  unfold MongoDBStorage.getUserNominees, bind, gets.
  destruct (findOne _ _); reflexivity.
Qed.

Lemma getUserAssets_eq userId db :
  MongoDBStorage.getUserAssets userId db
  = (Ok match findOne (MongoDBStorage.byId userId) (MongoDBStorage.users db) with
        | None => []
        | Some user =>
            List.map (fun asset =>
                        MongoDBStorage.withId asset (toString (Asset._id asset)))
              (find (fun a => ObjectId_eqb (Asset.userId a) (User._id user))
                    (MongoDBStorage.assets db))
        end, db).
Proof.
  unfold MongoDBStorage.getUserAssets, bind, gets.
  destruct (findOne _ _); reflexivity.
Qed.

(** X5: [createNominee] for a stored user, with the three required fields
    non-empty and an [_id] that is new to the collection, returns the
    nominee and stores it under the [_id] of that user. Afterwards
    [getUserNominees] of a user id returns what it returned before, followed
    by the new nominee (with [id] the 24 hexadecimal characters of its
    [_id]) exactly when that user id names the owner; for every other user
    the list is as before. *)
Theorem nominee_added_is_listed_for_its_owner_only :
  forall env data db u,
    findOne (MongoDBStorage.byId (MongoDBStorage.n_userId data))
      (MongoDBStorage.users db) = Some u ->
    MongoDBStorage.validNominee data = true ->
    ~ In (newObjectId env) (List.map Nominee._id (MongoDBStorage.nominees db)) ->
    let nominee := MongoDBStorage.newNominee env (User._id u) data in
    let db' := MongoDBStorage.set_nominees (insert nominee) db in
    MongoDBStorage.createNominee env data db = (Ok nominee, db')
    /\ forall userId before,
         MongoDBStorage.getUserNominees userId db = (Ok before, db) ->
         MongoDBStorage.getUserNominees userId db'
         = (Ok (before
                ++ match findOne (MongoDBStorage.byId userId)
                           (MongoDBStorage.users db) with
                   | Some v =>
                       if ObjectId_eqb (User._id u) (User._id v)
                       then [MongoDBStorage.withId nominee
                               (toString (newObjectId env))]
                       else []
                   | None => []
                   end)%list,
            db').
Proof.
  intros env data db u Hu Hv Hfresh nominee db'. split.
  - rewrite createNominee_eq, Hu. simpl. rewrite Hv. simpl.
    rewrite existsb_id_fresh by exact Hfresh. reflexivity.
  - intros userId before. rewrite !getUserNominees_eq. intros [= <-].
    f_equal. f_equal. simpl.
    destruct (findOne (MongoDBStorage.byId userId) (MongoDBStorage.users db))
      as [v|]; [|reflexivity].
    unfold insert, find. rewrite List.filter_app, List.map_app. simpl.
    destruct (ObjectId_eqb (User._id u) (User._id v)); reflexivity.
Qed.

Lemma nominee_added_is_listed_example :
  MongoDBStorage.createNominee Sample.env2 Sample2.bob Sample2.aliceDb
  = (Ok (MongoDBStorage.newNominee Sample.env2 (User._id Sample.userAlice)
           Sample2.bob),
     MongoDBStorage.set_nominees
       (insert (MongoDBStorage.newNominee Sample.env2 (User._id Sample.userAlice)
                  Sample2.bob))
       Sample2.aliceDb).
Proof.
  apply (nominee_added_is_listed_for_its_owner_only Sample.env2 Sample2.bob
           Sample2.aliceDb Sample.userAlice).
  - reflexivity.
  - reflexivity.
  - simpl. tauto.
Defined.

(** X6: deleting the nominee that [createNominee] has just stored, by the
    string of its [_id], gives back the database as it was before the
    creation. *)
Theorem nominee_create_then_delete_restores_the_store :
  forall env data db u,
    findOne (MongoDBStorage.byId (MongoDBStorage.n_userId data))
      (MongoDBStorage.users db) = Some u ->
    MongoDBStorage.validNominee data = true ->
    ~ In (newObjectId env) (List.map Nominee._id (MongoDBStorage.nominees db)) ->
    (oid (newObjectId env) < 2 ^ 96)%N ->
    exists nominee db',
      MongoDBStorage.createNominee env data db = (Ok nominee, db')
      /\ MongoDBStorage.deleteNominee (toString (Nominee._id nominee)) db'
         = (Ok tt, db).
Proof.
  intros env data db u Hu Hv Hfresh Hbytes.
  eexists _, _. split.
  - rewrite createNominee_eq, Hu. simpl. rewrite Hv. simpl.
    rewrite existsb_id_fresh by exact Hfresh. reflexivity.
  - simpl. unfold MongoDBStorage.deleteNominee.
    rewrite castObjectId_toString by exact Hbytes.
    unfold modify, MongoDBStorage.set_nominees, insert. simpl.
    rewrite deleteOne_snoc.
    + destruct db; reflexivity.
    + apply findOne_id_fresh. exact Hfresh.
    + simpl. apply ObjectId_eqb_refl.
Qed.

Lemma nominee_create_then_delete_example :
  exists nominee db',
    MongoDBStorage.createNominee Sample.env2 Sample2.bob Sample2.aliceDb
    = (Ok nominee, db')
    /\ MongoDBStorage.deleteNominee (toString (Nominee._id nominee)) db'
       = (Ok tt, Sample2.aliceDb).
Proof.
  apply (nominee_create_then_delete_restores_the_store Sample.env2 Sample2.bob
           Sample2.aliceDb Sample.userAlice).
  - reflexivity.
  - reflexivity.
  - simpl. tauto.
  - reflexivity.
Defined.

(** X7: [createAsset] for a stored user, with a type and a title and an
    [_id] that is new to the collection, returns the asset and stores it
    under the [_id] of that user; afterwards [getUserAssets] returns what
    it returned before, followed by the new asset exactly when the user id
    names the owner. Without a type or a title nothing is stored. *)
Theorem asset_added_is_listed_for_its_owner_only :
  forall env data db u,
    findOne (MongoDBStorage.byId (MongoDBStorage.as_userId data))
      (MongoDBStorage.users db) = Some u ->
    ~ In (newObjectId env) (List.map Asset._id (MongoDBStorage.assets db)) ->
    let asset := MongoDBStorage.newAsset env (User._id u) data in
    let db' := MongoDBStorage.set_assets (insert asset) db in
    (MongoDBStorage.as_assetType data = EmptyString
     \/ MongoDBStorage.as_title data = EmptyString ->
     MongoDBStorage.createAsset env data db
     = (Throw "Asset validation failed", db))
    /\ (MongoDBStorage.as_assetType data <> EmptyString ->
        MongoDBStorage.as_title data <> EmptyString ->
        MongoDBStorage.createAsset env data db = (Ok asset, db')
        /\ forall userId before,
             MongoDBStorage.getUserAssets userId db = (Ok before, db) ->
             MongoDBStorage.getUserAssets userId db'
             = (Ok (before
                    ++ match findOne (MongoDBStorage.byId userId)
                               (MongoDBStorage.users db) with
                       | Some v =>
                           if ObjectId_eqb (User._id u) (User._id v)
                           then [MongoDBStorage.withId asset
                                   (toString (newObjectId env))]
                           else []
                       | None => []
                       end)%list,
                db')).
Proof.
  intros env data db u Hu Hfresh asset db'.
  assert (V : MongoDBStorage.validAsset data
              = negb (String.eqb (MongoDBStorage.as_assetType data) EmptyString)
                && negb (String.eqb (MongoDBStorage.as_title data) EmptyString))
    by reflexivity.
  split.
  - intros H. rewrite createAsset_eq, Hu. simpl. rewrite V.
    destruct H as [-> | ->]; simpl; [reflexivity|].
    rewrite andb_false_r. reflexivity.
  - intros H1 H2. apply String.eqb_neq in H1, H2. split.
    + rewrite createAsset_eq, Hu. simpl. rewrite V, H1, H2. simpl.
      rewrite existsb_id_fresh by exact Hfresh. reflexivity.
    + intros userId before. rewrite !getUserAssets_eq. intros [= <-].
      f_equal. f_equal. simpl.
      destruct (findOne (MongoDBStorage.byId userId) (MongoDBStorage.users db))
        as [v|]; [|reflexivity].
      unfold insert, find. rewrite List.filter_app, List.map_app. simpl.
      destruct (ObjectId_eqb (User._id u) (User._id v)); reflexivity.
Qed.

Lemma asset_added_is_listed_example :
  MongoDBStorage.createAsset Sample.env2 Sample2.deed Sample2.aliceDb
  = (Ok (MongoDBStorage.newAsset Sample.env2 (User._id Sample.userAlice)
           Sample2.deed),
     MongoDBStorage.set_assets
       (insert (MongoDBStorage.newAsset Sample.env2 (User._id Sample.userAlice)
                  Sample2.deed))
       Sample2.aliceDb).
Proof.
  apply (asset_added_is_listed_for_its_owner_only Sample.env2 Sample2.deed
           Sample2.aliceDb Sample.userAlice); [reflexivity | simpl; tauto | |];
    discriminate.
Defined.

Lemma deleteOne_filter {A B} (g : A -> B) (p : A -> bool) l :
  (forall x y, p x = true -> p y = true -> g x = g y) ->
  NoDup (List.map g l) ->
  deleteOne p l = List.filter (fun x => negb (p x)) l.
Proof.
  intros Hp. induction l as [|x l IH]; simpl; [reflexivity|].
  intros ND. inversion ND as [|? ? Hx ND']; subst.
  destruct (p x) eqn:E; simpl.
  - symmetry. apply List.forallb_filter_id. apply List.forallb_forall.
    intros y Hy. destruct (p y) eqn:F; [|reflexivity].
    exfalso. apply Hx. rewrite (Hp x y E F). apply List.in_map. exact Hy.
  - rewrite IH by exact ND'. reflexivity.
Qed.

Lemma listed_after_filter {A} (idOf : A -> ObjectId) (own keep : A -> bool) l :
  List.map (fun a => MongoDBStorage.withId a (toString (idOf a)))
    (find own (List.filter keep l))
  = List.filter (fun w => keep (MongoDBStorage.doc w))
      (List.map (fun a => MongoDBStorage.withId a (toString (idOf a)))
         (find own l)).
Proof.
  unfold find. induction l as [|a l IH]; simpl; [reflexivity|].
  destruct (keep a) eqn:K, (own a) eqn:O; simpl; rewrite ?O, ?K; simpl;
    rewrite IH; reflexivity.
Qed.

(** X8: [deleteAsset] with the string of a 12-byte ObjectId removes the
    asset with that [_id] and no other: the collection keeps its other
    documents in their order, and every user's [getUserAssets] loses
    exactly the entries with that [_id]. A string that does not cast to
    an ObjectId is refused and nothing is deleted. *)
Theorem asset_delete_removes_exactly_the_named_asset :
  forall db o,
    (oid o < 2 ^ 96)%N ->
    NoDup (List.map Asset._id (MongoDBStorage.assets db)) ->
    let db' :=
      MongoDBStorage.set_assets
        (List.filter (fun a => negb (ObjectId_eqb (Asset._id a) o))) db in
    MongoDBStorage.deleteAsset (toString o) db = (Ok tt, db')
    /\ (forall userId before,
          MongoDBStorage.getUserAssets userId db = (Ok before, db) ->
          MongoDBStorage.getUserAssets userId db'
          = (Ok (List.filter
                   (fun w => negb (ObjectId_eqb
                                     (Asset._id (MongoDBStorage.doc w)) o))
                   before),
             db'))
    /\ (forall assetId,
          castObjectId assetId = None ->
          MongoDBStorage.deleteAsset assetId db
          = (Throw "Cast to ObjectId failed", db)).
Proof.
  intros db o Hbytes ND db'. repeat split.
  - unfold MongoDBStorage.deleteAsset.
    rewrite castObjectId_toString by exact Hbytes.
    unfold modify, db', MongoDBStorage.set_assets.
    rewrite (deleteOne_filter Asset._id); [reflexivity | | exact ND].
    intros x y Hx Hy. apply ObjectId_eqb_eq in Hx, Hy. congruence.
  - intros userId before. rewrite !getUserAssets_eq. intros [= <-].
    f_equal. f_equal. simpl.
    destruct (findOne (MongoDBStorage.byId userId) (MongoDBStorage.users db))
      as [v|]; [|reflexivity].
    apply (listed_after_filter Asset._id).
  - intros assetId H. unfold MongoDBStorage.deleteAsset. rewrite H. reflexivity.
Qed.

Lemma asset_delete_example :
  MongoDBStorage.deleteAsset (toString (newObjectId Sample.env2)) Sample2.withDeed
  = (Ok tt,
     MongoDBStorage.set_assets
       (List.filter
          (fun a => negb (ObjectId_eqb (Asset._id a) (newObjectId Sample.env2))))
       Sample2.withDeed).
Proof.
  apply (asset_delete_removes_exactly_the_named_asset Sample2.withDeed
           (newObjectId Sample.env2)).
  - reflexivity.
  - simpl. constructor; [simpl; tauto | constructor].
Defined.

(** ** Mood entries *)

Section SortDesc.
Context {A : Type} (key : A -> Z).

Lemma insertDesc_Permutation x l : Permutation (insertDesc key x l) (x :: l).
Proof.
  induction l as [|y l IH]; simpl; [reflexivity|].
  destruct (Z.ltb (key y) (key x)); [reflexivity|].
  rewrite IH. apply perm_swap.
Qed.

Lemma sortDesc_Permutation l : Permutation (sortDesc key l) l.
Proof.
  unfold sortDesc. induction l as [|x l IH]; simpl; [reflexivity|].
  rewrite insertDesc_Permutation. constructor. exact IH.
Qed.

Lemma insertDesc_sorted x l :
  StronglySorted (fun a b => key b <= key a) l ->
  StronglySorted (fun a b => key b <= key a) (insertDesc key x l).
Proof.
  induction 1 as [|y l S IH F]; simpl.
  - constructor; constructor.
  - destruct (Z.ltb_spec (key y) (key x)) as [L|L].
    + constructor; [constructor; assumption|].
      constructor; [lia|].
      rewrite List.Forall_forall in F |- *. intros z Hz.
      specialize (F z Hz). simpl in F. lia.
    + constructor; [exact IH|].
      rewrite List.Forall_forall in F |- *. intros z Hz.
      apply (Permutation_in _ (insertDesc_Permutation x l)) in Hz.
      destruct Hz as [<-|Hz]; [lia | apply F; exact Hz].
Qed.

Lemma sortDesc_sorted l :
  StronglySorted (fun a b => key b <= key a) (sortDesc key l).
Proof.
  unfold sortDesc. induction l as [|x l IH]; simpl; [constructor|].
  apply insertDesc_sorted. exact IH.
Qed.

(** A document newer than all the others comes first. *)
Lemma sortDesc_snoc_newest l x :
  (forall y, In y l -> key y < key x) ->
  sortDesc key (l ++ [x]) = x :: sortDesc key l.
Proof.
  unfold sortDesc. rewrite List.fold_right_app. simpl.
  induction l as [|y l IH]; intros H; simpl; [reflexivity|].
  rewrite IH by (intros z Hz; apply H; right; exact Hz). simpl.
  destruct (Z.ltb_spec (key x) (key y)) as [L|L]; [|reflexivity].
  specialize (H y (or_introl eq_refl)). lia.
Qed.

End SortDesc.

Lemma createMoodEntry_eq env data db :
  MongoDBStorage.createMoodEntry env data db
  = match findOne (MongoDBStorage.byId (MongoDBStorage.m_userId data))
            (MongoDBStorage.users db) with
    | None => (Throw "User not found", db)
    | Some u =>
        let moodEntry := MongoDBStorage.newMoodEntry env (User._id u) data in
        if negb (MongoDBStorage.required (MongoDBStorage.m_mood data)
                 && MongoDBStorage.required (MongoDBStorage.m_emoji data))
        then (Throw "MoodEntry validation failed", db)
        else if existsb (fun y => ObjectId_eqb (MoodEntry._id y) (newObjectId env))
                  (MongoDBStorage.moodEntries db)
        then (Throw "E11000 duplicate key error", db)
        else (Ok moodEntry, MongoDBStorage.set_moodEntries (insert moodEntry) db)
    end.
Proof.
  unfold MongoDBStorage.createMoodEntry, bind, gets.
  destruct (findOne _ _) as [u|]; [|reflexivity].
  rewrite save_eq. simpl.
  destruct (negb _); [reflexivity|].
  destruct (existsb _ _); reflexivity.
Qed.

Lemma getUserMoodEntries_eq userId db :
  MongoDBStorage.getUserMoodEntries userId db
  = (Ok match findOne (MongoDBStorage.byId userId) (MongoDBStorage.users db) with
        | None => []
        | Some user =>
            sortDesc MoodEntry.createdAt
              (find (fun e => ObjectId_eqb (MoodEntry.userId e) (User._id user))
                    (MongoDBStorage.moodEntries db))
        end, db).
Proof.
  unfold MongoDBStorage.getUserMoodEntries, bind, gets.
  destruct (findOne _ _); reflexivity.
Qed.

Lemma getLatestMoodEntry_eq userId db :
  MongoDBStorage.getLatestMoodEntry userId db
  = (Ok match findOne (MongoDBStorage.byId userId) (MongoDBStorage.users db) with
        | None => None
        | Some user =>
            List.head
              (sortDesc MoodEntry.createdAt
                 (find (fun e => ObjectId_eqb (MoodEntry.userId e) (User._id user))
                       (MongoDBStorage.moodEntries db)))
        end, db).
Proof.
  unfold MongoDBStorage.getLatestMoodEntry, bind, gets.
  destruct (findOne _ _); reflexivity.
Qed.

(** X9: for a stored user, [getUserMoodEntries] returns the mood entries
    stored under the [_id] of that user, each as often as it is stored and
    no other, ordered by [createdAt] with the newest first; and
    [getLatestMoodEntry] returns the first entry of that list, or
    [undefined] when the list is empty. Neither changes the database. *)
Theorem mood_entries_are_the_users_newest_first :
  forall db userId u,
    findOne (MongoDBStorage.byId userId) (MongoDBStorage.users db) = Some u ->
    exists entries,
      MongoDBStorage.getUserMoodEntries userId db = (Ok entries, db)
      /\ Permutation entries
           (List.filter
              (fun e => ObjectId_eqb (MoodEntry.userId e) (User._id u))
              (MongoDBStorage.moodEntries db))
      /\ StronglySorted
           (fun a b => MoodEntry.createdAt b <= MoodEntry.createdAt a) entries
      /\ MongoDBStorage.getLatestMoodEntry userId db
         = (Ok (List.head entries), db).
Proof.
  intros db userId u Hu. eexists. repeat split.
  - rewrite getUserMoodEntries_eq, Hu. reflexivity.
  - apply sortDesc_Permutation.
  - apply sortDesc_sorted.
  - rewrite getLatestMoodEntry_eq, Hu. reflexivity.
Qed.

Lemma mood_entries_example :
  exists entries,
    MongoDBStorage.getUserMoodEntries Sample.aliceId Sample2.withMood
    = (Ok entries, Sample2.withMood)
    /\ Permutation entries
         (List.filter
            (fun e => ObjectId_eqb (MoodEntry.userId e)
                        (User._id Sample.userAlice))
            (MongoDBStorage.moodEntries Sample2.withMood))
    /\ StronglySorted
         (fun a b => MoodEntry.createdAt b <= MoodEntry.createdAt a) entries
    /\ MongoDBStorage.getLatestMoodEntry Sample.aliceId Sample2.withMood
       = (Ok (List.head entries), Sample2.withMood).
Proof.
  apply (mood_entries_are_the_users_newest_first Sample2.withMood Sample.aliceId
           Sample.userAlice).
  reflexivity.
Defined.

(** X10: a mood entry created for a stored user at a time later than the
    [createdAt] of every entry stored for that user is what
    [getLatestMoodEntry] returns for that user from then on; it carries the
    [_id] of the user and the time of its creation. *)
Theorem new_mood_entry_becomes_the_latest :
  forall env data db u,
    findOne (MongoDBStorage.byId (MongoDBStorage.m_userId data))
      (MongoDBStorage.users db) = Some u ->
    MongoDBStorage.m_mood data <> EmptyString ->
    MongoDBStorage.m_emoji data <> EmptyString ->
    ~ In (newObjectId env)
         (List.map MoodEntry._id (MongoDBStorage.moodEntries db)) ->
    (forall e, In e (MongoDBStorage.moodEntries db) ->
               MoodEntry.userId e = User._id u ->
               MoodEntry.createdAt e < now env) ->
    exists entry db',
      MongoDBStorage.createMoodEntry env data db = (Ok entry, db')
      /\ MongoDBStorage.getLatestMoodEntry (MongoDBStorage.m_userId data) db'
         = (Ok (Some entry), db')
      /\ MoodEntry.userId entry = User._id u
      /\ MoodEntry.createdAt entry = now env.
Proof.
  intros env data db u Hu Hm He Hfresh Hold.
  apply String.eqb_neq in Hm, He.
  eexists _, _. split.
  { rewrite createMoodEntry_eq, Hu. simpl.
    unfold MongoDBStorage.required. rewrite Hm, He. simpl.
    rewrite existsb_id_fresh by exact Hfresh. reflexivity. }
  split; [|split; reflexivity].
  rewrite getLatestMoodEntry_eq. simpl. rewrite Hu. f_equal. f_equal.
  unfold insert, find. rewrite List.filter_app. simpl.
  rewrite ObjectId_eqb_refl.
  rewrite sortDesc_snoc_newest; [reflexivity|].
  intros y Hy. apply List.filter_In in Hy as [Hin Hown].
  apply ObjectId_eqb_eq in Hown. simpl. apply Hold; assumption.
Qed.

Lemma new_mood_entry_example :
  exists entry db',
    MongoDBStorage.createMoodEntry Sample.env2 Sample2.calm Sample2.aliceDb
    = (Ok entry, db')
    /\ MongoDBStorage.getLatestMoodEntry
         (MongoDBStorage.m_userId Sample2.calm) db'
       = (Ok (Some entry), db')
    /\ MoodEntry.userId entry = User._id Sample.userAlice
    /\ MoodEntry.createdAt entry = now Sample.env2.
Proof.
  apply (new_mood_entry_becomes_the_latest Sample.env2 Sample2.calm
           Sample2.aliceDb Sample.userAlice).
  - reflexivity.
  - discriminate.
  - discriminate.
  - simpl. tauto.
  - simpl. tauto.
Defined.

(** ** Well-being alerts *)

Lemma updateOne_as_map {A B} (g : A -> B) (p : A -> bool) (f : A -> A) l :
  (forall x y, p x = true -> p y = true -> g x = g y) ->
  NoDup (List.map g l) ->
  updateOne p f l = List.map (fun x => if p x then f x else x) l.
Proof.
  intros Hp. induction l as [|x l IH]; simpl; [reflexivity|].
  intros ND. inversion ND as [|? ? Hx ND']; subst.
  destruct (p x) eqn:E.
  - f_equal. rewrite <- (List.map_id l) at 1. apply List.map_ext_in.
    intros y Hy. destruct (p y) eqn:F; [|reflexivity].
    exfalso. apply Hx. rewrite (Hp x y E F). apply List.in_map. exact Hy.
  - f_equal. apply IH. exact ND'.
Qed.

Lemma insertDesc_map {A} (key : A -> Z) (f : A -> A) x l :
  (forall y, key (f y) = key y) ->
  insertDesc key (f x) (List.map f l) = List.map f (insertDesc key x l).
Proof.
  intros Hk. induction l as [|y l IH]; simpl; [reflexivity|].
  rewrite !Hk. destruct (Z.ltb (key y) (key x)); simpl; [reflexivity|].
  rewrite IH. reflexivity.
Qed.

Lemma sortDesc_map {A} (key : A -> Z) (f : A -> A) l :
  (forall y, key (f y) = key y) ->
  sortDesc key (List.map f l) = List.map f (sortDesc key l).
Proof.
  intros Hk. unfold sortDesc. induction l as [|x l IH]; simpl; [reflexivity|].
  rewrite IH. apply insertDesc_map. exact Hk.
Qed.

Lemma filter_map_same {A} (own : A -> bool) (f : A -> A) l :
  (forall y, own (f y) = own y) ->
  List.filter own (List.map f l) = List.map f (List.filter own l).
Proof.
  intros Ho. induction l as [|x l IH]; simpl; [reflexivity|].
  rewrite Ho. destruct (own x); simpl; rewrite IH; reflexivity.
Qed.

Lemma getUserWellBeingAlerts_eq userId db :
  MongoDBStorage.getUserWellBeingAlerts userId db
  = (Ok match findOne (MongoDBStorage.byId userId) (MongoDBStorage.users db) with
        | None => []
        | Some user =>
            sortDesc WellBeingAlert.createdAt
              (find (fun a => ObjectId_eqb (WellBeingAlert.userId a)
                                (User._id user))
                    (MongoDBStorage.wellBeingAlerts db))
        end, db).
Proof.
  unfold MongoDBStorage.getUserWellBeingAlerts, bind, gets.
  destruct (findOne _ _); reflexivity.
Qed.

(** X11: [resolveWellBeingAlert] with the string of a 12-byte ObjectId
    marks the alert with that [_id] as resolved at the time of the call,
    also when it was resolved before, and changes no other alert and no
    other collection; every user's [getUserWellBeingAlerts] is the list it
    was, in the same order, with that alert marked. *)
Theorem alert_resolve_marks_exactly_the_named_alert :
  forall env db o,
    (oid o < 2 ^ 96)%N ->
    NoDup (List.map WellBeingAlert._id (MongoDBStorage.wellBeingAlerts db)) ->
    let mark := fun a => if ObjectId_eqb (WellBeingAlert._id a) o
                         then MongoDBStorage.resolve (now env) a else a in
    let db' := MongoDBStorage.set_wellBeingAlerts (List.map mark) db in
    MongoDBStorage.resolveWellBeingAlert env (toString o) db = (Ok tt, db')
    /\ (forall userId before,
          MongoDBStorage.getUserWellBeingAlerts userId db = (Ok before, db) ->
          MongoDBStorage.getUserWellBeingAlerts userId db'
          = (Ok (List.map mark before), db'))
    /\ (forall a, WellBeingAlert.isResolved (mark a)
                  = ObjectId_eqb (WellBeingAlert._id a) o
                    || WellBeingAlert.isResolved a).
Proof.
  intros env db o Hbytes ND mark db'. repeat split.
  - unfold MongoDBStorage.resolveWellBeingAlert.
    rewrite castObjectId_toString by exact Hbytes.
    unfold modify, db', MongoDBStorage.set_wellBeingAlerts.
    rewrite (updateOne_as_map WellBeingAlert._id); [reflexivity | | exact ND].
    intros x y Hx Hy. apply ObjectId_eqb_eq in Hx, Hy. congruence.
  - intros userId before. rewrite !getUserWellBeingAlerts_eq. intros [= <-].
    f_equal. f_equal. simpl.
    destruct (findOne (MongoDBStorage.byId userId) (MongoDBStorage.users db))
      as [v|]; [|reflexivity].
    unfold find. rewrite filter_map_same, sortDesc_map; [reflexivity | |];
      intros y; unfold mark; destruct (ObjectId_eqb _ o); reflexivity.
  - intros a. unfold mark. destruct (ObjectId_eqb _ o); reflexivity.
Qed.

Lemma alert_resolve_example :
  MongoDBStorage.resolveWellBeingAlert Sample.env2
    (toString (newObjectId Sample.env2)) Sample.withAlert
  = (Ok tt,
     MongoDBStorage.set_wellBeingAlerts
       (List.map (fun a => if ObjectId_eqb (WellBeingAlert._id a)
                                (newObjectId Sample.env2)
                           then MongoDBStorage.resolve (now Sample.env2) a
                           else a))
       Sample.withAlert).
Proof.
  apply (alert_resolve_marks_exactly_the_named_alert Sample.env2
           Sample.withAlert (newObjectId Sample.env2)).
  - reflexivity.
  - assert (E : List.map WellBeingAlert._id
                  (MongoDBStorage.wellBeingAlerts Sample.withAlert)
                = [newObjectId Sample.env2]) by (vm_compute; reflexivity).
    rewrite E. constructor; [simpl; tauto | constructor].
Defined.

(** ** Missed check-ins and the threshold *)

Lemma step_increment db env userId :
  Engine.step db (env, Engine.IncrementMissed userId)
  = MongoDBStorage.set_users
      (updateOne (MongoDBStorage.byId userId)
         (MongoDBStorage.incCounter (now env))) db.
Proof. reflexivity. Qed.

Lemma step_checkin db env userId :
  Engine.step db (env, Engine.RecordCheckIn userId)
  = MongoDBStorage.set_users
      (updateOne (MongoDBStorage.byId userId)
         (MongoDBStorage.checkIn (now env))) db.
Proof. reflexivity. Qed.

Lemma set_users_id db f :
  f (MongoDBStorage.users db) = MongoDBStorage.users db ->
  MongoDBStorage.set_users f db = db.
Proof.
  destruct db as [us ms ns as_ ws]. unfold MongoDBStorage.set_users. simpl.
  intros ->. reflexivity.
Qed.

Lemma run_misses userId envs : forall db,
  let db' :=
    Engine.run (List.map (fun env => (env, Engine.IncrementMissed userId)) envs)
      db in
  (findOne (MongoDBStorage.byId userId) (MongoDBStorage.users db) = None ->
   db' = db)
  /\ (forall u,
        findOne (MongoDBStorage.byId userId) (MongoDBStorage.users db)
        = Some u ->
        exists u',
          findOne (MongoDBStorage.byId userId) (MongoDBStorage.users db')
          = Some u'
          /\ User.wellBeingCounter u'
             = User.wellBeingCounter u + Z.of_nat (List.length envs)
          /\ User.maxWellBeingLimit u' = User.maxWellBeingLimit u
          /\ User._id u' = User._id u
          /\ User.lastWellBeingCheck u' = User.lastWellBeingCheck u).
Proof.
  induction envs as [|env envs IH]; intros db; simpl.
  - split; [reflexivity|]. intros u Hu. exists u. repeat split; [exact Hu | lia].
  - rewrite step_increment. split.
    + intros H. rewrite set_users_id by (apply updateOne_no_match; exact H).
      apply IH. exact H.
    + intros u Hu.
      destruct (proj2 (IH (MongoDBStorage.set_users
                             (updateOne (MongoDBStorage.byId userId)
                                (MongoDBStorage.incCounter (now env))) db))
                  (MongoDBStorage.incCounter (now env) u))
        as (u' & F & C & L & I & K).
      { simpl. rewrite findOne_updateOne by reflexivity. rewrite Hu. reflexivity. }
      exists u'. repeat split; [exact F | | exact L | exact I | exact K].
      rewrite C. simpl. lia.
Qed.

(** X12: [incrementWellBeingCounter] called n times for a stored user, at
    any times, leaves that user's counter exactly n higher, and its limit,
    its [_id] and its last check-in as they were; called for a user id that
    is not stored it changes nothing at all. *)
Theorem missed_checkins_add_up :
  forall db userId envs,
    let db' :=
      Engine.run (List.map (fun env => (env, Engine.IncrementMissed userId)) envs)
        db in
    (findOne (MongoDBStorage.byId userId) (MongoDBStorage.users db) = None ->
     db' = db)
    /\ (forall u,
          findOne (MongoDBStorage.byId userId) (MongoDBStorage.users db)
          = Some u ->
          exists u',
            MongoDBStorage.getUser userId db'
            = (Ok (Some (MongoDBStorage.transformUser u')), db')
            /\ User.wellBeingCounter u'
               = User.wellBeingCounter u + Z.of_nat (List.length envs)
            /\ User.maxWellBeingLimit u' = User.maxWellBeingLimit u
            /\ User._id u' = User._id u
            /\ User.lastWellBeingCheck u' = User.lastWellBeingCheck u).
Proof.
  intros db userId envs db'. split; [apply run_misses|].
  intros u Hu.
  destruct (proj2 (run_misses userId envs db) u Hu) as (u' & F & H).
  exists u'. split; [|exact H].
  unfold MongoDBStorage.getUser, gets, db'. rewrite F. reflexivity.
Qed.

(** X13: in a state reached from the empty database by the storage
    operations, after the check-in [updateUserWellBeing] of a stored user
    followed by n calls of [incrementWellBeingCounter] for that user, the
    user is in the result of [getUsersWithExceededLimits] exactly when n
    has reached the user's [maxWellBeingLimit]. *)
Theorem listed_once_misses_reach_the_limit :
  forall evs userId env0 envs u,
    let db := Engine.run evs MongoDBStorage.emptyDb in
    findOne (MongoDBStorage.byId userId) (MongoDBStorage.users db) = Some u ->
    let db' :=
      Engine.run
        ((env0, Engine.RecordCheckIn userId)
         :: List.map (fun env => (env, Engine.IncrementMissed userId)) envs)
        db in
    (exists u', In u' (Engine.listExceeded db') /\ User._id u' = User._id u)
    <-> User.maxWellBeingLimit u <= Z.of_nat (List.length envs).
Proof.
  intros evs userId env0 envs u db Hu db'.
  assert (Inv : Engine.usersInv (MongoDBStorage.users db')).
  { apply run_inv. apply reachable_inv. }
  unfold db' in *. simpl in *. rewrite step_checkin in *.
  destruct (proj2 (run_misses userId envs
                     (MongoDBStorage.set_users
                        (updateOne (MongoDBStorage.byId userId)
                           (MongoDBStorage.checkIn (now env0))) db))
              (MongoDBStorage.checkIn (now env0) u))
    as (u' & F & C & L & I & _).
  { simpl. rewrite findOne_updateOne by reflexivity. rewrite Hu. reflexivity. }
  simpl in C, L, I. apply findOne_Some_In in F as [Hin _].
  split.
  - intros (x & Hx & Hid). apply listExceeded_In in Hx as (v & Hv & -> & Hex).
    assert (v = u').
    { apply (NoDup_map_inj User._id _ v u' (proj2 Inv) Hv Hin).
      simpl in Hid. congruence. }
    subst v. lia.
  - intros Hle. exists (MongoDBStorage.transformUser u'). split; [|exact I].
    apply listExceeded_In. exists u'. repeat split; [exact Hin | lia].
Qed.

Lemma fifteen_misses_list_the_user_example :
  exists u',
    In u' (Engine.listExceeded
             (Engine.run
                ((Sample.env2, Engine.RecordCheckIn Sample.aliceId)
                 :: List.map
                      (fun env => (env, Engine.IncrementMissed Sample.aliceId))
                      (List.repeat Sample.env2 15))
                (Engine.run [(Sample.env1, Engine.CreateUser Sample.alice)]
                   MongoDBStorage.emptyDb)))
    /\ User._id u' = User._id Sample.userAlice.
Proof.
  apply (proj2 (listed_once_misses_reach_the_limit
                  [(Sample.env1, Engine.CreateUser Sample.alice)]
                  Sample.aliceId Sample.env2 (List.repeat Sample.env2 15)
                  Sample.userAlice eq_refl)).
  simpl. lia.
Defined.

Lemma checkIn_twice env1 env2 userId db :
  snd (MongoDBStorage.updateUserWellBeing env2 userId
         (snd (MongoDBStorage.updateUserWellBeing env1 userId db)))
  = snd (MongoDBStorage.updateUserWellBeing env2 userId db).
Proof.
  unfold MongoDBStorage.updateUserWellBeing, modify, MongoDBStorage.set_users.
  simpl. f_equal. rewrite updateOne_updateOne; reflexivity.
Qed.

(** X27: in a state reached from the empty database by the storage
    operations, the check-in [updateUserWellBeing] of a stored user leaves
    that user's document with [wellBeingCounter = 0] and
    [lastWellBeingCheck = now]; a second check-in at the same time changes
    nothing, and a later one gives the state a single check-in at that
    time gives; and when the user's limit is positive no user listed by
    [getUsersWithExceededLimits] afterwards is that user. *)
Theorem storage_checkin_resets_counter_and_unlists :
  forall evs env userId u,
    let db := Engine.run evs MongoDBStorage.emptyDb in
    findOne (MongoDBStorage.byId userId) (MongoDBStorage.users db) = Some u ->
    let db' := snd (MongoDBStorage.updateUserWellBeing env userId db) in
    (exists u',
       findOne (MongoDBStorage.byId userId) (MongoDBStorage.users db') = Some u'
       /\ User._id u' = User._id u
       /\ User.wellBeingCounter u' = 0
       /\ User.lastWellBeingCheck u' = Some (now env))
    /\ snd (MongoDBStorage.updateUserWellBeing env userId db') = db'
    /\ (forall env2,
          snd (MongoDBStorage.updateUserWellBeing env2 userId db')
          = snd (MongoDBStorage.updateUserWellBeing env2 userId db))
    /\ (0 < User.maxWellBeingLimit u ->
        forall v, In v (Engine.listExceeded db') -> User._id v <> User._id u).
Proof.
  intros evs env userId u db Hu db'.
  assert (Hfind : findOne (MongoDBStorage.byId userId) (MongoDBStorage.users db')
                  = Some (MongoDBStorage.checkIn (now env) u)).
  { unfold db'. simpl. rewrite findOne_updateOne by reflexivity.
    rewrite Hu. reflexivity. }
  assert (Hinv : Engine.usersInv (MongoDBStorage.users db')).
  { change db' with (Engine.step db (env, Engine.RecordCheckIn userId)).
    eapply UsersChange_inv; [apply step_UsersChange | apply reachable_inv]. }
  split; [|split; [|split]].
  - eexists. split; [exact Hfind|]. repeat split.
  - unfold db'. apply checkIn_twice.
  - intros env2. unfold db'. apply checkIn_twice.
  - intros Hlim v Hv Hid. apply listExceeded_In in Hv as (w & Hw & -> & Hex).
    simpl in Hid. destruct Hinv as [_ HN].
    apply findOne_Some_In in Hfind as [Hin _].
    assert (w = MongoDBStorage.checkIn (now env) u) as ->.
    { eapply NoDup_map_inj; eauto. }
    simpl in Hex. lia.
Qed.

(** User A of the specification: listed with 15 missed check-ins against
    a limit of 15; after the check-in the counter is 0 and nobody is
    listed. *)
Lemma storage_checkin_of_user_A_example :
  List.map User.wellBeingCounter (Engine.listExceeded Sample.withA) = [15]
  /\ Engine.listExceeded
       (snd (MongoDBStorage.updateUserWellBeing Sample.env2 Sample.aliceId
               Sample.withA)) = []
  /\ let db := Engine.run Sample.eventsA MongoDBStorage.emptyDb in
     let db' := snd (MongoDBStorage.updateUserWellBeing Sample.env2
                       Sample.aliceId db) in
     (exists u',
        findOne (MongoDBStorage.byId Sample.aliceId) (MongoDBStorage.users db')
        = Some u'
        /\ User._id u' = User._id Sample.userA
        /\ User.wellBeingCounter u' = 0
        /\ User.lastWellBeingCheck u' = Some (now Sample.env2))
     /\ snd (MongoDBStorage.updateUserWellBeing Sample.env2 Sample.aliceId db')
        = db'
     /\ (forall env2,
           snd (MongoDBStorage.updateUserWellBeing env2 Sample.aliceId db')
           = snd (MongoDBStorage.updateUserWellBeing env2 Sample.aliceId db))
     /\ (0 < User.maxWellBeingLimit Sample.userA ->
         forall v, In v (Engine.listExceeded db')
                   -> User._id v <> User._id Sample.userA).
Proof.
  split; [vm_compute; reflexivity|].
  split; [vm_compute; reflexivity|].
  apply (storage_checkin_resets_counter_and_unlists
           Sample.eventsA Sample.env2 Sample.aliceId Sample.userA).
  vm_compute. reflexivity.
Defined.

(** ** The keys of the users collection *)

Lemma duplicateKey_false_keys u l :
  MongoDBStorage.duplicateKey u l = false ->
  ~ In (User.id u) (List.map User.id l)
  /\ (forall e, User.email u = Some e -> ~ In (Some e) (List.map User.email l)).
Proof.
  unfold MongoDBStorage.duplicateKey. intros H.
  assert (N : forall v, In v l ->
    ObjectId_eqb (User._id v) (User._id u)
    || String.eqb (User.id v) (User.id u)
    || match User.email v, User.email u with
       | Some a, Some b => String.eqb a b
       | _, _ => false
       end = false).
  { intros v Hv. destruct (_ || _ || _) eqn:E; [|reflexivity].
    rewrite <- H. symmetry. apply List.existsb_exists. exists v. auto. }
  split.
  - intros Hin. apply List.in_map_iff in Hin as (v & Hid & Hv).
    specialize (N v Hv). rewrite Hid, String.eqb_refl, orb_true_r in N.
    discriminate.
  - intros e He Hin. apply List.in_map_iff in Hin as (v & Hem & Hv).
    specialize (N v Hv). rewrite Hem, He, String.eqb_refl, orb_true_r in N.
    discriminate.
Qed.

Lemma UsersChange_keys env l op l' :
  Engine.UsersChange env l op l' ->
  NoDup (List.map User.id l) /\ NoDup (List.map User.email l)
  /\ Forall (fun u => User.email u <> None) l ->
  NoDup (List.map User.id l') /\ NoDup (List.map User.email l')
  /\ Forall (fun u => User.email u <> None) l'.
Proof.
  intros C (Hi & He & Hs).
  assert (U : forall uid f,
    (forall x, User.id (f x) = User.id x) ->
    (forall x, User.email (f x) = User.email x) ->
    NoDup (List.map User.id (updateOne (MongoDBStorage.byId uid) f l))
    /\ NoDup (List.map User.email (updateOne (MongoDBStorage.byId uid) f l))
    /\ Forall (fun u => User.email u <> None)
         (updateOne (MongoDBStorage.byId uid) f l)).
  { intros uid f Fi Fe. rewrite !updateOne_map by assumption.
    repeat split; try assumption.
    apply updateOne_Forall; [|exact Hs]. intros x. rewrite Fe. auto. }
  destruct C as [op|op d E|uid|uid|uid settings];
    try (apply U; reflexivity).
  - auto.
  - apply duplicateKey_false_keys in E as [Ei Ee].
    rewrite !List.map_app. simpl. repeat split.
    + apply NoDup_snoc; assumption.
    + apply NoDup_snoc; [assumption|]. apply Ee. reflexivity.
    + apply Forall_app. split; [exact Hs|].
      constructor; [discriminate | constructor].
Qed.

Lemma run_keys evs : forall db,
  NoDup (List.map User.id (MongoDBStorage.users db))
  /\ NoDup (List.map User.email (MongoDBStorage.users db))
  /\ Forall (fun u => User.email u <> None) (MongoDBStorage.users db) ->
  let l := MongoDBStorage.users (Engine.run evs db) in
  NoDup (List.map User.id l) /\ NoDup (List.map User.email l)
  /\ Forall (fun u => User.email u <> None) l.
Proof.
  induction evs as [|[env op] evs IH]; intros db H; simpl; [exact H|].
  apply IH. eapply UsersChange_keys; [apply step_UsersChange | exact H].
Qed.

Lemma findOne_by_key {A B} (g : A -> B) (p : A -> bool) l u :
  NoDup (List.map g l) -> In u l -> p u = true ->
  (forall x, p x = true -> g x = g u) ->
  findOne p l = Some u.
Proof.
  unfold findOne. intros ND Hin Hp Hk.
  induction l as [|x l IH]; simpl in *; [contradiction|].
  inversion ND as [|? ? Hx ND']; subst.
  destruct (p x) eqn:E.
  - destruct Hin as [->|Hin]; [reflexivity|].
    exfalso. apply Hx. rewrite (Hk x E). apply List.in_map. exact Hin.
  - destruct Hin as [->|Hin]; [congruence|]. apply IH; assumption.
Qed.

(** X14: in every state reached from the empty database by user creation,
    missed check-ins, check-ins and settings updates, no two stored users
    share an [id] or an e-mail address, and every stored user is the one
    [getUser] returns for its [id] and the one [getUserByEmail] returns for
    its e-mail address. *)
Theorem stored_users_are_found_by_id_and_by_email :
  forall evs,
    let d := Engine.run evs MongoDBStorage.emptyDb in
    NoDup (List.map User.id (MongoDBStorage.users d))
    /\ NoDup (List.map User.email (MongoDBStorage.users d))
    /\ forall u,
         In u (MongoDBStorage.users d) ->
         MongoDBStorage.getUser (User.id u) d
         = (Ok (Some (MongoDBStorage.transformUser u)), d)
         /\ exists email,
              User.email u = Some email
              /\ MongoDBStorage.getUserByEmail email d
                 = (Ok (Some (MongoDBStorage.transformUser u)), d).
Proof.
  intros evs d.
  destruct (run_keys evs MongoDBStorage.emptyDb) as (Hi & He & Hs).
  { repeat split; constructor. }
  fold d in Hi, He, Hs. repeat split; [exact Hi | exact He | |].
  - unfold MongoDBStorage.getUser, gets.
    rewrite (findOne_by_key User.id _ _ u Hi H); [reflexivity | |].
    + apply String.eqb_refl.
    + intros x Hx. apply String.eqb_eq in Hx. exact Hx.
  - rewrite List.Forall_forall in Hs. specialize (Hs u H).
    destruct (User.email u) as [email|] eqn:E; [|contradiction].
    exists email. split; [reflexivity|].
    unfold MongoDBStorage.getUserByEmail, gets.
    rewrite (findOne_by_key User.email _ _ u He H); [reflexivity | |].
    + unfold MongoDBStorage.byEmail. rewrite E. apply String.eqb_refl.
    + intros x Hx. unfold MongoDBStorage.byEmail in Hx.
      destruct (User.email x) as [e|]; [|discriminate].
      apply String.eqb_eq in Hx. congruence.
Qed.

(** X15: when [createUser] returns, exactly one document was added, the
    last of the collection; the value returned is the [transformUser] of
    that hydrated document, which carries the document, the [id] drawn for
    it and its two timestamps; the document has a counter of 0, a limit of
    15, escalation switched on and no check-in yet, and it is what
    [getUserByEmail] returns for the e-mail address given and what
    [getUser] returns for the [id] drawn for it. *)
Theorem created_user_is_stored_with_the_defaults :
  forall env userData d returned d',
    MongoDBStorage.createUser env userData d = (Ok returned, d') ->
    let user := MongoDBStorage.Hydrated._doc returned in
    MongoDBStorage.users d' = (MongoDBStorage.users d ++ [user])%list
    /\ returned = MongoDBStorage.transformHydrated user
    /\ MongoDBStorage.Hydrated.id returned
       = str_or (nanoid env) (toString (newObjectId env))
    /\ MongoDBStorage.Hydrated.createdAt returned = now env
    /\ MongoDBStorage.Hydrated.updatedAt returned = now env
    /\ MongoDBStorage.getUserByEmail (MongoDBStorage.d_email userData) d'
       = (Ok (Some (MongoDBStorage.transformUser user)), d')
    /\ MongoDBStorage.getUser (nanoid env) d'
       = (Ok (Some (MongoDBStorage.transformUser user)), d')
    /\ User.wellBeingCounter user = 0
    /\ User.maxWellBeingLimit user = 15
    /\ User.escalationEnabled user = true
    /\ User.lastWellBeingCheck user = None.
Proof.
  intros env userData d returned d'. rewrite createUser_eq. simpl.
  destruct (MongoDBStorage.d_dateOfBirth userData) as [dob|] eqn:Edob;
    [|discriminate].
  destruct (MongoDBStorage.duplicateKey _ _) eqn:E; [discriminate|].
  intros [= <- <-]. apply duplicateKey_false_keys in E as [Ei Ee].
  specialize (Ee _ eq_refl). simpl in Ei. simpl.
  split; [reflexivity|]. split; [reflexivity|]. split; [reflexivity|].
  split; [reflexivity|]. split; [reflexivity|].
  split; [|split; [|repeat split]].
  - unfold MongoDBStorage.getUserByEmail, gets. simpl. unfold insert.
    rewrite findOne_app.
    assert (N : findOne (MongoDBStorage.byEmail (MongoDBStorage.d_email userData))
                  (MongoDBStorage.users d) = None).
    { apply findOne_None_forall. intros x Hx. unfold MongoDBStorage.byEmail.
      destruct (User.email x) as [e|] eqn:Ex; [|reflexivity].
      apply String.eqb_neq. intros ->. apply Ee. rewrite <- Ex.
      apply List.in_map. exact Hx. }
    rewrite N. unfold findOne, MongoDBStorage.byEmail. simpl.
    rewrite String.eqb_refl. reflexivity.
  - unfold MongoDBStorage.getUser, gets. simpl. unfold insert.
    rewrite findOne_app.
    assert (N : findOne (MongoDBStorage.byId (nanoid env))
                  (MongoDBStorage.users d) = None).
    { apply findOne_None_forall. intros x Hx. unfold MongoDBStorage.byId.
      apply String.eqb_neq. intros Heq. apply Ei. rewrite <- Heq.
      apply List.in_map. exact Hx. }
    rewrite N. unfold findOne, MongoDBStorage.byId. simpl.
    rewrite String.eqb_refl. reflexivity.
Qed.

Lemma created_user_example :
  let returned := MongoDBStorage.transformHydrated Sample.userAlice in
  let user := MongoDBStorage.Hydrated._doc returned in
  MongoDBStorage.users Sample.withAlice = ([] ++ [user])%list
  /\ returned = MongoDBStorage.transformHydrated user
  /\ MongoDBStorage.Hydrated.id returned
     = str_or (nanoid Sample.env1) (toString (newObjectId Sample.env1))
  /\ MongoDBStorage.Hydrated.createdAt returned = now Sample.env1
  /\ MongoDBStorage.Hydrated.updatedAt returned = now Sample.env1
  /\ MongoDBStorage.getUserByEmail (MongoDBStorage.d_email Sample.alice)
       Sample.withAlice
     = (Ok (Some (MongoDBStorage.transformUser user)), Sample.withAlice)
  /\ MongoDBStorage.getUser (nanoid Sample.env1) Sample.withAlice
     = (Ok (Some (MongoDBStorage.transformUser user)), Sample.withAlice)
  /\ User.wellBeingCounter user = 0
  /\ User.maxWellBeingLimit user = 15
  /\ User.escalationEnabled user = true
  /\ User.lastWellBeingCheck user = None.
Proof.
  apply (created_user_is_stored_with_the_defaults Sample.env1 Sample.alice
           MongoDBStorage.emptyDb
           (MongoDBStorage.transformHydrated Sample.userAlice)
           Sample.withAlice).
  reflexivity.
Defined.

(** X16: [createUser] stores nothing and throws when the date of birth is
    an Invalid Date, and when the e-mail address, the [id] or the [_id] of
    the new user is that of a stored user. *)
Theorem createUser_refuses_invalid_and_duplicate_users :
  forall env userData d,
    (MongoDBStorage.d_dateOfBirth userData = None ->
     MongoDBStorage.createUser env userData d
     = (Throw "User validation failed", d))
    /\ (forall u birth,
          MongoDBStorage.d_dateOfBirth userData = Some birth ->
          In u (MongoDBStorage.users d) ->
          User.email u = Some (MongoDBStorage.d_email userData)
          \/ User.id u = nanoid env
          \/ User._id u = newObjectId env ->
          MongoDBStorage.createUser env userData d
          = (Throw "E11000 duplicate key error", d)).
Proof.
  intros env userData d. split.
  - intros H. rewrite createUser_eq, H. reflexivity.
  - intros u birth Hb Hu Hdup. rewrite createUser_eq, Hb. simpl.
    assert (E : MongoDBStorage.duplicateKey
                  (MongoDBStorage.newUser env userData) (MongoDBStorage.users d)
                = true).
    { unfold MongoDBStorage.duplicateKey. apply List.existsb_exists.
      exists u. split; [exact Hu|]. simpl.
      destruct Hdup as [H|[H|H]]; rewrite H.
      - rewrite String.eqb_refl. apply orb_true_r.
      - rewrite String.eqb_refl. rewrite orb_true_r. reflexivity.
      - rewrite ObjectId_eqb_refl. reflexivity. }
    rewrite E. reflexivity.
Qed.

(** ** The well-being routes at their edges *)

(** X17: for a user identifier that is not the 24 hexadecimal characters
    of an ObjectId, the check-in route and the settings read answer 500,
    the settings update answers 400, and the server state is unchanged.
    For an ObjectId that no stored user has, the check-in route and an
    accepted settings update answer 200 with their success message, the
    settings read answers 404, and no user document changes. *)
Theorem wellbeing_routes_for_an_unknown_user :
  forall env userId body srv,
    (castObjectId userId = None ->
     wellbeing_confirm env userId srv
     = (Ok (reply 500 "Failed to confirm well-being" None), srv)
     /\ get_wellbeing_settings userId srv
        = (Ok (reply 500 "Failed to fetch settings" None), srv)
     /\ put_wellbeing_settings env userId body srv
        = (Ok (reply 400 "Failed to update settings" None), srv))
    /\ (forall o,
          castObjectId userId = Some o ->
          findOne (MongoStorage.byObjectId o) (MongoStorage.users (db srv))
          = None ->
          (fst (wellbeing_confirm env userId srv)
           = Ok (reply 200 "Well-being confirmed" None)
           /\ MongoStorage.users (db (snd (wellbeing_confirm env userId srv)))
              = MongoStorage.users (db srv))
          /\ (fst (get_wellbeing_settings userId srv)
              = Ok (reply 404 "User not found" None)
              /\ MongoStorage.users (db (snd (get_wellbeing_settings userId srv)))
                 = MongoStorage.users (db srv))
          /\ (forall data,
                Zod.wellBeingSettingsSchema body = Some data ->
                fst (put_wellbeing_settings env userId body srv)
                = Ok (reply 200 "Settings updated successfully" None)
                /\ MongoStorage.users
                     (db (snd (put_wellbeing_settings env userId body srv)))
                   = MongoStorage.users (db srv))).
Proof.
  intros env userId body srv. split.
  - intros H. rewrite wellbeing_confirm_eq, get_wellbeing_settings_eq,
      put_wellbeing_settings_eq, H.
    destruct (Zod.wellBeingSettingsSchema body); repeat split.
  - intros o Ho H. rewrite wellbeing_confirm_eq, get_wellbeing_settings_eq,
      put_wellbeing_settings_eq, Ho. simpl. rewrite H.
    split; [|split].
    + split; [reflexivity|]. simpl. apply updateOne_no_match. exact H.
    + split; reflexivity.
    + intros data ->. split; [reflexivity|]. simpl.
      apply updateOne_no_match. exact H.
Qed.

Lemma unknown_user_routes_example :
  (wellbeing_confirm Sample.env3 "admin" Sample.registered
   = (Ok (reply 500 "Failed to confirm well-being" None), Sample.registered)
   /\ get_wellbeing_settings "admin" Sample.registered
      = (Ok (reply 500 "Failed to fetch settings" None), Sample.registered)
   /\ put_wellbeing_settings Sample.env3 "admin"
        (Sample.settings "daily" JUndefined 15 true) Sample.registered
      = (Ok (reply 400 "Failed to update settings" None), Sample.registered))
  /\ fst (wellbeing_confirm Sample.env3 "0000000000000000000000ff"
            Sample.registered)
     = Ok (reply 200 "Well-being confirmed" None)
  /\ fst (get_wellbeing_settings "0000000000000000000000ff" Sample.registered)
     = Ok (reply 404 "User not found" None).
Proof.
  destruct (wellbeing_routes_for_an_unknown_user Sample.env3 "admin"
              (Sample.settings "daily" JUndefined 15 true) Sample.registered)
    as [A _].
  destruct (wellbeing_routes_for_an_unknown_user Sample.env3
              "0000000000000000000000ff"
              (Sample.settings "daily" JUndefined 15 true) Sample.registered)
    as [_ B].
  split; [apply A; reflexivity|].
  destruct (B (mkObjectId 255)) as ((C & _) & (D & _) & _).
  - vm_compute. reflexivity.
  - vm_compute. reflexivity.
  - split; [exact C | exact D].
Defined.

(** X18: after [updateUserWellBeingSettings] for a stored user with the
    seven keys of a settings request, [getUser] returns that user with
    every key as given, except that a missing [customDays] leaves the
    value stored before; the counter and the last check-in are what they
    were. *)
Theorem settings_read_back_as_submitted :
  forall env userId settings db u,
    findOne (MongoDBStorage.byId userId) (MongoDBStorage.users db) = Some u ->
    let db' :=
      snd (MongoDBStorage.updateUserWellBeingSettings env userId settings db) in
    exists user,
      MongoDBStorage.getUser userId db' = (Ok (Some user), db')
      /\ User.alertFrequency user = MongoDBStorage.s_alertFrequency settings
      /\ User.customDays user
         = match MongoDBStorage.s_customDays settings with
           | Some d => Some d
           | None => User.customDays u
           end
      /\ User.alertTime user = MongoDBStorage.s_alertTime settings
      /\ User.enableSMS user = MongoDBStorage.s_enableSMS settings
      /\ User.enableEmail user = MongoDBStorage.s_enableEmail settings
      /\ User.maxWellBeingLimit user
         = MongoDBStorage.s_maxWellBeingLimit settings
      /\ User.escalationEnabled user
         = MongoDBStorage.s_escalationEnabled settings
      /\ User.wellBeingCounter user = User.wellBeingCounter u
      /\ User.lastWellBeingCheck user = User.lastWellBeingCheck u.
Proof.
  intros env userId settings db u Hu db'.
  exists (MongoDBStorage.transformUser
            (MongoDBStorage.applySettings settings (now env) u)).
  split; [|repeat split].
  unfold MongoDBStorage.getUser, gets, db'. simpl.
  rewrite findOne_updateOne by reflexivity. rewrite Hu. reflexivity.
Qed.

Lemma settings_read_back_example :
  let db' :=
    snd (MongoDBStorage.updateUserWellBeingSettings Sample.env2 Sample.aliceId
           (Sample.daily 5 false) Sample.withA) in
  exists user,
    MongoDBStorage.getUser Sample.aliceId db' = (Ok (Some user), db')
    /\ User.maxWellBeingLimit user = 5
    /\ User.escalationEnabled user = false
    /\ User.wellBeingCounter user = 15.
Proof.
  destruct (settings_read_back_as_submitted Sample.env2 Sample.aliceId
              (Sample.daily 5 false) Sample.withA Sample.userA eq_refl)
    as (user & G & _ & _ & _ & _ & _ & L & E & C & _).
  exists user. split; [exact G|]. split; [exact L|]. split; [exact E | exact C].
Defined.

(** ** One-time passwords and the login *)

Lemma findUser_eq identifier srv :
  exists d,
    Login.findUser identifier srv
    = (Ok match findOne (fun u => String.eqb (Models.User.email u) identifier)
                  (MongoStorage.users (db srv)) with
          | Some u => Some u
          | None =>
              findOne (fun u => String.eqb (Models.User.mobileNumber u) identifier)
                (MongoStorage.users (db srv))
          end,
       set_db d srv)
    /\ MongoStorage.users d = MongoStorage.users (db srv).
Proof.
  unfold Login.findUser, bind, storage, zoom, MongoStorage.getUserByEmail,
    MongoStorage.getUserByMobile, MongoStorage.query. simpl.
  destruct (findOne _ _) as [u|]; simpl; eexists; split; reflexivity.
Qed.

Lemma findUser_users identifier srv srv' :
  MongoStorage.users (db srv') = MongoStorage.users (db srv) ->
  fst (Login.findUser identifier srv') = fst (Login.findUser identifier srv).
Proof.
  intros H.
  destruct (findUser_eq identifier srv) as (d & -> & _).
  destruct (findUser_eq identifier srv') as (d' & -> & _).
  simpl. rewrite H. reflexivity.
Qed.

Lemma findUser_state identifier srv :
  MongoStorage.users (db (snd (Login.findUser identifier srv)))
  = MongoStorage.users (db srv)
  /\ registrationTempData (snd (Login.findUser identifier srv))
     = registrationTempData srv.
Proof.
  destruct (findUser_eq identifier srv) as (d & -> & H). simpl. auto.
Qed.

Lemma loginWithOtp_eq env identifier code user srv :
  Login.loginWithOtp env identifier code user srv
  = match registrationTempData srv !! Login.otpKey identifier with
    | None => (Ok (reply 401 "Invalid or expired OTP" None), srv)
    | Some entry =>
        if negb (Login.truthy (otp entry))
           || negb (String.eqb (default EmptyString (otp entry)) code)
        then (Ok (reply 401 "Invalid or expired OTP" None), srv)
        else
          (Ok (if match otpExpiry entry with
                  | Some expiry => negb (Z.eqb expiry 0) && Z.ltb expiry (now env)
                  | None => false
                  end
               then reply 401 "OTP expired" None
               else Login.loggedIn user),
           set_registrationTempData (delete (Login.otpKey identifier)) srv)
    end.
Proof.
  unfold Login.loginWithOtp, bind, gets. simpl.
  destruct (_ !! _) as [entry|]; [|reflexivity].
  destruct (negb _ || negb _); [reflexivity|].
  destruct (otpExpiry entry) as [expiry|]; [|reflexivity].
  destruct (negb _ && _); reflexivity.
Qed.

Lemma login_eq env compare body data srv :
  Login.loginSchema body = Some data ->
  String.eqb (Login.l_identifier data) "admin@aulnovatechsoft.com"
  && match Login.l_password data with
     | Some password => String.eqb password "Admin@123"
     | None => false
     end = false ->
  Login.login env compare body srv
  = let srv1 := snd (Login.findUser (Login.l_identifier data) srv) in
    match fst (Login.findUser (Login.l_identifier data) srv) with
    | Ok (Some user) =>
        if Login.truthy (Login.l_otp data)
        then Login.loginWithOtp env (Login.l_identifier data)
               (default EmptyString (Login.l_otp data)) user srv1
        else if Login.truthy (Login.l_password data)
        then Login.loginWithPassword compare
               (default EmptyString (Login.l_password data)) user srv1
        else (Ok (reply 400 "Password or OTP required" None), srv1)
    | Ok None => (Ok (reply 401 "Invalid credentials" None), srv1)
    | Throw _ => (Ok (reply 400 "Login failed" None), srv1)
    end.
Proof.
  intros Hd Hadmin. unfold Login.login, try_catch, bind, Zod.parse.
  rewrite Hd. simpl. rewrite Hadmin.
  destruct (findUser_eq (Login.l_identifier data) srv) as (d & E & _).
  rewrite E. simpl.
  destruct (match findOne _ _ with Some u => Some u | None => _ end) as [user|];
    [|reflexivity].
  destruct (Login.truthy (Login.l_otp data)).
  - rewrite loginWithOtp_eq.
    destruct (_ !! _) as [entry|]; [|reflexivity].
    destruct (negb _ || negb _); reflexivity.
  - destruct (Login.truthy (Login.l_password data)); [|reflexivity].
    unfold Login.loginWithPassword.
    destruct (Login.truthy _); [|reflexivity].
    destruct (compare _ _); reflexivity.
Qed.

Lemma not_admin_credentials identifier password :
  ~ (identifier = "admin@aulnovatechsoft.com" /\ password = Some "Admin@123") ->
  String.eqb identifier "admin@aulnovatechsoft.com"
  && match password with
     | Some password => String.eqb password "Admin@123"
     | None => false
     end = false.
Proof.
  intros H. destruct (String.eqb_spec identifier "admin@aulnovatechsoft.com");
    [|reflexivity].
  destruct password as [p|]; [|reflexivity]. simpl.
  apply String.eqb_neq. intros ->. apply H. auto.
Qed.

Lemma send_otp_eq env code identifier srv :
  Login.send_otp env code identifier srv
  = let srv1 := snd (Login.findUser identifier srv) in
    match fst (Login.findUser identifier srv) with
    | Ok (Some _) =>
        (Ok (reply 200 "OTP sent successfully" (Some code)),
         set_registrationTempData
           <[Login.otpKey identifier :=
               {| step1Data := None; otp := Some code;
                  otpExpiry := Some (now env + 5 * 60 * 1000) |}]> srv1)
    | Ok None => (Ok (reply 404 "User not found" None), srv1)
    | Throw _ => (Ok (reply 500 "Failed to send OTP" None), srv1)
    end.
Proof.
  unfold Login.send_otp, try_catch, bind.
  destruct (findUser_eq identifier srv) as (d & E & _). rewrite E. simpl.
  destruct (match findOne _ _ with Some u => Some u | None => _ end);
    reflexivity.
Qed.

Lemma login_admin_eq env compare body data srv :
  Login.loginSchema body = Some data ->
  String.eqb (Login.l_identifier data) "admin@aulnovatechsoft.com"
  && match Login.l_password data with
     | Some password => String.eqb password "Admin@123"
     | None => false
     end = true ->
  Login.login env compare body srv
  = (Ok {| status := 200; message := None;
           payload := Some Login.Administrator |}, srv).
Proof.
  intros Hd Hadmin. unfold Login.login, try_catch, bind, Zod.parse.
  rewrite Hd. simpl. rewrite Hadmin. reflexivity.
Qed.

(** X19: a one-time password sent to a stored user is accepted by the
    login, together with the identifier it was sent for, as long as the
    clock has not passed the time of sending plus five minutes; after that
    the answer is 401 "OTP expired". Either way that attempt removes the
    code, so that the same request sent again is answered 401 "Invalid or
    expired OTP". *)
Theorem otp_is_valid_for_five_minutes_and_used_once :
  forall env0 env env' compare code identifier password body srv user,
    fst (Login.findUser identifier srv) = Ok (Some user) ->
    code <> EmptyString ->
    0 <= now env0 ->
    Login.loginSchema body
    = Some {| Login.l_identifier := identifier;
              Login.l_password := password;
              Login.l_otp := Some code |} ->
    ~ (identifier = "admin@aulnovatechsoft.com" /\ password = Some "Admin@123") ->
    let srv1 := snd (Login.send_otp env0 code identifier srv) in
    let srv2 := snd (Login.login env compare body srv1) in
    fst (Login.send_otp env0 code identifier srv)
    = Ok (reply 200 "OTP sent successfully" (Some code))
    /\ fst (Login.login env compare body srv1)
       = Ok (if Z.leb (now env) (now env0 + 5 * 60 * 1000)
             then Login.loggedIn user
             else reply 401 "OTP expired" None)
    /\ registrationTempData srv2 !! Login.otpKey identifier = None
    /\ fst (Login.login env' compare body srv2)
       = Ok (reply 401 "Invalid or expired OTP" None).
Proof.
  intros env0 env env' compare code identifier password body srv user
    Hu Hcode Hclock Hbody Hadmin srv1 srv2.
  apply not_admin_credentials in Hadmin. apply String.eqb_neq in Hcode.
  assert (S1 : Login.send_otp env0 code identifier srv
               = (Ok (reply 200 "OTP sent successfully" (Some code)),
                  set_registrationTempData
                    <[Login.otpKey identifier :=
                        {| step1Data := None; otp := Some code;
                           otpExpiry := Some (now env0 + 5 * 60 * 1000) |}]>
                    (snd (Login.findUser identifier srv)))).
  { rewrite send_otp_eq. simpl. rewrite Hu. reflexivity. }
  assert (U1 : fst (Login.findUser identifier srv1) = Ok (Some user)).
  { rewrite <- Hu. apply findUser_users. unfold srv1. rewrite S1. simpl.
    apply findUser_state. }
  assert (T1 : registrationTempData (snd (Login.findUser identifier srv1))
               !! Login.otpKey identifier
               = Some {| step1Data := None; otp := Some code;
                         otpExpiry := Some (now env0 + 5 * 60 * 1000) |}).
  { rewrite (proj2 (findUser_state identifier srv1)). unfold srv1.
    rewrite S1. simpl. apply lookup_insert_eq. }
  assert (L1 : Login.login env compare body srv1
               = (Ok (if Z.leb (now env) (now env0 + 5 * 60 * 1000)
                      then Login.loggedIn user
                      else reply 401 "OTP expired" None),
                  set_registrationTempData
                    (delete (Login.otpKey identifier))
                    (snd (Login.findUser identifier srv1)))).
  { rewrite (login_eq _ _ _ _ _ Hbody Hadmin). simpl. rewrite U1.
    rewrite Hcode. simpl. rewrite loginWithOtp_eq, T1. simpl.
    rewrite Hcode, String.eqb_refl. simpl.
    destruct (Z.eqb_spec (now env0 + 5 * 60 * 1000) 0); [lia|]. simpl.
    rewrite Z.leb_antisym. destruct (Z.ltb _ (now env)); reflexivity. }
  assert (T2 : registrationTempData srv2 !! Login.otpKey identifier = None).
  { unfold srv2. rewrite L1. simpl. apply lookup_delete_eq. }
  split; [rewrite S1; reflexivity|].
  split; [rewrite L1; reflexivity|].
  split; [exact T2|].
  rewrite (login_eq _ _ _ _ _ Hbody Hadmin). simpl.
  assert (U2 : fst (Login.findUser identifier srv2) = Ok (Some user)).
  { rewrite <- U1. apply findUser_users. unfold srv2. rewrite L1. simpl.
    apply findUser_state. }
  rewrite U2, Hcode. simpl. rewrite loginWithOtp_eq.
  rewrite (proj2 (findUser_state identifier srv2)), T2. reflexivity.
Qed.

Lemma otp_example :
  fst (Login.login (atTime (now Sample.env1 + 300001) Sample.env1)
         Sample2.compare (Sample2.otpLogin "carol@example.com" "482913")
         (snd (Login.send_otp Sample.env1 "482913" "carol@example.com"
                 Sample2.withCarol)))
  = Ok (reply 401 "OTP expired" None).
Proof.
  apply (otp_is_valid_for_five_minutes_and_used_once Sample.env1
           (atTime (now Sample.env1 + 300001) Sample.env1) Sample.env1
           Sample2.compare "482913" "carol@example.com" None
           (Sample2.otpLogin "carol@example.com" "482913")
           Sample2.withCarol Sample2.carol).
  - reflexivity.
  - discriminate.
  - discriminate.
  - reflexivity.
  - intros [H _]. discriminate H.
Defined.

Lemma findUser_Ok identifier srv :
  exists found, fst (Login.findUser identifier srv) = Ok found.
Proof.
  destruct (findUser_eq identifier srv) as (d & -> & _). eexists. reflexivity.
Qed.

(** X20: a login that carries a one-time password other than the one
    stored for its identifier (or when none is stored) leaves
    [registrationTempData] unchanged, so the stored code stays in place;
    it is answered 401 without a user, unless it carries the
    administrator's identifier and password, which are answered 200 as the
    administrator before the one-time password is looked at. *)
Theorem wrong_otp_is_refused_and_consumes_nothing :
  forall env compare body data code srv,
    Login.loginSchema body = Some data ->
    Login.l_otp data = Some code ->
    code <> EmptyString ->
    (forall entry,
       registrationTempData srv !! Login.otpKey (Login.l_identifier data)
       = Some entry ->
       otp entry <> Some code) ->
    registrationTempData (snd (Login.login env compare body srv))
    = registrationTempData srv
    /\ if String.eqb (Login.l_identifier data) "admin@aulnovatechsoft.com"
          && match Login.l_password data with
             | Some password => String.eqb password "Admin@123"
             | None => false
             end
       then fst (Login.login env compare body srv)
            = Ok {| status := 200; message := None;
                    payload := Some Login.Administrator |}
       else exists answer,
              fst (Login.login env compare body srv) = Ok answer
              /\ status answer = 401%nat
              /\ payload answer = None.
Proof.
  intros env compare body data code srv Hbody Hotp Hcode Hentry.
  destruct (String.eqb (Login.l_identifier data) "admin@aulnovatechsoft.com"
            && match Login.l_password data with
               | Some password => String.eqb password "Admin@123"
               | None => false
               end) eqn:Hadmin.
  { rewrite (login_admin_eq _ _ _ _ _ Hbody Hadmin). split; reflexivity. }
  apply String.eqb_neq in Hcode.
  rewrite (login_eq _ _ _ _ _ Hbody Hadmin). simpl.
  pose proof (findUser_state (Login.l_identifier data) srv) as [_ T].
  destruct (findUser_Ok (Login.l_identifier data) srv) as ([user|] & ->).
  - rewrite Hotp. simpl. rewrite Hcode. simpl. rewrite loginWithOtp_eq, T.
    destruct (_ !! _) as [entry|] eqn:E.
    + specialize (Hentry entry eq_refl).
      assert (W : negb (Login.truthy (otp entry))
                  || negb (String.eqb (default EmptyString (otp entry)) code)
                  = true).
      { destruct (otp entry) as [stored|]; [|reflexivity]. simpl.
        destruct (String.eqb_spec stored code) as [->|_]; [congruence|].
        apply orb_true_r. }
      rewrite W. split; [exact T|]. eexists. repeat split.
    + split; [exact T|]. eexists. repeat split.
  - split; [exact T|]. eexists. repeat split.
Qed.

Lemma wrong_otp_example :
  let srv := snd (Login.send_otp Sample.env1 "482913" "carol@example.com"
                    Sample2.withCarol) in
  (registrationTempData
     (snd (Login.login Sample.env2 Sample2.compare
             (Sample2.otpLogin "carol@example.com" "000000") srv))
   = registrationTempData srv
   /\ exists answer,
        fst (Login.login Sample.env2 Sample2.compare
               (Sample2.otpLogin "carol@example.com" "000000") srv)
        = Ok answer
        /\ status answer = 401%nat
        /\ payload answer = None)
  /\ fst (Login.login Sample.env2 Sample2.compare Sample2.adminLogin srv)
     = Ok {| status := 200; message := None;
             payload := Some Login.Administrator |}.
Proof.
  intros srv.
  assert (E : registrationTempData srv !! Login.otpKey "carol@example.com"
              = Some {| step1Data := None; otp := Some "482913";
                        otpExpiry := Some (now Sample.env1 + 5 * 60 * 1000) |}).
  { apply lookup_insert_eq. }
  split.
  - apply (wrong_otp_is_refused_and_consumes_nothing Sample.env2 Sample2.compare
             (Sample2.otpLogin "carol@example.com" "000000")
             {| Login.l_identifier := "carol@example.com";
                Login.l_password := None;
                Login.l_otp := Some "000000" |}
             "000000" srv).
    + reflexivity.
    + reflexivity.
    + discriminate.
    + intros entry H. cbn [Login.l_identifier] in H. rewrite E in H.
      injection H as <-. discriminate.
  - apply (wrong_otp_is_refused_and_consumes_nothing Sample.env2 Sample2.compare
             Sample2.adminLogin
             {| Login.l_identifier := "admin@aulnovatechsoft.com";
                Login.l_password := Some "Admin@123";
                Login.l_otp := Some "000000" |}
             "000000" srv).
    + reflexivity.
    + reflexivity.
    + discriminate.
    + intros entry H. vm_compute in H. discriminate H.
Defined.

(** X21: a login without a one-time password, for a stored user and with a
    non-empty password, is answered 200 with that user exactly when the
    user has a password hash and [bcrypt.compare] accepts the password
    against it; otherwise the answer is 401. [registrationTempData] is not
    touched. *)
Theorem password_login_is_decided_by_the_stored_hash :
  forall env compare body data password srv user,
    Login.loginSchema body = Some data ->
    ~ (Login.l_identifier data = "admin@aulnovatechsoft.com"
       /\ Login.l_password data = Some "Admin@123") ->
    Login.l_otp data = None \/ Login.l_otp data = Some EmptyString ->
    Login.l_password data = Some password ->
    password <> EmptyString ->
    fst (Login.findUser (Login.l_identifier data) srv) = Ok (Some user) ->
    let accepted :=
      match Models.User.password user with
      | Some hash => negb (String.eqb hash EmptyString) && compare password hash
      | None => false
      end in
    exists answer,
      fst (Login.login env compare body srv) = Ok answer
      /\ (accepted = true -> answer = Login.loggedIn user)
      /\ (accepted = false -> status answer = 401%nat /\ payload answer = None)
      /\ registrationTempData (snd (Login.login env compare body srv))
         = registrationTempData srv.
Proof.
  intros env compare body data password srv user Hbody Hadmin Hotp Hpw Hne Hu
    accepted.
  apply not_admin_credentials in Hadmin. apply String.eqb_neq in Hne.
  rewrite (login_eq _ _ _ _ _ Hbody Hadmin). simpl.
  pose proof (findUser_state (Login.l_identifier data) srv) as [_ T].
  rewrite Hu, Hpw.
  assert (O : Login.truthy (Login.l_otp data) = false)
    by (destruct Hotp as [-> | ->]; reflexivity).
  rewrite O. simpl. rewrite Hne. simpl.
  unfold Login.loginWithPassword, accepted, Login.truthy.
  destruct (Models.User.password user) as [hash|]; simpl.
  - destruct (String.eqb hash EmptyString); simpl.
    + eexists. repeat split; [discriminate | exact T].
    + destruct (compare password hash); simpl; eexists; repeat split;
        (discriminate || exact T).
  - eexists. repeat split; [discriminate | exact T].
Qed.

Lemma password_login_example :
  exists answer,
    fst (Login.login Sample.env2 Sample2.compare
           (Sample2.passwordLogin "9000000002" "correct horse")
           Sample2.withCarol)
    = Ok answer
    /\ (match Models.User.password Sample2.carol with
        | Some hash =>
            negb (String.eqb hash EmptyString)
            && Sample2.compare "correct horse" hash
        | None => false
        end = true ->
        answer = Login.loggedIn Sample2.carol)
    /\ (match Models.User.password Sample2.carol with
        | Some hash =>
            negb (String.eqb hash EmptyString)
            && Sample2.compare "correct horse" hash
        | None => false
        end = false ->
        status answer = 401%nat /\ payload answer = None)
    /\ registrationTempData
         (snd (Login.login Sample.env2 Sample2.compare
                 (Sample2.passwordLogin "9000000002" "correct horse")
                 Sample2.withCarol))
       = registrationTempData Sample2.withCarol.
Proof.
  apply (password_login_is_decided_by_the_stored_hash Sample.env2
           Sample2.compare
           (Sample2.passwordLogin "9000000002" "correct horse")
           {| Login.l_identifier := "9000000002";
              Login.l_password := Some "correct horse";
              Login.l_otp := None |}
           "correct horse" Sample2.withCarol Sample2.carol).
  - reflexivity.
  - intros [H _]. discriminate H.
  - left. reflexivity.
  - reflexivity.
  - discriminate.
  - reflexivity.
Defined.


(** ** Tokens and the authentication middleware *)

Lemma extract_bearer token :
  Auth.extractTokenFromHeader (Some ("Bearer " ++ token)) = Some token.
Proof. destruct token; reflexivity. Qed.

Lemma extract_raw token :
  String.prefix "Bearer " token = false ->
  Auth.extractTokenFromHeader (Some token)
  = if String.eqb token EmptyString then None else Some token.
Proof.
  intros H. unfold Auth.extractTokenFromHeader. rewrite H. reflexivity.
Qed.

(** X23: when [jwt.verify] gives back the payload of the access token that
    [generateAccessToken] issued for a user, [authenticateToken] lets a
    request with that token through, as "Bearer <token>" and as the bare
    token alike, and sets [req.userId] to the 24 hexadecimal characters of
    the user's [_id]; [requireAdmin] lets it through exactly when the
    user's e-mail address is the administrator's, and answers 403
    otherwise. *)
Theorem issued_access_token_authenticates_its_user :
  forall jwt secrets user,
    let token := Auth.generateAccessToken jwt secrets user in
    Auth.verify jwt token (Auth.JWT_SECRET secrets) Auth.verifyOptions
    = Some (Auth.accessPayload user) ->
    token <> EmptyString ->
    String.prefix "Bearer " token = false ->
    let userId := Some (toString (Models.User._id user)) in
    Auth.authenticateToken jwt secrets (Some ("Bearer " ++ token))
    = Auth.Next userId
    /\ Auth.authenticateToken jwt secrets (Some token) = Auth.Next userId
    /\ Auth.optionalAuthentication jwt secrets (Some ("Bearer " ++ token))
       = Auth.Next userId
    /\ Auth.requireAdmin jwt secrets (Some ("Bearer " ++ token))
       = if String.eqb (Models.User.email user) "admin@aulnovatechsoft.com"
         then Auth.Next userId
         else Auth.Answer 403 "Admin access required" "INSUFFICIENT_PERMISSIONS".
Proof.
  intros jwt secrets user token Hv Hne Hraw userId.
  apply String.eqb_neq in Hne.
  assert (V : Auth.verifyAccessToken jwt secrets token
              = Ok (Auth.accessPayload user)).
  { unfold Auth.verifyAccessToken. rewrite Hv. reflexivity. }
  unfold Auth.authenticateToken, Auth.optionalAuthentication, Auth.requireAdmin.
  rewrite extract_bearer, (extract_raw _ Hraw), Hne.
  unfold Auth.noToken. rewrite Hne. simpl. rewrite V. simpl.
  repeat split. unfold Auth.adminEmail.
  destruct (String.eqb (Models.User.email user) _); reflexivity.
Qed.

Lemma issued_access_token_example :
  Auth.authenticateToken Sample2.carolJwt Sample2.secrets
    (Some ("Bearer "
           ++ Auth.generateAccessToken Sample2.carolJwt Sample2.secrets
                Sample2.carol))
  = Auth.Next (Some (toString (Models.User._id Sample2.carol))).
Proof.
  apply (issued_access_token_authenticates_its_user Sample2.carolJwt
           Sample2.secrets Sample2.carol).
  - reflexivity.
  - discriminate.
  - reflexivity.
Defined.

(** X24: [authenticateToken] and [requireAdmin] let a request through only
    when its header holds a non-empty token that [jwt.verify] accepts under
    [JWT_SECRET] with a payload of type "access", and then [req.userId] is
    the [userId] of that payload; for [requireAdmin] the e-mail address of
    the payload is moreover the administrator's. A refresh token is
    therefore never accepted in place of an access token.
    [optionalAuthentication] never answers: it always calls [next()]. *)
Theorem middleware_passes_only_verified_access_tokens :
  forall jwt secrets authorization,
    (forall userId,
       Auth.authenticateToken jwt secrets authorization = Auth.Next userId
       \/ Auth.requireAdmin jwt secrets authorization = Auth.Next userId ->
       exists token decoded,
         Auth.extractTokenFromHeader authorization = Some token
         /\ token <> EmptyString
         /\ Auth.verify jwt token (Auth.JWT_SECRET secrets) Auth.verifyOptions
            = Some decoded
         /\ Auth.type decoded = "access"
         /\ userId = Some (Auth.userId decoded)
         /\ (Auth.requireAdmin jwt secrets authorization = Auth.Next userId ->
             Auth.email decoded = "admin@aulnovatechsoft.com"))
    /\ exists userId,
         Auth.optionalAuthentication jwt secrets authorization = Auth.Next userId.
Proof.
  intros jwt secrets authorization. split.
  - intros userId.
    unfold Auth.authenticateToken, Auth.requireAdmin, Auth.verifyAccessToken,
      Auth.noToken.
    destruct (Auth.extractTokenFromHeader authorization) as [token|];
      [|intros [H|H]; discriminate H].
    destruct (String.eqb_spec token EmptyString) as [E|E];
      [intros [H|H]; discriminate H|].
    simpl.
    destruct (Auth.verify jwt token _ _) as [decoded|] eqn:V;
      [|intros [H|H]; discriminate H].
    destruct (String.eqb_spec (Auth.type decoded) "access") as [T|T];
      [|intros [H|H]; discriminate H].
    unfold Auth.adminEmail.
    destruct (String.eqb_spec (Auth.email decoded) "admin@aulnovatechsoft.com")
      as [A|A]; simpl; intros [H|H]; try discriminate H;
      injection H as <-; exists token, decoded;
      (repeat split; try assumption; try reflexivity);
      intros H'; first [exact A | discriminate H'].
  - unfold Auth.optionalAuthentication.
    destruct (Auth.noToken _); [eexists; reflexivity|].
    destruct (Auth.verifyAccessToken _ _ _); eexists; reflexivity.
Qed.

(** ** The account status *)

Lemma map_filter_updateOne {A B} (g : A -> B) (q p : A -> bool) (f : A -> A) l :
  (forall x, q (f x) = q x) -> (forall x, g (f x) = g x) ->
  List.map g (List.filter q (updateOne p f l)) = List.map g (List.filter q l).
Proof.
  intros Hq Hg. induction l as [|x l IH]; simpl; [reflexivity|].
  destruct (p x); simpl.
  - rewrite Hq. destruct (q x); simpl; rewrite ?Hg; reflexivity.
  - destruct (q x); simpl; rewrite IH; reflexivity.
Qed.

(** X25: [updateUserStatus] writes the account status of the user it names
    and nothing else that the escalation reads: every stored user keeps its
    [_id], [id], counter, limit and last check-in, and
    [getUsersWithExceededLimits] returns the same users as before, a
    suspended or deactivated one included. *)
Theorem account_status_does_not_affect_the_exceeded_list :
  forall env userId status d,
    let d' := snd (MongoDBStorage.updateUserStatus env userId status d) in
    Forall2
      (fun u u' =>
         Schema.User._id u' = Schema.User._id u
         /\ Schema.User.id u' = Schema.User.id u
         /\ Schema.User.wellBeingCounter u' = Schema.User.wellBeingCounter u
         /\ Schema.User.maxWellBeingLimit u' = Schema.User.maxWellBeingLimit u
         /\ Schema.User.lastWellBeingCheck u' = Schema.User.lastWellBeingCheck u
         /\ (u' = u
             \/ (Schema.User.id u = userId
                 /\ Schema.User.accountStatus u' = status)))
      (MongoDBStorage.users d) (MongoDBStorage.users d')
    /\ exists before after,
         MongoDBStorage.getUsersWithExceededLimits d = (Ok before, d)
         /\ MongoDBStorage.getUsersWithExceededLimits d' = (Ok after, d')
         /\ List.map Schema.User._id after = List.map Schema.User._id before
         /\ List.map Schema.User.wellBeingCounter after
            = List.map Schema.User.wellBeingCounter before.
Proof.
  intros env userId status d d'. split.
  - unfold d', MongoDBStorage.updateUserStatus, modify. simpl.
    eapply List.Forall2_impl; [|apply updateOne_Forall2].
    intros u u' [->|[Hp ->]].
    + repeat split. left. reflexivity.
    + repeat split. right. split; [|reflexivity].
      apply String.eqb_eq. exact Hp.
  - eexists _, _. split; [reflexivity|]. split; [reflexivity|].
    unfold d', MongoDBStorage.updateUserStatus, modify, find. simpl.
    rewrite !List.map_map. split.
    + apply (map_filter_updateOne
               (fun x => Schema.User._id (MongoDBStorage.transformUser x)));
        reflexivity.
    + apply (map_filter_updateOne
               (fun x => Schema.User.wellBeingCounter
                           (MongoDBStorage.transformUser x)));
        reflexivity.
Qed.

(** X26: the refresh token [generateRefreshToken] issues for a user is
    accepted by [verifyRefreshToken], which gives back its payload, and is
    refused as an access token: [authenticateToken] and [requireAdmin]
    answer 401, whether [jwt.verify] rejects it under [JWT_SECRET] or (the
    two secrets being equal) returns its payload. *)
Theorem refresh_token_is_refused_as_access_token :
  forall jwt secrets user,
    let token := Auth.generateRefreshToken jwt secrets user in
    Auth.verify jwt token (Auth.JWT_REFRESH_SECRET secrets) Auth.verifyOptions
    = Some (Auth.refreshPayload user) ->
    Auth.verify jwt token (Auth.JWT_SECRET secrets) Auth.verifyOptions = None
    \/ Auth.verify jwt token (Auth.JWT_SECRET secrets) Auth.verifyOptions
       = Some (Auth.refreshPayload user) ->
    token <> EmptyString ->
    Auth.verifyRefreshToken jwt secrets token = Ok (Auth.refreshPayload user)
    /\ Auth.verifyAccessToken jwt secrets token
       = Throw "Invalid or expired access token"
    /\ Auth.authenticateToken jwt secrets (Some ("Bearer " ++ token))
       = Auth.Answer 401 "Invalid or expired token" "INVALID_TOKEN"
    /\ Auth.requireAdmin jwt secrets (Some ("Bearer " ++ token))
       = Auth.Answer 401 "Invalid or expired token" "INVALID_TOKEN"
    /\ Auth.optionalAuthentication jwt secrets (Some ("Bearer " ++ token))
       = Auth.Next None.
Proof.
  intros jwt secrets user token Hr Ha Hne. apply String.eqb_neq in Hne.
  assert (V : Auth.verifyAccessToken jwt secrets token
              = Throw "Invalid or expired access token").
  { unfold Auth.verifyAccessToken. destruct Ha as [-> | ->]; reflexivity. }
  split; [unfold Auth.verifyRefreshToken; rewrite Hr; reflexivity|].
  split; [exact V|].
  unfold Auth.authenticateToken, Auth.requireAdmin, Auth.optionalAuthentication.
  rewrite extract_bearer. unfold Auth.noToken. rewrite Hne. simpl.
  rewrite V. repeat split.
Qed.

Lemma refresh_token_example :
  Auth.authenticateToken Sample2.carolJwt Sample2.secrets
    (Some ("Bearer "
           ++ Auth.generateRefreshToken Sample2.carolJwt Sample2.secrets
                Sample2.carol))
  = Auth.Answer 401 "Invalid or expired token" "INVALID_TOKEN".
Proof.
  apply (refresh_token_is_refused_as_access_token Sample2.carolJwt
           Sample2.secrets Sample2.carol).
  - reflexivity.
  - left. reflexivity.
  - discriminate.
Defined.
(** ** Sequences of requests *)

Lemma login_state env compare body srv :
  MongoStorage.users (db (snd (Login.login env compare body srv)))
  = MongoStorage.users (db srv).
Proof.
  destruct (Login.loginSchema body) as [data|] eqn:Hbody.
  - destruct (String.eqb (Login.l_identifier data) "admin@aulnovatechsoft.com"
              && match Login.l_password data with
                 | Some password => String.eqb password "Admin@123"
                 | None => false
                 end) eqn:Hadmin.
    + rewrite (login_admin_eq _ _ _ _ _ Hbody Hadmin). reflexivity.
    + rewrite (login_eq _ _ _ _ _ Hbody Hadmin). simpl.
      pose proof (findUser_state (Login.l_identifier data) srv) as [U _].
      destruct (findUser_Ok (Login.l_identifier data) srv) as ([user|] & ->);
        [|exact U].
      destruct (Login.truthy (Login.l_otp data)).
      * rewrite loginWithOtp_eq.
        destruct (_ !! _) as [entry|]; [|exact U].
        destruct (negb _ || negb _); exact U.
      * destruct (Login.truthy (Login.l_password data)); [|exact U].
        unfold Login.loginWithPassword.
        destruct (Login.truthy _); [|exact U].
        destruct (compare _ _); exact U.
  - unfold Login.login, try_catch, bind, Zod.parse. rewrite Hbody. reflexivity.
Qed.

Lemma send_otp_state env code identifier srv :
  MongoStorage.users (db (snd (Login.send_otp env code identifier srv)))
  = MongoStorage.users (db srv).
Proof.
  rewrite send_otp_eq. simpl.
  pose proof (findUser_state identifier srv) as [U _].
  destruct (findUser_Ok identifier srv) as ([user|] & ->); exact U.
Qed.

(** What one request does to the users collection: nothing, or it adds a
    document that the unique indexes accept, or it stamps [updatedAt] on
    one document. *)
Lemma step_users srv env request :
  let l := MongoStorage.users (db srv) in
  let l' := MongoStorage.users (db (Requests.step srv (env, request))) in
  l' = l
  \/ (exists user,
        l' = (l ++ [user])%list /\ MongoStorage.duplicateKey user l = false)
  \/ (exists o,
        l' = updateOne (MongoStorage.byObjectId o) (MongoStorage.stamp (now env)) l).
Proof.
  unfold Requests.step, Requests.handle; simpl.
  destruct request as [body|body|code identifier|compare body|userId|userId
                       |userId body]; unfold bind.
  - left. rewrite register_step1_eq.
    destruct (Zod.registrationStep1Schema body) as [data|]; [|reflexivity].
    simpl. destruct (findOne _ _); reflexivity.
  - rewrite register_step2_eq.
    destruct (Zod.registrationStep2Schema env body) as [data|];
      [|left; reflexivity].
    destruct (_ ≫= step1Data) as [step1|]; [|left; reflexivity].
    simpl. destruct (findOne _ _); [left; reflexivity|].
    pose proof (MongoStorage_createUser_users env (userDataOf env step1 data)
                  (MongoStorage.logQuery "User.findOne" (db srv))) as C.
    destruct (MongoStorage.createUser _ _ _) as [[user|e] d2]; simpl.
    + right. left. exists user. destruct C as (C1 & C2 & _). auto.
    + left. exact C.
  - left.
    pose proof (send_otp_state env code identifier srv) as S.
    destruct (Login.send_otp env code identifier srv) as [[r|e] srv'];
      exact S.
  - left.
    pose proof (login_state env compare body srv) as S.
    destruct (Login.login env compare body srv) as [[r|e] srv']; exact S.
  - rewrite wellbeing_confirm_eq.
    destruct (castObjectId userId) as [o|]; [|left; reflexivity].
    right. right. exists o. reflexivity.
  - left. rewrite get_wellbeing_settings_eq.
    destruct (castObjectId userId) as [o|]; [|reflexivity].
    simpl. destruct (findOne _ _); reflexivity.
  - rewrite put_wellbeing_settings_eq.
    destruct (Zod.wellBeingSettingsSchema body); [|left; reflexivity].
    destruct (castObjectId userId) as [o|]; [|left; reflexivity].
    right. right. exists o. reflexivity.
Qed.

Lemma MongoStorage_duplicateKey_false user l :
  MongoStorage.duplicateKey user l = false ->
  ~ In (Models.User._id user) (List.map Models.User._id l)
  /\ ~ In (Models.User.mobileNumber user) (List.map Models.User.mobileNumber l)
  /\ ~ In (Models.User.email user) (List.map Models.User.email l).
Proof.
  unfold MongoStorage.duplicateKey. intros H.
  assert (N : forall v, In v l ->
    ObjectId_eqb (Models.User._id v) (Models.User._id user)
    || String.eqb (Models.User.mobileNumber v) (Models.User.mobileNumber user)
    || String.eqb (Models.User.email v) (Models.User.email user) = false).
  { intros v Hv. destruct (_ || _ || _) eqn:E; [|reflexivity].
    rewrite <- H. symmetry. apply List.existsb_exists. exists v. auto. }
  repeat split; intros Hin; apply List.in_map_iff in Hin as (v & Hk & Hv);
    specialize (N v Hv); rewrite Hk in N.
  - rewrite ObjectId_eqb_refl in N. discriminate.
  - rewrite String.eqb_refl, orb_true_r in N. discriminate.
  - rewrite String.eqb_refl, orb_true_r in N. discriminate.
Qed.

Lemma run_unique_keys evs : forall srv,
  NoDup (List.map Models.User._id (MongoStorage.users (db srv)))
  /\ NoDup (List.map Models.User.mobileNumber (MongoStorage.users (db srv)))
  /\ NoDup (List.map Models.User.email (MongoStorage.users (db srv))) ->
  let l := MongoStorage.users (db (Requests.run evs srv)) in
  NoDup (List.map Models.User._id l)
  /\ NoDup (List.map Models.User.mobileNumber l)
  /\ NoDup (List.map Models.User.email l).
Proof.
  induction evs as [|[env request] evs IH]; intros srv H; simpl; [exact H|].
  apply IH. destruct H as (Hi & Hm & He).
  destruct (step_users srv env request) as [->|[(user & -> & D)|(o & ->)]].
  - auto.
  - apply MongoStorage_duplicateKey_false in D as (Di & Dm & De).
    rewrite !List.map_app. simpl.
    repeat split; apply NoDup_snoc; assumption.
  - rewrite !updateOne_map by reflexivity. auto.
Qed.

(** X28: in every state reached from the empty server by the two
    registration phases, one-time passwords, logins, check-ins and
    settings reads and updates, no two stored users share an [_id], a
    mobile number or an e-mail address. *)
Theorem registered_users_have_unique_keys :
  forall evs,
    let l := MongoStorage.users (db (Requests.run evs emptyServer)) in
    NoDup (List.map Models.User._id l)
    /\ NoDup (List.map Models.User.mobileNumber l)
    /\ NoDup (List.map Models.User.email l).
Proof.
  intros evs. apply run_unique_keys. repeat split; constructor.
Qed.

